(** * AutoGenDevTeam workflow orchestrator (workflow.py): model and properties

    A shallow embedding of [WorkflowOrchestrator]: the speaker selector
    (the transition table with its review loop), the marker-based file
    extraction and the [initiate_workflow] facade, together with the
    properties of the specification that concern them; and of what the
    application (app.py) does around a run: the validation of the request
    and the progress callback.

    Python [str] values that the program inspects character by character
    (message contents, the request, file names and bodies) are lists of
    Unicode code points.  Agent names and dictionary keys are only ever
    compared for equality with literals; they are Rocq strings. *)

From Stdlib Require Import ZArith NArith Ascii String List Bool Lia.
From stdpp Require Import base option list gmap strings.

Open Scope Z_scope.

(** ** Text *)

Definition char := N.
Definition str := list char.

(** A literal of the source, as code points. *)
Definition py (s : string) : str := N_of_ascii <$> list_ascii_of_string s.

Definition nl : char := 10%N.
Definition slash : char := 47%N.

(** [Py_UNICODE_ISSPACE]: the class used by [str.strip()] and by [\s] in a
    [str] pattern. *)
Definition is_space (c : char) : bool :=
  ((9 <=? c) && (c <=? 13) || (28 <=? c) && (c <=? 32)
   || (c =? 133) || (c =? 160) || (c =? 5760)
   || (8192 <=? c) && (c <=? 8202)
   || (c =? 8232) || (c =? 8233) || (c =? 8239) || (c =? 8287)
   || (c =? 12288))%N.

Definition non_space (c : char) : bool := negb (is_space c).
Definition any_char (c : char) : bool := true.

Definition str_eqb (a b : str) : bool := bool_decide (a = b).

(** [s.startswith(p)], returning what follows the prefix. *)
Fixpoint strip_prefix (p s : str) : option str :=
  match p, s with
  | [], _ => Some s
  | a :: p', b :: s' => if (a =? b)%N then strip_prefix p' s' else None
  | _ :: _, [] => None
  end.

Definition starts_with (p s : str) : bool :=
  match strip_prefix p s with Some _ => true | None => false end.

(** [needle in hay] on strings. *)
Fixpoint contains (needle hay : str) : bool :=
  starts_with needle hay ||
  match hay with
  | [] => false
  | _ :: t => contains needle t
  end.

Fixpoint lstrip (s : str) : str :=
  match s with
  | c :: s' => if is_space c then lstrip s' else s
  | [] => []
  end.

(** [s.strip()] *)
Definition strip (s : str) : str := rev (lstrip (rev (lstrip s))).

(** [s.split(sep)] for a one-character separator. *)
Fixpoint split_on (sep : char) (s : str) : list str :=
  match s with
  | [] => [[]]
  | c :: s' =>
      if (c =? sep)%N then [] :: split_on sep s'
      else match split_on sep s' with
           | w :: ws => (c :: w) :: ws
           | [] => [[c]]
           end
  end.

(** ** The file-block pattern

    [file_pattern = r'===BEGIN_FILE:([^\s]+)===\s*\n(.*?)\n===END_FILE===']
    matched with [re.DOTALL].  Python's [re] is a backtracking matcher: a
    greedy quantifier tries the longest repetition first and gives back one
    character at a time, a lazy one tries the shortest first.  Each piece of
    the pattern is a combinator taking the rest of the pattern as a
    continuation [k]; a continuation answering [None] makes the piece try
    its next alternative. *)

Section Regex.
Context {R : Type}.

(** A literal run of characters. *)
Definition lit (p : str) (s : str) (k : str -> option R) : option R :=
  match strip_prefix p s with
  | Some rest => k rest
  | None => None
  end.

(** [cls*], greedy; [acc] is the text matched so far. *)
Fixpoint greedy (cls : char -> bool) (s : str) (acc : str)
    (k : str -> str -> option R) : option R :=
  match s with
  | c :: s' =>
      if cls c then
        match greedy cls s' (acc ++ [c]) k with
        | Some r => Some r
        | None => k acc s
        end
      else k acc s
  | [] => k acc s
  end.

(** [cls+], greedy. *)
Definition greedy1 (cls : char -> bool) (s : str)
    (k : str -> str -> option R) : option R :=
  match s with
  | c :: s' => if cls c then greedy cls s' [c] k else None
  | [] => None
  end.

(** [cls*?], lazy. *)
Fixpoint lazy (cls : char -> bool) (s : str) (acc : str)
    (k : str -> str -> option R) : option R :=
  match k acc s with
  | Some r => Some r
  | None =>
      match s with
      | c :: s' => if cls c then lazy cls s' (acc ++ [c]) k else None
      | [] => None
      end
  end.
End Regex.

Definition BEGIN_FILE : str := py "===BEGIN_FILE:".
Definition EQUALS3 : str := py "===".
Definition END_FILE : str := nl :: py "===END_FILE===".

(** One attempt of [file_pattern] at the start of [s]: the two groups and
    the text left after the match. *)
Definition file_pattern (s : str) : option (str * str * str) :=
  lit BEGIN_FILE s (fun s1 =>
  greedy1 non_space s1 (fun filename s2 =>
  lit EQUALS3 s2 (fun s3 =>
  greedy is_space s3 [] (fun _ s4 =>
  lit [nl] s4 (fun s5 =>
  lazy any_char s5 [] (fun file_content s6 =>
  lit END_FILE s6 (fun s7 =>
  Some (filename, file_content, s7)))))))).

(** [re.findall(file_pattern, content, re.DOTALL)]: the leftmost match,
    then the leftmost match after its end, and so on.  [skip] counts the
    characters of the current match still to be stepped over (a match of
    this pattern is never empty). *)
Fixpoint findall_from (s : str) (skip : nat) : list (str * str) :=
  match s with
  | [] => []
  | _ :: s' =>
      match skip with
      | S n => findall_from s' n
      | O =>
          match file_pattern s with
          | Some (filename, file_content, rest) =>
              (filename, file_content)
                :: findall_from s' (length s - length rest - 1)
          | None => findall_from s' 0
          end
      end
  end.

Definition findall (content : str) : list (str * str) := findall_from content 0.

(** ** Exceptions

    The handlers of [initiate_workflow] distinguish five families of
    exception; [OtherBaseException] stands for [SystemExit] and
    [GeneratorExit], which no [except Exception] clause catches. *)

Inductive exn_kind :=
| KeyboardInterrupt
| OtherBaseException
| TimeoutError
| ValueError
| ConnectionError
| OtherException.

Record exn := {
  kind : exn_kind;
  type_name : string;   (* type(e).__name__ *)
  exn_text : str        (* str(e) *)
}.

(** [isinstance(e, Exception)] *)
Definition is_Exception (e : exn) : bool :=
  match kind e with
  | KeyboardInterrupt | OtherBaseException => false
  | _ => true
  end.

Inductive py_result (A : Type) :=
| Ok (a : A)
| Raise (e : exn).
Arguments Ok {A} a.
Arguments Raise {A} e.

(** The errors of the operating system, by their class.  Their text
    ([[Errno 2] No such file or directory: ...]) is not kept. *)
Definition os_error (cls : string) : exn :=
  {| kind := OtherException; type_name := cls; exn_text := [] |}.

Definition KeyError (key : string) : exn :=
  {| kind := OtherException; type_name := "KeyError";
     exn_text := py ("'" ++ key ++ "'") |}.

(** ** The file system seen by [os.makedirs] and [open(..., 'w')]

    A path is the list of its components from the root.  Symbolic links,
    permissions and name-length limits are not modelled. *)

Abbreviation path := (list str).

Record filesystem := {
  cwd : path;
  dirs : gset path;
  files : gmap path str
}.

Definition is_dir (f : filesystem) (p : path) : bool :=
  bool_decide (p = []) || bool_decide (p ∈ dirs f).

Definition is_file (f : filesystem) (p : path) : bool :=
  bool_decide (is_Some (files f !! p)).

Definition add_dir (p : path) (f : filesystem) : filesystem :=
  {| cwd := cwd f; dirs := {[p]} ∪ dirs f; files := files f |}.

Definition put_file (p : path) (body : str) (f : filesystem) : filesystem :=
  {| cwd := cwd f; dirs := dirs f; files := <[p:=body]> (files f) |}.

(** [os.makedirs(done/todo, exist_ok=True)], [done] being a directory
    already: existing directories are kept, missing ones are created, a
    regular file in the way is an error. *)
Fixpoint makedirs (f : filesystem) (done todo : path) : py_result filesystem :=
  match todo with
  | [] => Ok f
  | c :: rest =>
      let p := done ++ [c] in
      if is_file f p then
        Raise (os_error (match rest with
                         | [] => "FileExistsError"
                         | _ => "NotADirectoryError"
                         end))
      else makedirs (if is_dir f p then f else add_dir p f) p rest
  end.

Definition dot : str := py ".".
Definition dotdot : str := py "..".

(** Directory lookup along [comps], starting in [cur]: every component is
    looked up in an existing directory; empty components and [.] stay,
    [..] goes up. *)
Fixpoint walk (f : filesystem) (cur : path) (comps : list str) : py_result path :=
  match comps with
  | [] => Ok cur
  | c :: rest =>
      if negb (is_dir f cur) then
        Raise (os_error (if is_file f cur then "NotADirectoryError"
                         else "FileNotFoundError"))
      else if str_eqb c [] || str_eqb c dot then walk f cur rest
      else if str_eqb c dotdot then walk f (removelast cur) rest
      else walk f (cur ++ [c]) rest
  end.

(** What [str.encode('utf-8')] accepts: no surrogate code point. *)
Definition utf8_encodable (s : str) : bool :=
  forallb (fun c => ((c <? 55296) || (57343 <? c) && (c <=? 1114111))%N) s.

Definition UnicodeEncodeError : exn :=
  {| kind := ValueError; type_name := "UnicodeEncodeError"; exn_text := [] |}.

(** What [os.fsencode] accepts in a file name: UTF-8 with the
    [surrogateescape] handler, which also takes the code points U+DC80 to
    U+DCFF (they stand for the bytes 128 to 255). *)
Definition fs_encodable (s : str) : bool :=
  forallb (fun c => ((c <? 55296) || (56448 <=? c) && (c <=? 56575)
                     || (57343 <? c) && (c <=? 1114111))%N) s.

(** [with open(filepath, 'w', encoding='utf-8') as f: f.write(body)] for
    the path with components [comps] from the root.  A name that cannot
    be encoded, or that holds a NUL character, is refused before anything
    is looked up (both errors are of the [ValueError] family).  The file
    is created (or truncated) by [open]; nothing is created above it.  A
    body that cannot be encoded fails in [write], after the truncation. *)
Definition write_text (comps : path) (body : str) (f : filesystem)
    : py_result unit * filesystem :=
  if existsb (fun c => negb (fs_encodable c)) comps
  then (Raise UnicodeEncodeError, f)
  else if existsb (fun c => bool_decide (0%N ∈ c)) comps
  then (Raise {| kind := ValueError; type_name := "ValueError";
                 exn_text := py "embedded null byte" |}, f)
  else
    match walk f [] (removelast comps) with
    | Raise e => (Raise e, f)
    | Ok d =>
        match last comps with
        | None => (Raise (os_error "IsADirectoryError"), f)
        | Some leaf =>
            if negb (is_dir f d) then
              (Raise (os_error (if is_file f d then "NotADirectoryError"
                                else "FileNotFoundError")), f)
            else if str_eqb leaf [] || str_eqb leaf dot || str_eqb leaf dotdot
                    || is_dir f (d ++ [leaf]) then
              (Raise (os_error "IsADirectoryError"), f)
            else if utf8_encodable body then
              (Ok tt, put_file (d ++ [leaf]) body f)
            else (Raise UnicodeEncodeError, put_file (d ++ [leaf]) [] f)
        end
    end.

(** [os.path.join(workspace_path, filename)], in components: an absolute
    [filename] replaces the workspace path. *)
Definition path_join (workspace_path : path) (filename : str) : path :=
  if starts_with [slash] filename then split_on slash filename
  else workspace_path ++ split_on slash filename.

(** ** Collaborators, orchestrator state and the effect monad *)

Inductive level := DEBUG | INFO | WARNING | ERROR.

(** What a run does that can be observed from outside the orchestrator:
    the lines it logs (the fixed part of each message) and the calls it
    makes to its collaborators. *)
Inductive event :=
| Logged (lvl : level) (text : string)
| Notified (stage action : string) (iteration : option Z)
| Replied (agent : string)
| ConfigLoaded
| GroupChatCreated
| ManagerCreated
| TestsRun.

Inductive pyvalue :=
| PyNone
| PyBool (b : bool)
| PyInt (z : Z)
| PyStr (s : str).

(** An entry of [groupchat.messages]: the name of its speaker, when it has
    one, and its content, a text. *)
Record message := {
  msg_name : option string;   (* msg.get("name") *)
  msg_content : str           (* msg["content"] *)
}.

(** Modelled from the spec: the per-file entries of the report returned by
    [utils.test_executor.run_tests_in_workspace], which is not among the
    sources (TestOutcome of the data model). *)
Record test_outcome := {
  to_file : str;
  to_status : string;
  to_tests_run : Z;
  to_failures : Z;
  to_errors : Z;
  to_output : str
}.

(** The dictionary held in [test_results]. *)
Record test_report := {
  report_status : string;
  report_message : option str;
  total_tests : Z;
  total_passed : Z;
  total_failed : Z;
  total_errors : Z;
  file_results : list test_outcome
}.

(** The dictionary returned by [initiate_workflow]: its ["status"] is
    ["success"] or ["error"], and the other keys depend on it. *)
Inductive workflow_result :=
| Success (total_messages : nat) (review_iterations : Z)
    (files_extracted : nat) (messages : list message)
    (tests : test_report)
| Error (error : str) (review_iterations : Z).

Definition result_status (r : workflow_result) : string :=
  match r with
  | Success _ _ _ _ _ => "success"
  | Error _ _ => "error"
  end.


Definition result_tests (r : workflow_result) : option test_report :=
  match r with
  | Success _ _ _ _ t => Some t
  | Error _ _ => None
  end.

Definition result_review_iterations (r : workflow_result) : Z :=
  match r with
  | Success _ n _ _ _ => n
  | Error _ n => n
  end.

Section Effects.
(** Whatever lies outside the program and is not the file system: the
    clock, the network, the language model, the user interface. *)
Variable W : Type.

Record world := {
  fs : filesystem;
  ext : W
}.

(** A computation of a collaborator: it sees and changes the world, and
    returns or raises. *)
Definition external (A : Type) : Type := world -> py_result A * world.

(** An agent object: its [name] and its [generate_reply], which answers
    from the transcript ([None]: no reply). *)
Record Agent := {
  name : string;
  generate_reply : list message -> external (option str)
}.

(** The fields of [WorkflowOrchestrator] that [__init__] sets and nothing
    assigns afterwards. *)
Record Orchestrator := {
  agents : gmap string Agent;
  max_review_iterations : Z;
  progress_callback : option (string -> string -> option Z -> external pyvalue)
}.

(** The state a run threads: the orchestrator's counter, the events so
    far, and the world. *)
Record state := {
  review_iteration_count : Z;
  trace : list event;
  outside : world
}.

Definition M (A : Type) : Type := state -> py_result A * state.

Definition ret {A} (a : A) : M A := fun s => (Ok a, s).

Definition bind {A B} (c : M A) (k : A -> M B) : M B :=
  fun s =>
    match c s with
    | (Ok a, s') => k a s'
    | (Raise e, s') => (Raise e, s')
    end.

Definition raise {A} (e : exn) : M A := fun s => (Raise e, s).

(** [try: c  except Exception as e: h e] *)
Definition try_except_Exception {A} (c : M A) (h : exn -> M A) : M A :=
  fun s =>
    match c s with
    | (Raise e, s') => if is_Exception e then h e s' else (Raise e, s')
    | r => r
    end.

Definition emit (ev : event) : M unit :=
  fun s => (Ok tt, {| review_iteration_count := review_iteration_count s;
                      trace := trace s ++ [ev];
                      outside := outside s |}).

Definition log (lvl : level) (text : string) : M unit := emit (Logged lvl text).

(** A call to a collaborator, recorded as [ev]. *)
Definition call {A} (ev : event) (c : external A) : M A :=
  fun s =>
    let (r, w) := c (outside s) in
    (r, {| review_iteration_count := review_iteration_count s;
           trace := trace s ++ [ev];
           outside := w |}).

(** An operation of the program itself on the file system. *)
Definition on_fs {A} (op : filesystem -> py_result A * filesystem) : M A :=
  fun s =>
    let (r, f) := op (fs (outside s)) in
    (r, {| review_iteration_count := review_iteration_count s;
           trace := trace s;
           outside := {| fs := f; ext := ext (outside s) |} |}).

Definition get_count : M Z := fun s => (Ok (review_iteration_count s), s).

Definition set_count (n : Z) : M unit :=
  fun s => (Ok tt, {| review_iteration_count := n;
                      trace := trace s;
                      outside := outside s |}).

(** [d[key]] *)
Definition getitem (d : gmap string Agent) (key : string) : M Agent :=
  match d !! key with
  | Some a => ret a
  | None => raise (KeyError key)
  end.

(** [if self.progress_callback: self.progress_callback(stage, action, ...)];
    what the callback returns is dropped. *)
Definition notify (self : Orchestrator) (stage action : string)
    (iteration : option Z) : M unit :=
  match progress_callback self with
  | Some callback =>
      bind (call (Notified stage action iteration)
              (callback stage action iteration))
           (fun _ => ret tt)
  | None => ret tt
  end.
End Effects.

Arguments ret {W A} a.
Arguments bind {W A B} c k.
Arguments raise {W A} e.
Arguments try_except_Exception {W A} c h.
Arguments emit {W} ev.
Arguments log {W} lvl text.
Arguments call {W A} ev c.
Arguments on_fs {W A} op.
Arguments get_count {W}.
Arguments set_count {W} n.
Arguments getitem {W} d key.
Arguments notify {W} self stage action iteration.
Arguments name {W} _.
Arguments generate_reply {W} _ _ _.
Arguments agents {W} _.
Arguments max_review_iterations {W} _.
Arguments progress_callback {W} _.
Arguments review_iteration_count {W} _.
Arguments trace {W} _.
Arguments outside {W} _.
Arguments fs {W} _.
Arguments ext {W} _.

Notation "x <- c ;; k" := (bind c (fun x => k))
  (at level 100, c at next level, right associativity).
Notation "c ;; k" := (bind c (fun _ => k))
  (at level 100, right associativity).

(** ** The orchestrator *)

Definition FIX_REQUIRED : str := py "FIX_REQUIRED".

(** ["=" * 80], the rule logged around the headings of a run. *)
Definition separator : string :=
  "================================================================================".
Definition APPROVED : str := py "APPROVED".

Section Orchestrator.
Context {W : Type}.

(** [from agents import get_llm_config] and
    [from utils.test_executor import run_tests_in_workspace]: both modules
    are outside the sources.  The test runner receives the workspace
    path. *)
Variable get_llm_config : external W unit.
Variable run_tests_in_workspace : path -> external W test_report.

(** [any(msg.get("name") == "UX_Designer" for msg in messages)] *)
Definition ux_designer_has_spoken (messages : list message) : bool :=
  existsb (fun msg => bool_decide (msg_name msg = Some "UX_Designer")) messages.

(** [messages[-1]["content"] if messages else ""] *)
Definition last_content (messages : list message) : str :=
  match last messages with
  | Some m => msg_content m
  | None => []
  end.

Definition custom_speaker_selector (self : Orchestrator W)
    (last_speaker : Agent W) (messages : list message)
    : M W (option (Agent W)) :=
  let last_message := last_content messages in
  let last_speaker_name := name last_speaker in
  log DEBUG "Speaker selection: Last speaker" ;;
  let ux_spoken := ux_designer_has_spoken messages in
  if (last_speaker_name =? "Admin_Proxy")%string && negb ux_spoken then
    next_agent <- getitem (agents self) "product_manager" ;;
    log INFO "[Workflow] Transition | Admin -> Product_Manager (workflow start)" ;;
    notify self "product_manager" "analyzing" None ;;
    ret (Some next_agent)
  else if (last_speaker_name =? "Admin_Proxy")%string && ux_spoken then
    log INFO "[Workflow] Completion | Admin_Proxy after UX_Designer - workflow complete" ;;
    ret None
  else if (last_speaker_name =? "Product_Manager")%string then
    next_agent <- getitem (agents self) "python_engineer" ;;
    log INFO "[Workflow] Transition | Product_Manager -> Python_Engineer" ;;
    set_count 0 ;;
    notify self "python_engineer" "coding" None ;;
    ret (Some next_agent)
  else if (last_speaker_name =? "Python_Engineer")%string then
    next_agent <- getitem (agents self) "code_reviewer" ;;
    log INFO "[Workflow] Transition | Python_Engineer -> Code_Reviewer" ;;
    notify self "code_reviewer" "reviewing" None ;;
    ret (Some next_agent)
  else if (last_speaker_name =? "Code_Reviewer")%string then
    if contains FIX_REQUIRED last_message then
      count <- get_count ;;
      set_count (count + 1) ;;
      count <- get_count ;;
      if count >=? max_review_iterations self then
        log WARNING "Max review iterations reached. Forcing approval to prevent infinite loop." ;;
        next_agent <- getitem (agents self) "tech_writer" ;;
        log INFO "[Workflow] Forced Transition | Code_Reviewer -> Tech_Writer (max iterations)" ;;
        ret (Some next_agent)
      else
        next_agent <- getitem (agents self) "python_engineer" ;;
        log INFO "[Workflow] Review Loop | Code_Reviewer -> Python_Engineer (fixes required)" ;;
        notify self "python_engineer" "fixing" (Some count) ;;
        ret (Some next_agent)
    else if contains APPROVED last_message then
      next_agent <- getitem (agents self) "tech_writer" ;;
      log INFO "[Workflow] Transition | Code_Reviewer -> Tech_Writer (approved)" ;;
      notify self "tech_writer" "documenting" None ;;
      ret (Some next_agent)
    else
      log WARNING "Code_Reviewer response missing required keywords (FIX_REQUIRED/APPROVED). Defaulting to approval." ;;
      next_agent <- getitem (agents self) "tech_writer" ;;
      ret (Some next_agent)
  else if (last_speaker_name =? "Tech_Writer")%string then
    next_agent <- getitem (agents self) "qa_engineer" ;;
    log INFO "[Workflow] Transition | Tech_Writer -> QA_Engineer" ;;
    notify self "qa_engineer" "testing" None ;;
    ret (Some next_agent)
  else if (last_speaker_name =? "QA_Engineer")%string then
    next_agent <- getitem (agents self) "devops_engineer" ;;
    log INFO "[Workflow] Transition | QA_Engineer -> DevOps_Engineer" ;;
    notify self "devops_engineer" "deploying" None ;;
    ret (Some next_agent)
  else if (last_speaker_name =? "DevOps_Engineer")%string then
    next_agent <- getitem (agents self) "ux_designer" ;;
    log INFO "[Workflow] Transition | DevOps_Engineer -> UX_Designer" ;;
    notify self "ux_designer" "designing" None ;;
    ret (Some next_agent)
  else if (last_speaker_name =? "UX_Designer")%string then
    log INFO "[Workflow] Completion | UX_Designer finished - workflow complete" ;;
    notify self "complete" "done" None ;;
    ret None
  else
    log ERROR "Unknown speaker in workflow" ;;
    ret None.

(** The [GroupChat] object; its [messages] are threaded through
    [run_chat] below. *)
Record GroupChat := {
  chat_agents : list (Agent W);
  max_round : nat
}.

Definition create_group_chat (self : Orchestrator W) : M W GroupChat :=
  a1 <- getitem (agents self) "admin_proxy" ;;
  a2 <- getitem (agents self) "product_manager" ;;
  a3 <- getitem (agents self) "python_engineer" ;;
  a4 <- getitem (agents self) "code_reviewer" ;;
  a5 <- getitem (agents self) "tech_writer" ;;
  a6 <- getitem (agents self) "qa_engineer" ;;
  a7 <- getitem (agents self) "devops_engineer" ;;
  a8 <- getitem (agents self) "ux_designer" ;;
  emit GroupChatCreated ;;
  log INFO "GroupChat created" ;;
  ret {| chat_agents := [a1; a2; a3; a4; a5; a6; a7; a8]; max_round := 50 |}.

Definition create_manager (groupchat : GroupChat) : M W unit :=
  emit ManagerCreated ;;
  log INFO "GroupChatManager created".

(** The manager's default [is_termination_msg]. *)
Definition is_termination_msg (content : str) : bool :=
  str_eqb content (py "TERMINATE").

(** [GroupChatManager.run_chat] of the autogen library, for a group chat
    whose [speaker_selection_method] is the selector: each round appends
    the current message under its speaker's name, stops on a termination
    message or on the last round, asks the selector for the next speaker
    ([None] ends the chat) and that speaker for a reply ([None] ends the
    chat).  [rounds] counts the rounds left of [max_round].  An exception
    of the selector or of an agent leaves the chat.  The library also
    checks that the selected agent belongs to the group chat, which holds
    of every agent the selector returns once [create_group_chat] has found
    the eight keys; and it lets an agent named [Admin] speak after an
    interrupt, a name the selector does not know. *)
Fixpoint run_chat (self : Orchestrator W) (rounds : nat) (speaker : Agent W)
    (content : str) (messages : list message) : M W (list message) :=
  match rounds with
  | O => ret messages
  | S rounds' =>
      let messages :=
        messages ++ [{| msg_name := Some (name speaker); msg_content := content |}] in
      if is_termination_msg content || bool_decide (rounds' = O) then ret messages
      else
        next <- custom_speaker_selector self speaker messages ;;
        match next with
        | None => ret messages
        | Some speaker' =>
            reply <- call (Replied (name speaker')) (generate_reply speaker' messages) ;;
            match reply with
            | None => ret messages
            | Some content' => run_chat self rounds' speaker' content' messages
            end
        end
  end.

(** [admin.initiate_chat(manager, message=user_request)]; the result is
    [groupchat.messages] at the end of the chat. *)
Definition initiate_chat (self : Orchestrator W) (admin : Agent W)
    (groupchat : GroupChat) (user_request : str) : M W (list message) :=
  run_chat self (max_round groupchat) admin user_request [].

(** [os.path.abspath("workspace")] *)
Definition abspath_workspace : M W path :=
  fun s => (Ok (cwd (fs (outside s)) ++ [py "workspace"]), s).

(** The body of the inner loop, with its [try]/[except Exception]: one
    matched block is cleaned up and written; a failure is logged and the
    block is not counted. *)
Definition save_file (workspace_path : path) (block : str * str)
    (files_extracted : nat) : M W nat :=
  try_except_Exception
    (let filename := strip (fst block) in
     let file_content := strip (snd block) in
     let filepath := path_join workspace_path filename in
     on_fs (write_text filepath file_content) ;;
     log INFO "Extracted file" ;;
     ret (S files_extracted))
    (fun e =>
       log WARNING "Failed to extract" ;;
       ret files_extracted).

Fixpoint save_files (workspace_path : path) (matches : list (str * str))
    (files_extracted : nat) : M W nat :=
  match matches with
  | [] => ret files_extracted
  | block :: rest =>
      n <- save_file workspace_path block files_extracted ;;
      save_files workspace_path rest n
  end.

(** [for msg in groupchat.messages: ...] *)
Fixpoint extract_files (workspace_path : path) (messages : list message)
    (files_extracted : nat) : M W nat :=
  match messages with
  | [] => ret files_extracted
  | msg :: rest =>
      let content := msg_content msg in
      let matches := findall content in
      n <- save_files workspace_path matches files_extracted ;;
      extract_files workspace_path rest n
  end.

(** The debugging pass taken when nothing was extracted. *)
Fixpoint log_code_blocks (messages : list message) : M W unit :=
  match messages with
  | [] => ret tt
  | msg :: rest =>
      (if contains (py "```python") (msg_content msg)
       then log DEBUG "Message contains Python code"
       else ret tt) ;;
      log_code_blocks rest
  end.

Definition failed_report (e : exn) : test_report :=
  {| report_status := "error";
     report_message := Some (py "Failed to execute tests: " ++ exn_text e);
     total_tests := 0;
     total_passed := 0;
     total_failed := 0;
     total_errors := 0;
     file_results := [] |}.

(** The test stage of [initiate_workflow], with its own
    [try]/[except Exception]. *)
Definition execute_tests (workspace_path : path) : M W test_report :=
  try_except_Exception
    (log INFO separator ;;
     log INFO "EXECUTING TESTS" ;;
     log INFO separator ;;
     r <- call TestsRun (run_tests_in_workspace workspace_path) ;;
     log INFO "Test execution completed" ;;
     log INFO "Total tests" ;;
     ret r)
    (fun e =>
       log WARNING "Test execution failed" ;;
       ret (failed_report e)).

(** The main [try] block of [initiate_workflow]. *)
Definition workflow_body (self : Orchestrator W) (user_request : str)
    : M W workflow_result :=
  if bool_decide (user_request = []) || bool_decide (strip user_request = []) then
    log ERROR "Empty user request received" ;;
    ret (Error (py "User request cannot be empty") 0)
  else
    log INFO separator ;;
    log INFO "WORKFLOW INITIATED" ;;
    log INFO separator ;;
    log INFO "[User] Request" ;;
    call ConfigLoaded get_llm_config ;;
    groupchat <- create_group_chat self ;;
    create_manager groupchat ;;
    log INFO "Starting agent conversation..." ;;
    admin <- getitem (agents self) "admin_proxy" ;;
    messages <- initiate_chat self admin groupchat user_request ;;
    log INFO separator ;;
    log INFO "WORKFLOW COMPLETED - Extracting generated files..." ;;
    log INFO separator ;;
    workspace_path <- abspath_workspace ;;
    on_fs (fun f => match makedirs f [] workspace_path with
                    | Ok f' => (Ok tt, f')
                    | Raise e => (Raise e, f)
                    end) ;;
    files_extracted <- extract_files workspace_path messages 0 ;;
    log INFO "Extracted files to workspace (no code execution)" ;;
    (if bool_decide (files_extracted = O) then
       log WARNING "No files were extracted from agent responses!" ;;
       log WARNING "Check if agents are following the expected code generation format." ;;
       log DEBUG "Total messages" ;;
       log_code_blocks messages
     else ret tt) ;;
    test_results <- execute_tests workspace_path ;;
    count <- get_count ;;
    ret (Success (length messages) count files_extracted messages test_results).

(** [log_error_with_context(logger, error, context)] of utils/logger.py:
    an ERROR record that begins with the context, then a DEBUG record
    with the traceback. *)
Definition log_error_with_context (context : string) : M W unit :=
  log ERROR context ;;
  log DEBUG "Traceback".

(** The [except] clauses of [initiate_workflow], in their order. *)
Definition workflow_handler (e : exn) : option (M W workflow_result) :=
  match kind e with
  | KeyboardInterrupt =>
      Some (log WARNING "Workflow interrupted by user" ;;
            count <- get_count ;;
            ret (Error (py "Workflow was interrupted by user") count))
  | TimeoutError =>
      Some (log_error_with_context "Workflow timeout" ;;
            count <- get_count ;;
            ret (Error (py "Workflow timed out: " ++ exn_text e) count))
  | ValueError =>
      Some (log_error_with_context "Invalid configuration" ;;
            count <- get_count ;;
            ret (Error (py "Configuration error: " ++ exn_text e) count))
  | ConnectionError =>
      Some (log_error_with_context "Network connection failed" ;;
            count <- get_count ;;
            ret (Error (py "Connection error: " ++ exn_text e
                          ++ py ". Please check your internet connection.") count))
  | OtherException =>
      Some (log_error_with_context "Workflow execution failed" ;;
            count <- get_count ;;
            ret (Error (py (type_name e) ++ py ": " ++ exn_text e) count))
  | OtherBaseException => None
  end.

Definition initiate_workflow (self : Orchestrator W) (user_request : str)
    : M W workflow_result :=
  fun s =>
    match workflow_body self user_request s with
    | (Raise e, s') =>
        match workflow_handler e with
        | Some h => h s'
        | None => (Raise e, s')
        end
    | r => r
    end.

(** [WorkflowOrchestrator(agents, max_review_iterations, progress_callback)]:
    the fields [__init__] sets ... *)
Definition WorkflowOrchestrator (agents : gmap string (Agent W))
    (max_review_iterations : Z)
    (progress_callback : option (string -> string -> option Z -> external W pyvalue))
    : Orchestrator W :=
  {| agents := agents; max_review_iterations := max_review_iterations;
     progress_callback := progress_callback |}.

(** ... and the state in which it leaves the new orchestrator. *)
Definition new_orchestrator (w : world W) : state W :=
  {| review_iteration_count := 0;
     trace := [Logged INFO "WorkflowOrchestrator initialized";
               Logged INFO "[System] Configuration"];
     outside := w |}.

Definition run_workflow (user_request : str) (agents : gmap string (Agent W))
    (progress_callback : option (string -> string -> option Z -> external W pyvalue))
    (w : world W) : py_result workflow_result * state W :=
  let orchestrator := WorkflowOrchestrator agents 5 progress_callback in
  initiate_workflow orchestrator user_request (new_orchestrator w).
End Orchestrator.

Arguments custom_speaker_selector {W} self last_speaker messages.
Arguments run_chat {W} self rounds speaker content messages.

(** ** The transition table of the specification

    [selectNext(lastStage, transcript, revisionCounter)] of the design, as a
    pure function: the stage to run next, named by its key in the agents
    dictionary, and the counter after the transition.  It is written from
    the specification's words and compared with the selector below. *)

Inductive decision :=
| Next (stage : string)
| Terminal.

Definition has_spoken (stage : string) (transcript : list message) : bool :=
  existsb (fun entry => bool_decide (msg_name entry = Some stage)) transcript.

Definition selectNext (ceiling : Z) (last_stage : string)
    (transcript : list message) (counter : Z) : decision * Z :=
  let output := last_content transcript in
  if (last_stage =? "Admin_Proxy")%string then
    if has_spoken "UX_Designer" transcript then (Terminal, counter)
    else (Next "product_manager", counter)
  else if (last_stage =? "Product_Manager")%string then (Next "python_engineer", 0)
  else if (last_stage =? "Python_Engineer")%string then (Next "code_reviewer", counter)
  else if (last_stage =? "Code_Reviewer")%string then
    if contains FIX_REQUIRED output then
      if counter + 1 >=? ceiling then (Next "tech_writer", counter + 1)
      else (Next "python_engineer", counter + 1)
    else (Next "tech_writer", counter)
  else if (last_stage =? "Tech_Writer")%string then (Next "qa_engineer", counter)
  else if (last_stage =? "QA_Engineer")%string then (Next "devops_engineer", counter)
  else if (last_stage =? "DevOps_Engineer")%string then (Next "ux_designer", counter)
  else (Terminal, counter).

(** The review loop driven from outside: the selector is called once for
    each transcript, with the reviewer as last speaker. *)
Fixpoint review_rounds {W} (self : Orchestrator W) (reviewer : Agent W)
    (transcripts : list (list message)) : M W (list (option (Agent W))) :=
  match transcripts with
  | [] => ret []
  | t :: rest =>
      next <- custom_speaker_selector self reviewer t ;;
      others <- review_rounds self reviewer rest ;;
      ret (next :: others)
  end.

(** * The application (app.py): what it does around a run

    ** The progress display

    [agent_messages] of [main]: for each stage, the text shown for each of
    its actions. *)

Definition agent_messages : gmap string (gmap string str) :=
  list_to_map
    [("product_manager",
      list_to_map
        [("analyzing", 128202%N :: py " Product Manager is analyzing your requirements...")]);
     ("python_engineer",
      list_to_map
        [("coding", 128187%N :: py " Python Engineer is writing your code...");
         ("fixing", 128187%N :: py " Python Engineer is fixing the code (Iteration {})")]);
     ("code_reviewer",
      list_to_map
        [("reviewing", 128269%N :: py " Code Reviewer is checking code quality...")]);
     ("tech_writer",
      list_to_map
        [("documenting",
          128221%N :: py " Tech Writer is creating comprehensive documentation...")]);
     ("qa_engineer",
      list_to_map [("testing", 129514%N :: py " QA Engineer is writing test cases...")]);
     ("devops_engineer",
      list_to_map
        [("deploying", 128640%N :: py " DevOps Engineer is setting up deployment...")]);
     ("ux_designer",
      list_to_map
        [("designing", 127912%N :: py " UX Designer is building the user interface...")]);
     ("complete",
      list_to_map [("done", 9989%N :: py " All agents completed their tasks!")])].

Section Display.
Context {W : Type}.

(** [progress_placeholder.info] of streamlit and [str.format] with one
    argument: both belong to libraries. *)
Variable info : str -> external W pyvalue.
Variable format : str -> Z -> py_result str.

(** [update_progress], the callback [main] hands to [run_workflow]; its
    body is inside [try]/[except Exception: pass], and it returns
    [None]. *)
Definition update_progress (agent_name action : string) (iteration : option Z)
    : external W pyvalue :=
  fun w =>
    let body : py_result pyvalue * world W :=
      match agent_messages !! agent_name with
      | Some actions =>
          match actions !! action with
          | Some message =>
              let formatted :=
                match iteration with
                | Some i =>
                    if contains (py "{}") message then format message i
                    else Ok message
                | None => Ok message
                end in
              match formatted with
              | Ok message => info message w
              | Raise e => (Raise e, w)
              end
          | None => (Ok PyNone, w)
          end
      | None => (Ok PyNone, w)
      end in
    match body with
    | (Raise e, w') => if is_Exception e then (Ok PyNone, w') else (Raise e, w')
    | (Ok _, w') => (Ok PyNone, w')
    end.
End Display.

(** ** The validation of the request *)

Definition is_vowel (c : char) : bool := bool_decide (c ∈ py "aeiouAEIOU").

Definition is_consonant (c : char) : bool :=
  bool_decide (c ∈ py "bcdfghjklmnpqrstvwxyzBCDFGHJKLMNPQRSTVWXYZ").

(** [s.split()]: the words between runs of white space; [cur] is the
    word being read. *)
Fixpoint split_words (s cur : str) : list str :=
  match s with
  | [] => match cur with [] => [] | _ => [cur] end
  | c :: s' =>
      if is_space c then
        match cur with
        | [] => split_words s' []
        | _ => cur :: split_words s' []
        end
      else split_words s' (cur ++ [c])
  end.

(** The loop over the characters that counts the positions at which five
    consonants or more have been read in a row. *)
Fixpoint consonant_runs (s : str) (current_consonants consonant_sequences : nat) : nat :=
  match s with
  | [] => consonant_sequences
  | c :: s' =>
      if is_consonant c then
        let current_consonants := S current_consonants in
        consonant_runs s' current_consonants
          (if (5 <=? current_consonants)%nat then S consonant_sequences
           else consonant_sequences)
      else consonant_runs s' 0 consonant_sequences
  end.

Definition suspicious_patterns : list string :=
  ["<script"; "javascript:"; "onerror="; "<iframe"].

Definition keyboard_patterns : list string :=
  ["asdf"; "qwer"; "zxcv"; "hjkl"; "qaz"; "wsx"; "edc"].

Definition app_keywords : list string :=
  ["app"; "application"; "program"; "software"; "tool"; "system"; "script";
   "create"; "build"; "make"; "develop"; "generate";
   "calculator"; "game"; "website"; "api"; "bot"; "dashboard"; "manager";
   "tracker"; "analyzer"; "converter"; "parser"; "scraper"; "automation";
   "web"; "cli"; "gui"; "interface"; "database"; "server"; "client";
   "function"; "feature"; "user"; "data"; "file"; "text"; "number";
   "list"; "search"; "filter"; "sort"; "display"; "show"; "save"; "load";
   "add"; "delete"; "update"; "edit"; "manage"; "organize"; "process"].

(** The refusals begin with a red circle and the name of the admin. *)
Definition refusal (text : string) : bool * str :=
  (false, 128308%N :: py " **Admin**: " ++ py text).

Section Validation.

(** [str.lower] and [str.isalpha], built-ins that follow the Unicode
    tables. *)
Variable lower : str -> str.
Variable isalpha : char -> bool.

(** One turn of the loop over the words: whether the word counts as a
    valid one.  The quotient [vowel_count / len(clean_word) > 0.15] is
    compared as [20 * vowel_count > 3 * len(clean_word)]: the lengths are
    at most 5000, so that the quotient is either at most 3/20 or above it
    by far more than the rounding of a float. *)
Definition looks_like_word (word : str) : bool :=
  let clean_word := filter (fun c => isalpha c = true) word in
  if (length clean_word <? 2)%nat then false
  else if existsb is_vowel clean_word then
    let vowel_count := length (filter (fun c => is_vowel c = true) clean_word) in
    let consonant_count := length (filter (fun c => is_consonant c = true) clean_word) in
    (consonant_count =? 0)%nat || (3 * length clean_word <? 20 * vowel_count)%nat
  else false.

(** [validate_user_input]: the verdict and, for a refusal, its message.
    The two other comparisons with a float are between small integers as
    well: [valid_word_count / len(words) < 0.4] is
    [5 * valid_word_count < 2 * len(words)] and
    [valid_word_count < len(words) * 0.6] is
    [5 * valid_word_count < 3 * len(words)]. *)
Definition validate_user_input (user_input : str) : bool * str :=
  let cleaned_input := strip user_input in
  if bool_decide (cleaned_input = []) then
    refusal "Please enter a description of the application you want to build."
  else if (length cleaned_input <? 10)%nat then
    refusal "Please provide a more detailed description (at least 10 characters)."
  else if (5000 <? length cleaned_input)%nat then
    refusal "Description is too long. Please keep it under 5000 characters."
  else if (length (remove_dups (filter (fun c => c <> 32%N) cleaned_input)) <? 5)%nat then
    refusal "Please provide a meaningful description of your application."
  else if existsb (fun pattern => contains (lower (py pattern)) (lower cleaned_input))
            suspicious_patterns then
    refusal "Invalid input detected. Please describe your application in plain text."
  else
    let words := split_words (lower cleaned_input) [] in
    if (length words <? 3)%nat then
      refusal "Please provide a more complete description with at least 3 words describing what you want to build."
    else
      let valid_word_count := length (filter (fun w => looks_like_word w = true) words) in
      if (0 <? length words)%nat && (5 * valid_word_count <? 2 * length words)%nat then
        refusal "Your input doesn't appear to be a clear description. Please describe your application idea in plain English (e.g., 'Create a calculator app with basic arithmetic operations')."
      else
        let input_lower := lower cleaned_input in
        let pattern_matches :=
          length (filter (fun pattern => contains (py pattern) input_lower = true)
                    keyboard_patterns) in
        if (2 <=? pattern_matches)%nat then
          refusal "Your input appears to be random keyboard input. Please provide a real description of your application."
        else if (2 <=? consonant_runs (lower cleaned_input) 0 0)%nat then
          refusal "Your input doesn't look like a meaningful description. Please clearly describe what application you want to build."
        else
          let has_app_keyword :=
            existsb (fun keyword => contains (py keyword) (lower cleaned_input))
              app_keywords in
          if negb has_app_keyword && (5 * valid_word_count <? 3 * length words)%nat then
            refusal "Please provide a clear description of the **software application** you want to build. For example: 'Create a to-do list app' or 'Build a calculator with basic operations'."
          else (true, []).
End Validation.

(** * Notions used in the statements *)

(** ** Runs that return

    [returns c s Q]: from the state [s] the computation [c] returns, with a
    value and in a state that satisfy [Q]. *)

Definition returns {W A} (c : M W A) (s : state W)
    (Q : A -> state W -> Prop) : Prop :=
  exists a s', c s = (Ok a, s') /\ Q a s'.

(** A collaborator that, in a world satisfying [Inv], returns and keeps
    [Inv]. *)
Definition keeps {W A} (Inv : world W -> Prop) (c : external W A) : Prop :=
  forall w, Inv w -> exists a w', c w = (Ok a, w') /\ Inv w'.

Definition callback_keeps {W} (Inv : world W -> Prop) (self : Orchestrator W) : Prop :=
  forall callback, progress_callback self = Some callback ->
  forall stage action iteration, keeps Inv (callback stage action iteration).

(** The callback, if there is one, never raises. *)
Definition quiet_callback {W} (self : Orchestrator W) : Prop :=
  callback_keeps (fun _ => True) self.

(** ** Runs that may raise

    [outcome c s Q]: the result and the final state of [c] run from [s]
    satisfy [Q], whether [c] returns or raises. *)

Definition outcome {W A} (c : M W A) (s : state W)
    (Q : py_result A -> state W -> Prop) : Prop :=
  Q (fst (c s)) (snd (c s)).

Definition is_notification (ev : event) : bool :=
  match ev with
  | Notified _ _ _ => true
  | _ => false
  end.

(** ** Teams and collaborators *)

Definition stage_keys : list string :=
  ["admin_proxy"; "product_manager"; "python_engineer"; "code_reviewer";
   "tech_writer"; "qa_engineer"; "devops_engineer"; "ux_designer"].

(** The dictionary key of each stage and the name of the agent expected
    under it. *)
Definition roster : list (string * string) :=
  [("admin_proxy", "Admin_Proxy"); ("product_manager", "Product_Manager");
   ("python_engineer", "Python_Engineer"); ("code_reviewer", "Code_Reviewer");
   ("tech_writer", "Tech_Writer"); ("qa_engineer", "QA_Engineer");
   ("devops_engineer", "DevOps_Engineer"); ("ux_designer", "UX_Designer")].

Definition cast_as {W} (agents : gmap string (Agent W)) (key stage : string) : Prop :=
  exists a, agents !! key = Some a /\ name a = stage.

Definition standard_team {W} (agents : gmap string (Agent W)) : Prop :=
  Forall (fun entry => cast_as agents (fst entry) (snd entry)) roster.

(** Every agent of the dictionary answers every transcript, in a world
    satisfying [Inv]: it returns ([None] or a text) and keeps [Inv]. *)
Definition agents_answer {W} (Inv : world W -> Prop)
    (agents : gmap string (Agent W)) : Prop :=
  forall key a, agents !! key = Some a ->
  forall messages, keeps Inv (generate_reply a messages).

(** Every agent of the dictionary produces a text that is not the
    termination message and satisfies [P] (which may depend on the
    agent's name). *)
Definition agents_speak {W} (Inv : world W -> Prop)
    (agents : gmap string (Agent W)) (P : string -> str -> Prop) : Prop :=
  forall key a, agents !! key = Some a ->
  forall messages w, Inv w ->
  exists content w',
    generate_reply a messages w = (Ok (Some content), w') /\ Inv w'
    /\ is_termination_msg content = false /\ P (name a) content.

(** What the reviewer's outputs have in common, as a property of the
    texts of the agent named [Code_Reviewer]. *)
Definition reviewer_says (R : str -> Prop) (stage : string) (content : str) : Prop :=
  stage = "Code_Reviewer" -> R content.

(** The test runner returns or raises an [Exception]; it is never
    interrupted and never exits the interpreter. *)
Definition runner_contained {W} (run_tests : path -> external W test_report) : Prop :=
  forall workspace_path w,
    match fst (run_tests workspace_path w) with
    | Ok _ => True
    | Raise e => is_Exception e = true
    end.

(** [os.makedirs] can create the workspace directory: no regular file is
    in the way. *)
Definition workspace_ready (f : filesystem) : Prop :=
  exists f', makedirs f [] (cwd f ++ [py "workspace"]) = Ok f'.

(** [report] is what the test stage makes of one call of the runner. *)
Definition report_of {W} (run_tests : path -> external W test_report)
    (report : test_report) : Prop :=
  exists workspace_path w w',
    run_tests workspace_path w = (Ok report, w')
    \/ exists e, run_tests workspace_path w = (Raise e, w')
                 /\ is_Exception e = true /\ report = failed_report e.

(** ** Paths and markers *)


(** No END marker begins inside [text] when [text] is followed by
    [tail]. *)
Fixpoint no_end_inside (text tail : str) : bool :=
  match text with
  | [] => true
  | c :: text' =>
      negb (starts_with END_FILE (text ++ tail)) && no_end_inside text' tail
  end.

(** ** A scripted team, for concrete runs

    Every agent answers with a fixed text; nothing outside the file system
    is modelled ([W] is [unit]). *)

Definition scripted (stage : string) (reply : str) : Agent unit :=
  {| name := stage; generate_reply := fun _ w => (Ok (Some reply), w) |}.

Definition lines (ls : list string) : str :=
  match ls with
  | [] => []
  | l :: rest => py l ++ concat ((fun x => nl :: py x) <$> rest)
  end.

Definition team (code review : str) : gmap string (Agent unit) :=
  list_to_map
    [("admin_proxy", scripted "Admin_Proxy" (py "ok"));
     ("product_manager", scripted "Product_Manager" (py "requirements"));
     ("python_engineer", scripted "Python_Engineer" code);
     ("code_reviewer", scripted "Code_Reviewer" review);
     ("tech_writer", scripted "Tech_Writer" (py "documentation"));
     ("qa_engineer", scripted "QA_Engineer" (py "test plan"));
     ("devops_engineer", scripted "DevOps_Engineer" (py "deployment"));
     ("ux_designer", scripted "UX_Designer" (py "interface"))].

Definition main_py : str :=
  lines ["===BEGIN_FILE:main.py==="; "x = 1"; "===END_FILE==="].

(** A disk with the working directory [/app] and nothing in it. *)
Definition empty_disk : filesystem :=
  {| cwd := [py "app"]; dirs := {[ [py "app"] ]}; files := ∅ |}.

Definition start : world unit := {| fs := empty_disk; ext := tt |}.

Definition config_found : external unit unit := fun w => (Ok tt, w).

Definition no_tests : test_report :=
  {| report_status := "no_tests"; report_message := None;
     total_tests := 0; total_passed := 0; total_failed := 0; total_errors := 0;
     file_results := [] |}.

Definition runner_idle : path -> external unit test_report :=
  fun _ w => (Ok no_tests, w).

Definition pytest_missing : exn :=
  {| kind := OtherException; type_name := "FileNotFoundError";
     exn_text := py "pytest" |}.

Definition runner_broken : path -> external unit test_report :=
  fun _ w => (Raise pytest_missing, w).

Definition display_error : exn :=
  {| kind := OtherException; type_name := "RuntimeError";
     exn_text := py "display closed" |}.

Definition callback_silent : string -> string -> option Z -> external unit pyvalue :=
  fun _ _ _ w => (Ok PyNone, w).

Definition callback_broken : string -> string -> option Z -> external unit pyvalue :=
  fun _ _ _ w => (Raise display_error, w).

(** The scripted collaborators leave the world as it is at the start. *)
Definition untouched : world unit -> Prop := fun w => w = start.

(** A later moment of another run: other events logged, another disk. *)
Definition elsewhere : state unit :=
  {| review_iteration_count := 0;
     trace := [Logged INFO "an earlier run"; TestsRun];
     outside := {| fs := {| cwd := []; dirs := ∅; files := ∅ |}; ext := tt |} |}.



(** ** Further notions

    The names the selector knows. *)
Definition stage_names : list string :=
  ["Admin_Proxy"; "Product_Manager"; "Python_Engineer"; "Code_Reviewer";
   "Tech_Writer"; "QA_Engineer"; "DevOps_Engineer"; "UX_Designer"].

(** What the counter may be when [stage] has just spoken: between 0 and
    the ceiling (1 when the ceiling is lower), and, while the code is
    written or reviewed, below the ceiling or still 0. *)
Definition counter_in_phase (ceiling : Z) (stage : string) (counter : Z) : Prop :=
  0 <= counter <= Z.max ceiling 1
  /\ (stage = "Python_Engineer" \/ stage = "Code_Reviewer" ->
      counter < ceiling \/ counter = 0).

(** A configuration that cannot be loaded. *)
Definition key_not_set : exn :=
  {| kind := ValueError; type_name := "ValueError";
     exn_text := py "GOOGLE_API_KEY not set" |}.

Definition config_missing : external unit unit := fun w => (Raise key_not_set, w).

(** A collaborator that ends the interpreter. *)
Definition system_exit : exn :=
  {| kind := OtherBaseException; type_name := "SystemExit"; exn_text := py "1" |}.

Definition config_exits : external unit unit := fun w => (Raise system_exit, w).

(** No BEGIN marker begins inside [text] when [text] is followed by
    [tail]. *)
Fixpoint no_begin_inside (text tail : str) : bool :=
  match text with
  | [] => true
  | c :: text' =>
      negb (starts_with BEGIN_FILE (text ++ tail)) && no_begin_inside text' tail
  end.

(** What a run may do to the disk when it only writes regular files: the
    working directory and the directories are as they were, and no file has
    gone. *)
Definition only_files_written (f f' : filesystem) : Prop :=
  cwd f' = cwd f /\ dirs f' = dirs f
  /\ forall p, is_Some (files f !! p) -> is_Some (files f' !! p).

(** [str.lower] and [str.isalpha] on ASCII text. *)
Definition ascii_lower (s : str) : str :=
  (fun c => if ((65 <=? c) && (c <=? 90))%N then (c + 32)%N else c) <$> s.

Definition ascii_isalpha (c : char) : bool :=
  ((65 <=? c) && (c <=? 90) || (97 <=? c) && (c <=? 122))%N.

(** A display that is closed, and a [str.format] that fails. *)
Definition display_closed : str -> external unit pyvalue :=
  fun _ w => (Raise display_error, w).

Definition format_fails : str -> Z -> py_result str :=
  fun _ _ => Raise {| kind := OtherException; type_name := "IndexError";
                      exn_text := py "Replacement index 0 out of range" |}.

(** The application has a text to show for the notification [ev]; the
    text has a place for the iteration when the notification carries
    one. *)
Definition displayable (ev : event) : Prop :=
  match ev with
  | Notified stage action iteration =>
      exists actions message,
        agent_messages !! stage = Some actions
        /\ actions !! action = Some message
        /\ (contains (py "{}") message = true <-> is_Some iteration)
  | _ => True
  end.

(** The edges of the workflow, by the names of the stages, and the
    transcripts that follow them from [stage] on. *)
Definition workflow_edges : list (string * string) :=
  [("Admin_Proxy", "Product_Manager"); ("Product_Manager", "Python_Engineer");
   ("Python_Engineer", "Code_Reviewer"); ("Code_Reviewer", "Python_Engineer");
   ("Code_Reviewer", "Tech_Writer"); ("Tech_Writer", "QA_Engineer");
   ("QA_Engineer", "DevOps_Engineer"); ("DevOps_Engineer", "UX_Designer")].

Fixpoint follows_edges (stage : string) (entries : list message) : bool :=
  match entries with
  | [] => true
  | entry :: rest =>
      match msg_name entry with
      | Some next =>
          bool_decide ((stage, next) ∈ workflow_edges) && follows_edges next rest
      | None => false
      end
  end.

(** * Facts *)

(** ** Basic facts *)

Section EffectFacts.
Context {W : Type}.
Implicit Types (s : state W).

Lemma bind_Ok {A B} (c : M W A) (k : A -> M W B) s b s' :
  bind c k s = (Ok b, s') ->
  exists a s1, c s = (Ok a, s1) /\ k a s1 = (Ok b, s').
Proof.
  unfold bind. destruct (c s) as [[a|e] s1]; [eauto | discriminate].
Qed.

Lemma ret_Ok {A} (a b : A) s s' : ret a s = (Ok b, s') -> a = b /\ s = s'.
Proof. unfold ret. intros [= -> ->]. done. Qed.

Lemma emit_Ok ev s u s' :
  emit ev s = (Ok u, s') ->
  review_iteration_count s' = review_iteration_count s
  /\ outside s' = outside s /\ trace s' = trace s ++ [ev].
Proof. unfold emit. intros [= _ <-]. done. Qed.

Lemma log_Ok lvl text s u s' :
  log lvl text s = (Ok u, s') ->
  review_iteration_count s' = review_iteration_count s
  /\ outside s' = outside s /\ trace s' = trace s ++ [Logged lvl text].
Proof. apply emit_Ok. Qed.

Lemma call_Ok {A} ev (c : external W A) s a s' :
  call ev c s = (Ok a, s') ->
  review_iteration_count s' = review_iteration_count s
  /\ c (outside s) = (Ok a, outside s') /\ trace s' = trace s ++ [ev].
Proof.
  unfold call. destruct (c (outside s)) as [r w]. intros [= -> <-]. done.
Qed.

Lemma getitem_Ok (d : gmap string (Agent W)) key s a s' :
  getitem d key s = (Ok a, s') -> d !! key = Some a /\ s = s'.
Proof.
  unfold getitem. destruct (d !! key); [intros [= -> ->]; done | discriminate].
Qed.

Lemma get_count_Ok s n s' :
  get_count s = (Ok n, s') -> n = review_iteration_count s /\ s = s'.
Proof. unfold get_count. intros [= <- <-]. done. Qed.

Lemma set_count_Ok n s u s' :
  set_count n s = (Ok u, s') ->
  review_iteration_count s' = n
  /\ outside s' = outside s /\ trace s' = trace s.
Proof. unfold set_count. intros [= _ <-]. done. Qed.

Lemma notify_Ok (self : Orchestrator W) stage action iteration s u s' :
  notify self stage action iteration s = (Ok u, s') ->
  review_iteration_count s' = review_iteration_count s.
Proof.
  unfold notify. destruct (progress_callback self).
  - intros H. apply bind_Ok in H as (v & s1 & Hc & Hr).
    apply call_Ok in Hc as (Hn & _). apply ret_Ok in Hr as [_ <-]. done.
  - intros H. apply ret_Ok in H as [_ <-]. done.
Qed.
End EffectFacts.

(** Inversion of a run that returned: the run is cut at each [bind], and
    what each step did to the counter is recorded. *)
Ltac invert_step Hc :=
  first
    [ apply log_Ok in Hc as (? & _ & _)
    | apply emit_Ok in Hc as (? & _ & _)
    | apply getitem_Ok in Hc as (? & ->)
    | apply get_count_Ok in Hc as (-> & ->)
    | apply set_count_Ok in Hc as (? & _ & _)
    | apply notify_Ok in Hc ].

Ltac invert_run H :=
  repeat
    (cbv beta in H;
     match type of H with
     | bind _ _ _ = (Ok _, _) =>
         let Hc := fresh "Hc" in
         apply bind_Ok in H as (? & ? & Hc & H); invert_step Hc
     | ret _ _ = (Ok _, _) => apply ret_Ok in H as [<- <-]
     end).

(** Case analysis on the test at the head of a run. *)
Ltac split_test H :=
  match type of H with
  | (if ?b then _ else _) _ = _ =>
      let E := fresh "E" in
      match b with
      | context [String.eqb ?x ?y] => destruct (String.eqb x y) eqn:E
      | context [existsb ?f ?l] => destruct (existsb f l) eqn:E
      | context [contains ?x ?y] => destruct (contains x y) eqn:E
      | context [Z.geb ?x ?y] => destruct (Z.geb x y) eqn:E
      end;
      cbn [andb negb] in H
  end.

Section SelectorFacts.
Context {W : Type}.
Implicit Types (self : Orchestrator W) (s : state W).

Lemma selector_refines self last_speaker messages s r s' :
  custom_speaker_selector self last_speaker messages s = (Ok r, s') ->
  review_iteration_count s'
    = snd (selectNext (max_review_iterations self) (name last_speaker)
             messages (review_iteration_count s))
  /\ match fst (selectNext (max_review_iterations self) (name last_speaker)
                 messages (review_iteration_count s)) with
     | Next key => exists a, agents self !! key = Some a /\ r = Some a
     | Terminal => r = None
     end.
Proof.
  unfold custom_speaker_selector, selectNext, has_spoken, ux_designer_has_spoken.
  intros H. apply bind_Ok in H as (? & s0 & Hc & H). invert_step Hc.
  repeat first [split_test H | progress invert_run H].
  all: repeat match goal with
         | Hn : review_iteration_count _ = _ |- _ => rewrite Hn in *; clear Hn
         end.
  all: repeat match goal with
         | E : ?b = _ |- context [?b] => rewrite E
         end.
  all: cbn; split; eauto.
Qed.
End SelectorFacts.

(** ** Rules for runs that return *)

Section ReturnsFacts.
Context {W : Type}.
Implicit Types (s : state W).

Lemma returns_ret {A} (a : A) s Q : Q a s -> returns (ret a) s Q.
Proof. intros. exists a, s. done. Qed.

Lemma returns_bind {A B} (c : M W A) (k : A -> M W B) s Q :
  returns c s (fun a s1 => returns (k a) s1 Q) -> returns (bind c k) s Q.
Proof.
  intros (a & s1 & Hc & b & s2 & Hk & HQ). exists b, s2.
  unfold bind. rewrite Hc. done.
Qed.

Lemma returns_weaken {A} (c : M W A) s (Q Q' : A -> state W -> Prop) :
  returns c s Q -> (forall a s', Q a s' -> Q' a s') -> returns c s Q'.
Proof. intros (a & s' & Hc & HQ) HQQ. exists a, s'. eauto. Qed.

Lemma returns_emit ev s (Q : unit -> state W -> Prop) :
  Q tt {| review_iteration_count := review_iteration_count s;
          trace := trace s ++ [ev]; outside := outside s |} ->
  returns (emit ev) s Q.
Proof. intros. eexists _, _. split; [reflexivity | done]. Qed.

Lemma returns_log lvl text s (Q : unit -> state W -> Prop) :
  Q tt {| review_iteration_count := review_iteration_count s;
          trace := trace s ++ [Logged lvl text]; outside := outside s |} ->
  returns (log lvl text) s Q.
Proof. apply returns_emit. Qed.

Lemma returns_get_count s (Q : Z -> state W -> Prop) :
  Q (review_iteration_count s) s -> returns get_count s Q.
Proof. intros. eexists _, _. split; [reflexivity | done]. Qed.

Lemma returns_set_count n s (Q : unit -> state W -> Prop) :
  Q tt {| review_iteration_count := n; trace := trace s; outside := outside s |} ->
  returns (set_count n) s Q.
Proof. intros. eexists _, _. split; [reflexivity | done]. Qed.

Lemma returns_getitem (d : gmap string (Agent W)) key a s Q :
  d !! key = Some a -> Q a s -> returns (getitem d key) s Q.
Proof.
  intros Hd HQ. exists a, s. unfold getitem. rewrite Hd. done.
Qed.

Lemma returns_call {A} Inv ev (c : external W A) s (Q : A -> state W -> Prop) :
  keeps Inv c -> Inv (outside s) ->
  (forall a w', c (outside s) = (Ok a, w') -> Inv w' ->
     Q a {| review_iteration_count := review_iteration_count s;
            trace := trace s ++ [ev]; outside := w' |}) ->
  returns (call ev c) s Q.
Proof.
  intros Hc HI HQ. destruct (Hc _ HI) as (a & w' & E & HI').
  exists a. eexists. unfold call. rewrite E. split; [reflexivity | eauto].
Qed.

Lemma returns_notify Inv (self : Orchestrator W) stage action iteration s
    (Q : unit -> state W -> Prop) :
  callback_keeps Inv self -> Inv (outside s) ->
  (forall s', review_iteration_count s' = review_iteration_count s ->
              Inv (outside s') -> Q tt s') ->
  returns (notify self stage action iteration) s Q.
Proof.
  intros Hcb HI HQ. unfold notify.
  destruct (progress_callback self) as [callback|] eqn:E.
  - apply returns_bind. eapply returns_call; [by apply Hcb | done |].
    intros v w' _ HI'. apply returns_ret. by apply HQ.
  - apply returns_ret. by apply HQ.
Qed.

Lemma returns_try {A} (c : M W A) h s Q :
  returns c s Q -> returns (try_except_Exception c h) s Q.
Proof.
  intros (a & s' & Hc & HQ). exists a, s'.
  unfold try_except_Exception. rewrite Hc. done.
Qed.
End ReturnsFacts.

(** One step of a forward run. *)
Ltac forward_step :=
  cbv beta;
  first
    [ apply returns_bind
    | apply returns_ret
    | apply returns_log
    | apply returns_emit
    | apply returns_get_count
    | apply returns_set_count
    | eapply returns_getitem; [eassumption |]
    | eapply returns_notify;
        [eassumption | cbn; eassumption | cbn; intros ? ? ?] ].

Ltac forward := repeat forward_step.

Section SelectorReturns.
Context {W : Type}.
Variable Inv : world W -> Prop.
Implicit Types (self : Orchestrator W) (s : state W).

(** The selector returns as soon as the callback does and the dictionary
    holds the stage the table designates. *)
Lemma selector_returns self last_speaker messages s :
  callback_keeps Inv self -> Inv (outside s) ->
  match fst (selectNext (max_review_iterations self) (name last_speaker)
               messages (review_iteration_count s)) with
  | Next key => is_Some (agents self !! key)
  | Terminal => True
  end ->
  returns (custom_speaker_selector self last_speaker messages) s
    (fun _ s' => Inv (outside s')).
Proof.
  unfold custom_speaker_selector, selectNext, has_spoken, ux_designer_has_spoken.
  intros Hcb HI Hkey.
  apply returns_bind, returns_log. cbv beta.
  repeat
    first
      [ progress cbn [review_iteration_count outside trace]
      | match goal with
        | |- returns (if ?b then _ else _) _ _ =>
            let E := fresh "E" in
            match b with
            | context [String.eqb ?x ?y] => destruct (String.eqb x y) eqn:E
            | context [existsb ?f ?l] => destruct (existsb f l) eqn:E
            | context [contains ?x ?y] => destruct (contains x y) eqn:E
            | context [Z.geb ?x ?y] => destruct (Z.geb x y) eqn:E
            end;
            cbn [andb negb]; cbn [fst] in Hkey
        | Hk : is_Some _ |- _ => destruct Hk as [? ?]
        end
      | forward_step ].
  all: cbn; assumption.
Qed.
End SelectorReturns.

(** ** The chat driver *)

Section ChatFacts.
Context {W : Type}.
Variable Inv : world W -> Prop.
Implicit Types (self : Orchestrator W) (s : state W).

Lemma last_content_snoc messages m :
  last_content (messages ++ [m]) = msg_content m.
Proof. unfold last_content. by rewrite last_snoc. Qed.

Lemma selectNext_key ceiling stage transcript counter key :
  fst (selectNext ceiling stage transcript counter) = Next key ->
  key ∈ stage_keys.
Proof.
  unfold selectNext, stage_keys.
  repeat match goal with
         | |- context [if ?b then _ else _] => destruct b
         end; cbn; intros [= <-]; set_solver.
Qed.

Lemma selector_spec self last_speaker messages s :
  callback_keeps Inv self -> Inv (outside s) ->
  match fst (selectNext (max_review_iterations self) (name last_speaker)
               messages (review_iteration_count s)) with
  | Next key => is_Some (agents self !! key)
  | Terminal => True
  end ->
  returns (custom_speaker_selector self last_speaker messages) s
    (fun r s' =>
       Inv (outside s')
       /\ review_iteration_count s'
          = snd (selectNext (max_review_iterations self) (name last_speaker)
                   messages (review_iteration_count s))
       /\ match fst (selectNext (max_review_iterations self) (name last_speaker)
                      messages (review_iteration_count s)) with
          | Next key => exists a, agents self !! key = Some a /\ r = Some a
          | Terminal => r = None
          end).
Proof.
  intros Hcb HI Hkey.
  destruct (selector_returns Inv self last_speaker messages s Hcb HI Hkey)
    as (r & s' & Hrun & HI').
  exists r, s'. split; [done|]. split; [done|].
  by apply selector_refines.
Qed.

(** A chat among agents that answer always ends by returning. *)
Lemma run_chat_returns self rounds speaker content messages s :
  callback_keeps Inv self ->
  (forall key, key ∈ stage_keys -> is_Some (agents self !! key)) ->
  agents_answer Inv (agents self) ->
  Inv (outside s) ->
  returns (run_chat self rounds speaker content messages) s
    (fun _ s' => Inv (outside s')).
Proof.
  intros Hcb Hkeys Hans.
  revert speaker content messages s.
  induction rounds as [|rounds IH]; intros speaker content messages s HI.
  - by apply returns_ret.
  - cbn [run_chat].
    destruct (is_termination_msg content || bool_decide (rounds = 0%nat));
      [by apply returns_ret|].
    apply returns_bind.
    eapply returns_weaken.
    { apply selector_spec; [done | done |].
      destruct (fst (selectNext _ _ _ _)) eqn:E; [|done].
      eapply Hkeys, selectNext_key, E. }
    cbv beta. intros r s1 (HI1 & _ & Hr).
    destruct (fst (selectNext _ _ _ _)).
    + destruct Hr as (a & Ha & ->).
      apply returns_bind.
      eapply returns_call; [by eapply Hans | done |].
      intros [c|] w' _ HI'; [by apply IH | by apply returns_ret].
    + subst r. by apply returns_ret.
Qed.
End ChatFacts.

(** ** Extraction never raises *)

Section ExtractionFacts.
Context {W : Type}.
Implicit Types (s : state W).

Lemma walk_raises_Exception f cur comps e :
  walk f cur comps = Raise e -> is_Exception e = true.
Proof.
  revert cur. induction comps as [|c rest IH]; intros cur; cbn; [done|].
  repeat case_match; eauto; intros [= <-]; done.
Qed.

Lemma write_text_raises_Exception comps body f e f' :
  write_text comps body f = (Raise e, f') -> is_Exception e = true.
Proof.
  unfold write_text.
  repeat case_match; intros [= <- <-]; try done.
  eauto using walk_raises_Exception.
Qed.

(** What [save_file] does, by the outcome of the write. *)
Lemma save_file_run workspace_path block n s :
  let target := path_join workspace_path (strip (fst block)) in
  let f := fs (outside s) in
  exists s',
    save_file workspace_path block n s
      = (Ok (match fst (write_text target (strip (snd block)) f) with
             | Ok _ => S n
             | Raise _ => n
             end), s')
    /\ fs (outside s') = snd (write_text target (strip (snd block)) f)
    /\ ext (outside s') = ext (outside s)
    /\ review_iteration_count s' = review_iteration_count s
    /\ trace s'
       = trace s ++ [match fst (write_text target (strip (snd block)) f) with
                     | Ok _ => Logged INFO "Extracted file"
                     | Raise _ => Logged WARNING "Failed to extract"
                     end].
Proof.
  cbv zeta. unfold save_file, try_except_Exception, bind, on_fs, log, emit, ret.
  destruct (write_text _ _ _) as [[[]|e] f'] eqn:E; cbn.
  - eauto 10.
  - rewrite (write_text_raises_Exception _ _ _ _ _ E). cbn. eauto 10.
Qed.

Lemma save_files_returns workspace_path matches n s :
  returns (save_files workspace_path matches n) s
    (fun _ s' => ext (outside s') = ext (outside s)
                 /\ review_iteration_count s' = review_iteration_count s).
Proof.
  revert n s. induction matches as [|block rest IH]; intros n s; cbn.
  - by apply returns_ret.
  - apply returns_bind.
    destruct (save_file_run workspace_path block n s) as (s1 & E & _ & He & Hc & _).
    eexists _, s1. split; [exact E|].
    eapply returns_weaken; [apply IH|]. cbv beta.
    intros _ s' [-> ->]. done.
Qed.

Lemma extract_files_returns workspace_path messages n s :
  returns (extract_files workspace_path messages n) s
    (fun _ s' => ext (outside s') = ext (outside s)
                 /\ review_iteration_count s' = review_iteration_count s).
Proof.
  revert n s. induction messages as [|msg rest IH]; intros n s; cbn.
  - by apply returns_ret.
  - apply returns_bind.
    eapply returns_weaken; [apply save_files_returns|]. cbv beta.
    intros k s1 [He Hc].
    eapply returns_weaken; [apply IH|]. cbv beta.
    intros _ s' [-> ->]. done.
Qed.

Lemma log_code_blocks_returns messages s :
  returns (log_code_blocks messages) s
    (fun _ s' => outside s' = outside s
                 /\ review_iteration_count s' = review_iteration_count s).
Proof.
  revert s. induction messages as [|msg rest IH]; intros s; cbn.
  - by apply returns_ret.
  - apply returns_bind. destruct (contains _ _).
    + apply returns_log. eapply returns_weaken; [apply IH|]. done.
    + apply returns_ret. apply IH.
Qed.
End ExtractionFacts.

(** ** The facade *)

Section FacadeFacts.
Context {W : Type}.
Variable Inv : world W -> Prop.
Variable get_llm_config : external W unit.
Variable run_tests : path -> external W test_report.
Implicit Types (self : Orchestrator W) (s : state W).

Lemma execute_tests_returns workspace_path s :
  runner_contained run_tests ->
  returns (execute_tests run_tests workspace_path) s
    (fun report s' =>
       review_iteration_count s' = review_iteration_count s
       /\ report_of run_tests report).
Proof.
  intros Hrun. specialize (Hrun workspace_path (outside s)).
  destruct (run_tests workspace_path (outside s)) as [[r|e] w'] eqn:E;
    cbn [fst] in Hrun;
    unfold returns, execute_tests, try_except_Exception, bind, call, log, emit, ret;
    cbn [outside review_iteration_count trace]; rewrite E.
  - eexists _, _. split; [reflexivity|]. split; [done|].
    exists workspace_path, (outside s), w'. by left.
  - rewrite Hrun. eexists _, _. split; [reflexivity|]. split; [done|].
    exists workspace_path, (outside s), w'. right. by exists e.
Qed.

(** An interrupt (or any other exception outside [Exception]) raised by
    the test runner goes through the test stage. *)
Lemma execute_tests_interrupted workspace_path s e w' :
  run_tests workspace_path (outside s) = (Raise e, w') ->
  is_Exception e = false ->
  fst (execute_tests run_tests workspace_path s) = Raise e.
Proof.
  intros E He.
  unfold execute_tests, try_except_Exception, bind, call, log, emit, ret.
  cbn [outside review_iteration_count trace]. by rewrite E, He.
Qed.

Lemma returns_abspath s (Q : path -> state W -> Prop) :
  Q (cwd (fs (outside s)) ++ [py "workspace"]) s ->
  returns abspath_workspace s Q.
Proof. intros. eexists _, _. split; [reflexivity | done]. Qed.

Lemma returns_on_fs {A} (op : filesystem -> py_result A * filesystem)
    s a f' (Q : A -> state W -> Prop) :
  op (fs (outside s)) = (Ok a, f') ->
  Q a {| review_iteration_count := review_iteration_count s;
         trace := trace s;
         outside := {| fs := f'; ext := ext (outside s) |} |} ->
  returns (on_fs op) s Q.
Proof.
  intros E HQ. eexists _, _. unfold on_fs. rewrite E. split; [reflexivity | done].
Qed.

Lemma blank_request (user_request : str) :
  strip user_request <> [] ->
  bool_decide (user_request = []) || bool_decide (strip user_request = []) = false.
Proof.
  intros H. apply orb_false_iff. split; apply bool_decide_eq_false; [|done].
  intros ->. by apply H.
Qed.

(** A run whose chat returns goes through extraction and the test stage
    and returns a success record; [C] is what the chat guarantees of the
    counter. *)
Lemma workflow_body_returns self user_request s (C : Z -> Prop) :
  strip user_request <> [] ->
  keeps Inv get_llm_config ->
  (forall key, key ∈ stage_keys -> is_Some (agents self !! key)) ->
  (forall admin groupchat s1,
     agents self !! "admin_proxy" = Some admin ->
     max_round groupchat = 50%nat ->
     Inv (outside s1) ->
     review_iteration_count s1 = review_iteration_count s ->
     returns (initiate_chat self admin groupchat user_request) s1
       (fun _ s' => Inv (outside s') /\ C (review_iteration_count s'))) ->
  (forall w, Inv w -> workspace_ready (fs w)) ->
  runner_contained run_tests ->
  Inv (outside s) ->
  returns (workflow_body get_llm_config run_tests self user_request) s
    (fun r s' =>
       exists files_extracted messages report,
         r = Success (length messages) (review_iteration_count s')
               files_extracted messages report
         /\ C (review_iteration_count s')
         /\ report_of run_tests report).
Proof.
  intros Hreq Hcfg Hkeys Hchat Hws Hrun HI.
  unfold workflow_body. rewrite (blank_request _ Hreq).
  apply returns_bind, returns_log.
  apply returns_bind, returns_log.
  apply returns_bind, returns_log.
  apply returns_bind, returns_log.
  apply returns_bind.
  eapply returns_call; [exact Hcfg | exact HI |]. intros [] w1 _ HI1.
  apply returns_bind. unfold create_group_chat.
  repeat match goal with
         | |- returns (bind (getitem _ ?k) _) _ _ =>
             let a := fresh "a" in
             let Ha := fresh "Ha" in
             destruct (Hkeys k) as [a Ha]; [set_solver|];
             apply returns_bind; eapply returns_getitem; [exact Ha|]; cbv beta
         end.
  forward. unfold create_manager. forward.
  eapply returns_weaken.
  { apply Hchat; [done | done | cbn; exact HI1 | done]. }
  cbv beta. intros messages s2 [HI2 HC].
  apply returns_bind, returns_log.
  apply returns_bind, returns_log.
  apply returns_bind, returns_log.
  apply returns_bind, returns_abspath. cbn [outside]. apply returns_bind.
  destruct (Hws _ HI2) as [f' Hf'].
  eapply returns_on_fs; [cbn [outside]; rewrite Hf'; reflexivity|].
  apply returns_bind.
  eapply returns_weaken; [apply extract_files_returns|].
  cbv beta. cbn [review_iteration_count outside ext].
  intros n s3 [_ Hc3].
  forward.
  eapply returns_weaken with
    (Q := fun _ s' => review_iteration_count s' = review_iteration_count s3).
  { destruct (bool_decide (n = 0%nat)).
    - forward. eapply returns_weaken; [apply log_code_blocks_returns|].
      cbv beta. intros _ s' [_ ->]. done.
    - by apply returns_ret. }
  cbv beta. intros _ s4 Hc4.
  apply returns_bind.
  eapply returns_weaken; [by apply execute_tests_returns|].
  cbv beta. intros report s5 [Hc5 Hrep].
  forward.
  exists n, messages, report. split; [done|]. split; [|done].
  rewrite Hc5, Hc4, Hc3. done.
Qed.

Lemma initiate_workflow_returns self user_request s Q :
  returns (workflow_body get_llm_config run_tests self user_request) s Q ->
  returns (initiate_workflow get_llm_config run_tests self user_request) s Q.
Proof.
  intros (r & s' & E & HQ). exists r, s'.
  unfold initiate_workflow. rewrite E. done.
Qed.
End FacadeFacts.

(** ** Rounds of a chat in which every agent speaks *)

Section ChatRounds.
Context {W : Type}.
Variable Inv : world W -> Prop.
Variable self : Orchestrator W.
Variable P : string -> str -> Prop.
Hypothesis Hcallback : callback_keeps Inv self.
Hypothesis Hspeak : agents_speak Inv (agents self) P.
Implicit Types (s : state W).

Lemma run_chat_S rounds speaker content messages :
  run_chat self (S rounds) speaker content messages
  = let messages :=
      messages ++ [{| msg_name := Some (name speaker); msg_content := content |}] in
    if is_termination_msg content || bool_decide (rounds = O) then ret messages
    else
      next <- custom_speaker_selector self speaker messages ;;
      match next with
      | None => ret messages
      | Some speaker' =>
          reply <- call (Replied (name speaker'))
                     (generate_reply speaker' messages) ;;
          match reply with
          | None => ret messages
          | Some content' => run_chat self rounds speaker' content' messages
          end
      end.
Proof. reflexivity. Qed.

(** A round after which the table designates [key]: the chat goes on
    with the agent under [key] and what it says. *)
Lemma run_chat_step rounds speaker content messages s key n Q :
  Inv (outside s) ->
  is_termination_msg content = false ->
  selectNext (max_review_iterations self) (name speaker)
    (messages ++ [{| msg_name := Some (name speaker); msg_content := content |}])
    (review_iteration_count s) = (Next key, n) ->
  is_Some (agents self !! key) ->
  (forall a c s',
     agents self !! key = Some a -> P (name a) c ->
     is_termination_msg c = false ->
     review_iteration_count s' = n -> Inv (outside s') ->
     returns
       (run_chat self (S rounds) a c
          (messages ++ [{| msg_name := Some (name speaker); msg_content := content |}]))
       s' Q) ->
  returns (run_chat self (S (S rounds)) speaker content messages) s Q.
Proof.
  intros HI Hterm Hnext Hkey Hrest.
  rewrite run_chat_S. cbv zeta. rewrite Hterm. cbn [orb].
  rewrite bool_decide_eq_false_2 by done.
  apply returns_bind.
  eapply returns_weaken.
  { apply (selector_spec Inv); [done | done |]. by rewrite Hnext. }
  cbv beta. rewrite Hnext. cbn [fst snd].
  intros r s1 (HI1 & Hn & a & Ha & ->).
  apply returns_bind.
  destruct (Hspeak key a Ha
              (messages ++ [{| msg_name := Some (name speaker);
                               msg_content := content |}])
              (outside s1) HI1) as (c & w' & E & HI' & Hc & HP).
  eexists _, _. split; [unfold call; rewrite E; reflexivity|].
  by apply Hrest.
Qed.

(** A round after which the table says the pipeline is over. *)
Lemma run_chat_stop rounds speaker content messages s n
    (Q : list message -> state W -> Prop) :
  Inv (outside s) ->
  is_termination_msg content = false ->
  selectNext (max_review_iterations self) (name speaker)
    (messages ++ [{| msg_name := Some (name speaker); msg_content := content |}])
    (review_iteration_count s) = (Terminal, n) ->
  (forall s',
     review_iteration_count s' = n -> Inv (outside s') ->
     Q (messages ++ [{| msg_name := Some (name speaker); msg_content := content |}]) s') ->
  returns (run_chat self (S (S rounds)) speaker content messages) s Q.
Proof.
  intros HI Hterm Hnext Hrest.
  rewrite run_chat_S. cbv zeta. rewrite Hterm. cbn [orb].
  rewrite bool_decide_eq_false_2 by done.
  apply returns_bind.
  eapply returns_weaken.
  { apply (selector_spec Inv); [done | done |]. by rewrite Hnext. }
  cbv beta. rewrite Hnext. cbn [fst snd].
  intros r s1 (HI1 & Hn & ->).
  apply returns_ret. by apply Hrest.
Qed.
End ChatRounds.

(** ** The pipeline of a standard team *)

Section Pipeline.
Context {W : Type}.
Variable Inv : world W -> Prop.
Variable self : Orchestrator W.
Variable R : str -> Prop.
Hypothesis Hcallback : callback_keeps Inv self.
Hypothesis Hteam : standard_team (agents self).
Hypothesis Hspeak : agents_speak Inv (agents self) (reviewer_says R).
Implicit Types (s : state W).

Lemma team_member key stage :
  (key, stage) ∈ roster -> cast_as (agents self) key stage.
Proof.
  intros Hin. unfold standard_team in Hteam.
  rewrite Forall_forall in Hteam. by apply (Hteam (key, stage)).
Qed.

Lemma team_name key stage a :
  (key, stage) ∈ roster -> agents self !! key = Some a -> name a = stage.
Proof.
  intros Hin Ha. destruct (team_member key stage Hin) as (b & Hb & <-).
  congruence.
Qed.

Lemma team_keys key : key ∈ stage_keys -> is_Some (agents self !! key).
Proof.
  intros Hin.
  assert (exists stage, (key, stage) ∈ roster) as [stage Hst].
  { change stage_keys with (fst <$> roster) in Hin.
    apply list_elem_of_fmap in Hin as ([k stage] & -> & Hin). by exists stage. }
  destruct (team_member key stage Hst) as (a & Ha & _). by exists a.
Qed.

(** One linear edge of the table, taken by the chat. *)
Ltac linear_edge k :=
  eapply (run_chat_step Inv self (reviewer_says R)) with (key := k);
  [ done | done | done | done
  | match goal with H : name _ = _ |- _ => rewrite H end; reflexivity
  | apply team_keys; set_solver
  | ].

(** Documentation, tests, deployment and interface design, then the
    end of the chat; the counter is not touched. *)
Lemma downstream rounds tw content messages s :
  name tw = "Tech_Writer" -> is_termination_msg content = false ->
  Inv (outside s) ->
  returns (run_chat self (5 + rounds) tw content messages) s
    (fun _ s' => Inv (outside s')
                 /\ review_iteration_count s' = review_iteration_count s).
Proof.
  intros Htw Hc HI. cbn [Nat.add].
  linear_edge "qa_engineer".
  intros qa c1 s1 Hqa%(team_name _ "QA_Engineer") _ Hc1 Hn1 HI1; [|set_solver].
  linear_edge "devops_engineer".
  intros dv c2 s2 Hdv%(team_name _ "DevOps_Engineer") _ Hc2 Hn2 HI2; [|set_solver].
  linear_edge "ux_designer".
  intros ux c3 s3 Hux%(team_name _ "UX_Designer") _ Hc3 Hn3 HI3; [|set_solver].
  eapply (run_chat_stop Inv self); [done | done | done | |].
  { rewrite Hux. reflexivity. }
  intros s4 Hn4 HI4. split; [done|]. congruence.
Qed.

Lemma selectNext_reviewer ceiling transcript counter :
  selectNext ceiling "Code_Reviewer" transcript counter
  = if contains FIX_REQUIRED (last_content transcript) then
      if counter + 1 >=? ceiling then (Next "tech_writer", counter + 1)
      else (Next "python_engineer", counter + 1)
    else (Next "tech_writer", counter).
Proof. reflexivity. Qed.

(** The review loop when every review asks for rework: [n] more reviews
    bring the counter to the ceiling, the last one forcing the advance. *)
Lemma review_loop n : forall rounds pe content messages s,
  (forall c, R c -> contains FIX_REQUIRED c = true) ->
  name pe = "Python_Engineer" -> is_termination_msg content = false ->
  Inv (outside s) ->
  review_iteration_count s + Z.of_nat (S n) = max_review_iterations self ->
  returns (run_chat self (2 * S n + 5 + rounds) pe content messages) s
    (fun _ s' => Inv (outside s')
                 /\ review_iteration_count s' = max_review_iterations self).
Proof.
  induction n as [|n IH]; intros rounds pe content messages s HR Hpe Hc HI Hn.
  - change (2 * 1 + 5 + rounds)%nat with (S (S (5 + rounds))).
    linear_edge "code_reviewer".
    intros cr c1 s1 Hcr%(team_name _ "Code_Reviewer") HP Hc1 Hn1 HI1; [|set_solver].
    eapply (run_chat_step Inv self (reviewer_says R)) with (key := "tech_writer");
      [done | done | done | done | | apply team_keys; set_solver |].
    { rewrite Hcr, selectNext_reviewer, last_content_snoc. cbn [msg_content].
      rewrite (HR c1 (HP Hcr)).
      replace (review_iteration_count s1 + 1 >=? max_review_iterations self)
        with true by (symmetry; apply Z.geb_le; lia).
      reflexivity. }
    intros tw c2 s2 Htw%(team_name _ "Tech_Writer") _ Hc2 Hn2 HI2; [|set_solver].
    eapply returns_weaken; [by apply downstream|].
    cbv beta. intros _ s' [HI' ->]. split; [done | lia].
  - replace (2 * S (S n) + 5 + rounds)%nat
      with (S (S (2 * S n + 5 + rounds))) by lia.
    linear_edge "code_reviewer".
    intros cr c1 s1 Hcr%(team_name _ "Code_Reviewer") HP Hc1 Hn1 HI1; [|set_solver].
    replace (S (2 * S n + 5 + rounds))%nat
      with (S (S (2 * n + 6 + rounds))) by lia.
    eapply (run_chat_step Inv self (reviewer_says R)) with (key := "python_engineer");
      [done | done | done | done | | apply team_keys; set_solver |].
    { rewrite Hcr, selectNext_reviewer, last_content_snoc. cbn [msg_content].
      rewrite (HR c1 (HP Hcr)).
      replace (review_iteration_count s1 + 1 >=? max_review_iterations self)
        with false by (symmetry; rewrite Z.geb_leb; apply Z.leb_gt; lia).
      reflexivity. }
    intros pe' c2 s2 Hpe'%(team_name _ "Python_Engineer") _ Hc2 Hn2 HI2; [|set_solver].
    replace (S (2 * n + 6 + rounds))%nat with (2 * S n + 5 + rounds)%nat by lia.
    apply IH; [done | done | done | done | lia].
Qed.

(** The whole chat when every review asks for rework. *)
Lemma rework_chat admin user_request s :
  (forall c, R c -> contains FIX_REQUIRED c = true) ->
  name admin = "Admin_Proxy" -> is_termination_msg user_request = false ->
  1 <= max_review_iterations self -> max_review_iterations self <= 21 ->
  Inv (outside s) ->
  returns (run_chat self 50 admin user_request []) s
    (fun _ s' => Inv (outside s')
                 /\ review_iteration_count s' = max_review_iterations self).
Proof.
  intros HR Hadmin Hreq Hfloor Hceiling HI.
  linear_edge "product_manager".
  intros pm c1 s1 Hpm%(team_name _ "Product_Manager") _ Hc1 Hn1 HI1; [|set_solver].
  linear_edge "python_engineer".
  intros pe c2 s2 Hpe%(team_name _ "Python_Engineer") _ Hc2 Hn2 HI2; [|set_solver].
  destruct (Z.to_nat (max_review_iterations self)) as [|n] eqn:En; [lia|].
  replace 48%nat with (2 * S n + 5 + (41 - 2 * n))%nat by lia.
  apply review_loop; [done | done | done | done | lia].
Qed.

(** The whole chat when no review asks for rework nor approves. *)
Lemma ambiguous_chat admin user_request s :
  (forall c, R c -> contains FIX_REQUIRED c = false) ->
  name admin = "Admin_Proxy" -> is_termination_msg user_request = false ->
  Inv (outside s) ->
  returns (run_chat self 50 admin user_request []) s
    (fun _ s' => Inv (outside s') /\ review_iteration_count s' = 0).
Proof.
  intros HR Hadmin Hreq HI.
  linear_edge "product_manager".
  intros pm c1 s1 Hpm%(team_name _ "Product_Manager") _ Hc1 Hn1 HI1; [|set_solver].
  linear_edge "python_engineer".
  intros pe c2 s2 Hpe%(team_name _ "Python_Engineer") _ Hc2 Hn2 HI2; [|set_solver].
  linear_edge "code_reviewer".
  intros cr c3 s3 Hcr%(team_name _ "Code_Reviewer") HP Hc3 Hn3 HI3; [|set_solver].
  eapply (run_chat_step Inv self (reviewer_says R)) with (key := "tech_writer");
    [done | done | done | done | | apply team_keys; set_solver |].
  { rewrite Hcr, selectNext_reviewer, last_content_snoc. cbn [msg_content].
    rewrite (HR c3 (HP Hcr)). reflexivity. }
  intros tw c4 s4 Htw%(team_name _ "Tech_Writer") _ Hc4 Hn4 HI4; [|set_solver].
  eapply returns_weaken; [by apply (downstream 41)|].
  cbv beta. intros _ s' [HI' ->]. split; [done | congruence].
Qed.
End Pipeline.

(** ** Transitions of the selector *)

Section Transitions.
Context {W : Type}.
Implicit Types (self : Orchestrator W) (s : state W).

Lemma has_spoken_true stage transcript :
  has_spoken stage transcript = true
  <-> exists m, m ∈ transcript /\ msg_name m = Some stage.
Proof.
  unfold has_spoken. rewrite existsb_exists. split.
  - intros (m & Hin & Hm). exists m. split; [by apply list_elem_of_In|].
    by apply bool_decide_eq_true in Hm.
  - intros (m & Hin & Hm). exists m. split; [by apply list_elem_of_In|].
    by apply bool_decide_eq_true.
Qed.

Lemma has_spoken_false stage transcript :
  has_spoken stage transcript = false
  <-> forall m, m ∈ transcript -> msg_name m <> Some stage.
Proof.
  rewrite <- not_true_iff_false, has_spoken_true. split.
  - intros Hno m Hin Hm. apply Hno. by exists m.
  - intros Hall (m & Hin & Hm). by apply (Hall m).
Qed.

(** What the selector does when the table designates [key] and the
    callback is quiet. *)
Lemma selector_next self last_speaker messages s key n a :
  quiet_callback self ->
  selectNext (max_review_iterations self) (name last_speaker) messages
    (review_iteration_count s) = (Next key, n) ->
  agents self !! key = Some a ->
  exists s',
    custom_speaker_selector self last_speaker messages s = (Ok (Some a), s')
    /\ review_iteration_count s' = n.
Proof.
  intros Hq Hnext Ha.
  destruct (selector_spec (fun _ => True) self last_speaker messages s Hq I)
    as (r & s' & Hrun & _ & Hn & Hr).
  { rewrite Hnext. by exists a. }
  rewrite Hnext in Hn, Hr. cbn in Hn, Hr.
  destruct Hr as (b & Hb & ->). exists s'. split; [|done]. congruence.
Qed.

Lemma selector_terminal self last_speaker messages s n :
  quiet_callback self ->
  selectNext (max_review_iterations self) (name last_speaker) messages
    (review_iteration_count s) = (Terminal, n) ->
  exists s',
    custom_speaker_selector self last_speaker messages s = (Ok None, s')
    /\ review_iteration_count s' = n.
Proof.
  intros Hq Hnext.
  destruct (selector_spec (fun _ => True) self last_speaker messages s Hq I)
    as (r & s' & Hrun & _ & Hn & Hr).
  { by rewrite Hnext. }
  rewrite Hnext in Hn, Hr. cbn in Hn, Hr. subst r. by exists s'.
Qed.

(** The start stage after the last content stage: no callback is
    involved. *)
Lemma selector_admin_end self last_speaker messages s :
  name last_speaker = "Admin_Proxy" ->
  has_spoken "UX_Designer" messages = true ->
  custom_speaker_selector self last_speaker messages s
  = (Ok None,
     {| review_iteration_count := review_iteration_count s;
        trace := trace s ++
          [Logged DEBUG "Speaker selection: Last speaker";
           Logged INFO "[Workflow] Completion | Admin_Proxy after UX_Designer - workflow complete"];
        outside := outside s |}).
Proof.
  intros Hname Hux. unfold custom_speaker_selector.
  change (ux_designer_has_spoken messages) with (has_spoken "UX_Designer" messages).
  rewrite Hname, Hux. cbn. by rewrite <- app_assoc.
Qed.

(** A review with neither keyword: no callback is involved either. *)
Lemma selector_ambiguous self last_speaker messages s tw :
  name last_speaker = "Code_Reviewer" ->
  contains FIX_REQUIRED (last_content messages) = false ->
  contains APPROVED (last_content messages) = false ->
  agents self !! "tech_writer" = Some tw ->
  custom_speaker_selector self last_speaker messages s
  = (Ok (Some tw),
     {| review_iteration_count := review_iteration_count s;
        trace := trace s ++
          [Logged DEBUG "Speaker selection: Last speaker";
           Logged WARNING "Code_Reviewer response missing required keywords (FIX_REQUIRED/APPROVED). Defaulting to approval."];
        outside := outside s |}).
Proof.
  intros Hname Hfix Happ Htw. unfold custom_speaker_selector.
  rewrite Hname, Hfix, Happ. unfold getitem. rewrite Htw.
  cbn. by rewrite <- app_assoc.
Qed.
End Transitions.

(** ** Facts about the scripted team *)

Lemma team_is_standard code review : standard_team (team code review).
Proof.
  unfold standard_team, roster.
  repeat (apply Forall_cons; split; [eexists; split; reflexivity|]).
  apply Forall_nil_2.
Qed.

Lemma team_members code review key a :
  team code review !! key = Some a ->
  exists stage reply,
    a = scripted stage reply
    /\ (reply = review \/ (stage <> "Code_Reviewer"
                          /\ (reply = code \/ is_termination_msg reply = false))).
Proof.
  intros Ha. apply elem_of_list_to_map_2 in Ha.
  repeat (apply elem_of_cons in Ha as [[= -> ->] | Ha];
          [eexists _, _; split; [reflexivity|];
           first [by left | right; split; [done|]; first [by left | by right]]|]).
  by apply elem_of_nil in Ha.
Qed.

Lemma team_speaks code review (R : str -> Prop) :
  is_termination_msg code = false -> is_termination_msg review = false ->
  R review ->
  agents_speak untouched (team code review) (reviewer_says R).
Proof.
  intros Hcode Hreview HR key a Ha messages w Hw.
  destruct (team_members _ _ _ _ Ha) as (stage & reply & -> & Hreply).
  exists reply, w. cbn. split; [done|]. split; [done|].
  unfold reviewer_says.
  destruct Hreply as [-> | [Hstage [-> | Hterm]]]; split; done.
Qed.

Lemma team_answers code review :
  agents_answer untouched (team code review).
Proof.
  intros key a Ha messages w Hw.
  destruct (team_members _ _ _ _ Ha) as (stage & reply & -> & _).
  by exists (Some reply), w.
Qed.

Lemma callback_silent_keeps agents ceiling :
  callback_keeps untouched
    (WorkflowOrchestrator agents ceiling (Some callback_silent)).
Proof.
  intros callback [= <-] stage action iteration w Hw. by exists PyNone, w.
Qed.

Lemma callback_silent_quiet agents ceiling :
  quiet_callback (WorkflowOrchestrator agents ceiling (Some callback_silent)).
Proof.
  intros callback [= <-] stage action iteration w Hw. by exists PyNone, w.
Qed.

Lemma start_ready w : untouched w -> workspace_ready (fs w).
Proof. intros ->. eexists. reflexivity. Qed.

(** ** The review loop driven from outside *)

(** The review loop under repeated rework signals, seen from outside: with
    [n + 1] reviews to go before the ceiling, the next [n] route back to the
    engineer and the last one advances to the writer. *)
Lemma review_rounds_rework {W} (self : Orchestrator W) (reviewer pe tw : Agent W)
    (transcripts : list (list message)) :
  forall s : state W,
  quiet_callback self ->
  name reviewer = "Code_Reviewer" ->
  agents self !! "python_engineer" = Some pe ->
  agents self !! "tech_writer" = Some tw ->
  Forall (fun t => contains FIX_REQUIRED (last_content t) = true) transcripts ->
  (1 <= length transcripts)%nat ->
  review_iteration_count s + Z.of_nat (length transcripts)
    = max_review_iterations self ->
  exists s',
    review_rounds self reviewer transcripts s
    = (Ok (replicate (length transcripts - 1) (Some pe) ++ [Some tw]), s')
    /\ review_iteration_count s' = max_review_iterations self.
Proof.
  induction transcripts as [|t rest IH]; intros s Hq Hname Hpe Htw Hall Hlen Hn.
  - cbn in Hlen. lia.
  - apply Forall_cons in Hall as [Hfix Hrest].
    cbn [review_rounds]. unfold bind at 1.
    destruct rest as [|t' rest].
    + destruct (selector_next self reviewer t s "tech_writer"
                  (review_iteration_count s + 1) tw Hq) as (s1 & -> & Hs1);
        [|done|].
      { rewrite Hname, selectNext_reviewer, Hfix.
        replace (review_iteration_count s + 1 >=? max_review_iterations self)
          with true; [done|].
        symmetry. apply Z.geb_le. cbn in Hn. lia. }
      cbn. eexists. split; [reflexivity|]. cbn in Hn. cbn. lia.
    + destruct (selector_next self reviewer t s "python_engineer"
                  (review_iteration_count s + 1) pe Hq) as (s1 & -> & Hs1);
        [|done|].
      { rewrite Hname, selectNext_reviewer, Hfix.
        replace (review_iteration_count s + 1 >=? max_review_iterations self)
          with false; [done|].
        symmetry. rewrite Z.geb_leb. apply Z.leb_gt. cbn [length] in Hn. lia. }
      destruct (IH s1 Hq Hname Hpe Htw Hrest) as (s' & E & Hs');
        [cbn; lia | cbn [length] in *; lia |].
      unfold bind. rewrite E. eexists. split; [|exact Hs'].
      cbn [length]. replace (S (S (length rest)) - 1)%nat with (S (length rest)) by lia.
      replace (S (length rest) - 1)%nat with (length rest) by lia.
      reflexivity.
Qed.

(** ** Blank requests *)

Lemma lstrip_blank (s : str) : forallb is_space s = true -> lstrip s = [].
Proof.
  induction s as [|c s IH]; cbn; [done|].
  intros [-> Hs]%andb_true_iff. auto.
Qed.

Lemma strip_blank (s : str) : forallb is_space s = true -> strip s = [].
Proof. intros H. unfold strip. by rewrite (lstrip_blank s H). Qed.

(** ** Runs that raise *)

Section OutcomeFacts.
Context {W : Type}.
Implicit Types (s : state W).

Lemma outcome_ret {A} (a : A) s Q : Q (Ok a) s -> outcome (ret a) s Q.
Proof. done. Qed.

Lemma outcome_bind {A B} (c : M W A) (k : A -> M W B) s Q :
  outcome c s (fun o s1 => match o with
                           | Ok a => outcome (k a) s1 Q
                           | Raise e => Q (Raise e) s1
                           end) ->
  outcome (bind c k) s Q.
Proof. unfold outcome, bind. by destruct (c s) as [[a|e] s1]. Qed.

Lemma outcome_log lvl text s (Q : py_result unit -> state W -> Prop) :
  Q (Ok tt) {| review_iteration_count := review_iteration_count s;
               trace := trace s ++ [Logged lvl text]; outside := outside s |} ->
  outcome (log lvl text) s Q.
Proof. done. Qed.

Lemma outcome_get_count s (Q : py_result Z -> state W -> Prop) :
  Q (Ok (review_iteration_count s)) s -> outcome get_count s Q.
Proof. done. Qed.

Lemma outcome_set_count n s (Q : py_result unit -> state W -> Prop) :
  Q (Ok tt) {| review_iteration_count := n; trace := trace s;
               outside := outside s |} ->
  outcome (set_count n) s Q.
Proof. done. Qed.

Lemma outcome_getitem (d : gmap string (Agent W)) key s Q :
  match d !! key with
  | Some a => Q (Ok a) s
  | None => Q (Raise (KeyError key)) s
  end ->
  outcome (getitem d key) s Q.
Proof. unfold outcome, getitem. by destruct (d !! key). Qed.

(** A notification whose callback raises [e]: the event is recorded and
    [e] leaves [notify]. *)
Lemma outcome_notify_raising (self : Orchestrator W) callback e
    stage action iteration s (Q : py_result unit -> state W -> Prop) :
  progress_callback self = Some callback ->
  (forall stage action iteration w,
     fst (callback stage action iteration w) = Raise e) ->
  (forall w', Q (Raise e)
                {| review_iteration_count := review_iteration_count s;
                   trace := trace s ++ [Notified stage action iteration];
                   outside := w' |}) ->
  outcome (notify self stage action iteration) s Q.
Proof.
  intros Hsome Hraise HQ. unfold outcome, notify, bind, call. rewrite Hsome.
  specialize (Hraise stage action iteration (outside s)).
  destruct (callback stage action iteration (outside s)) as [r w'].
  cbn in Hraise. subst r. apply HQ.
Qed.
Lemma outcome_elim {A} (c : M W A) s Q :
  outcome c s Q -> Q (fst (c s)) (snd (c s)).
Proof. done. Qed.

(** A notification to [callback]: the event is recorded, and what the
    call does decides how [notify] ends. *)
Lemma outcome_notify_call (self : Orchestrator W) callback
    stage action iteration s (Q : py_result unit -> state W -> Prop) :
  progress_callback self = Some callback ->
  (forall v w', callback stage action iteration (outside s) = (Ok v, w') ->
                Q (Ok tt)
                  {| review_iteration_count := review_iteration_count s;
                     trace := trace s ++ [Notified stage action iteration];
                     outside := w' |}) ->
  (forall e w', callback stage action iteration (outside s) = (Raise e, w') ->
                Q (Raise e)
                  {| review_iteration_count := review_iteration_count s;
                     trace := trace s ++ [Notified stage action iteration];
                     outside := w' |}) ->
  outcome (notify self stage action iteration) s Q.
Proof.
  intros Hsome Hok Hraise. unfold outcome, notify, bind, call, ret. rewrite Hsome.
  destruct (callback stage action iteration (outside s)) as [[v|e] w'] eqn:E.
  - by apply (Hok v).
  - by apply Hraise.
Qed.
End OutcomeFacts.

#[global] Opaque outcome.

Ltac outcome_step :=
  first
    [ apply outcome_bind
    | apply outcome_ret
    | apply outcome_log
    | apply outcome_get_count
    | apply outcome_set_count
    | apply outcome_getitem;
      match goal with
      | |- match ?d !! ?k with _ => _ end => destruct (d !! k)
      end
    | eapply outcome_notify_raising; [eassumption | eassumption | intros ?]
    | match goal with
      | |- outcome (if ?b then _ else _) _ _ => destruct b
      end ].

(** ** Writing an artifact *)

Lemma split_on_nonempty sep s : split_on sep s <> [].
Proof.
  destruct s as [|c s]; cbn; [done|].
  destruct (c =? sep)%N; [done|]. by destruct (split_on sep s).
Qed.









(** ** Matches of the file-block pattern *)

Lemma strip_prefix_Some p : forall s rest,
  strip_prefix p s = Some rest -> s = p ++ rest.
Proof.
  induction p as [|a p IH]; intros [|b s] rest; cbn; try done.
  - by intros [= ->].
  - by intros [= ->].
  - destruct (N.eqb_spec a b) as [-> | _]; [|done].
    intros ->%IH. done.
Qed.

Lemma strip_prefix_app p s : strip_prefix p (p ++ s) = Some s.
Proof.
  induction p as [|a p IH]; cbn; [by destruct s|]. by rewrite N.eqb_refl.
Qed.

Lemma contains_prefix needle s : contains needle (needle ++ s) = true.
Proof.
  destruct (needle ++ s) eqn:E; cbn; unfold starts_with;
    rewrite <- E, strip_prefix_app; done.
Qed.

Lemma contains_app_r needle a b :
  contains needle b = true -> contains needle (a ++ b) = true.
Proof.
  intros Hb. induction a as [|c a IH]; cbn; [done|].
  rewrite IH. apply orb_true_r.
Qed.

Section RegexFacts.
Context {R : Type}.
Implicit Types (k : str -> str -> option R).

Lemma lit_Some p s (k : str -> option R) r :
  lit p s k = Some r -> exists rest, s = p ++ rest /\ k rest = Some r.
Proof.
  unfold lit. destruct (strip_prefix p s) as [rest|] eqn:E; [|done].
  apply strip_prefix_Some in E. eauto.
Qed.

Lemma lit_app p s (k : str -> option R) : lit p (p ++ s) k = k s.
Proof. unfold lit. by rewrite strip_prefix_app. Qed.




(** The lazy quantifier stops at the first text on which its continuation
    succeeds. *)
Lemma lazy_first cls x : forall y acc k,
  forallb cls x = true ->
  (forall x1 x2, x = x1 ++ x2 -> x2 <> [] -> k (acc ++ x1) (x2 ++ y) = None) ->
  is_Some (k (acc ++ x) y) ->
  lazy cls (x ++ y) acc k = k (acc ++ x) y.
Proof.
  induction x as [|c x IH]; intros y acc k Hcls Hnone [r Hr].
  - rewrite app_nil_r in *. cbn. destruct y; cbn; by rewrite Hr.
  - cbn in Hcls. apply andb_true_iff in Hcls as [Hc Hcls].
    pose proof (Hnone [] (c :: x) eq_refl ltac:(done)) as Hhere.
    rewrite app_nil_r in Hhere. cbn [app] in Hhere.
    cbn [app lazy]. rewrite Hhere, Hc.
    rewrite IH; [by rewrite <- app_assoc | done | | by rewrite <- app_assoc; exists r].
    intros x1 x2 -> Hx2. rewrite <- app_assoc. by apply (Hnone (c :: x1)).
Qed.
End RegexFacts.




Lemma findall_skip x : forall y,
  findall_from (x ++ y) (length x) = findall_from y 0.
Proof. induction x as [|c x IH]; intros y; [done|]. apply IH. Qed.

Lemma no_end_inside_split text tail : forall x1 x2,
  no_end_inside text tail = true ->
  text = x1 ++ x2 -> x2 <> [] ->
  strip_prefix END_FILE (x2 ++ tail) = None.
Proof.
  induction text as [|c text IH]; intros x1 x2 Hno Hsplit Hx2.
  - by destruct x1, x2.
  - cbn [no_end_inside] in Hno. apply andb_true_iff in Hno as [Hhere Hno].
    destruct x1 as [|c1 x1].
    + cbn in Hsplit. subst x2. unfold starts_with in Hhere.
      by destruct (strip_prefix END_FILE ((c :: text) ++ tail)).
    + injection Hsplit as -> ->. by apply (IH x1).
Qed.

Lemma EQUALS3_eq : EQUALS3 = [61; 61; 61]%N.
Proof. reflexivity. Qed.

Section BlockFacts.
Context {R : Type}.

(** The name group: [[^\s]+] first runs over the three equal signs that
    close the marker, and gives them back. *)
Lemma greedy_equals (k : str -> str -> option R) acc y :
  greedy non_space (EQUALS3 ++ nl :: y) acc
    (fun filename s2 => lit EQUALS3 s2 (k filename))
  = k acc (nl :: y).
Proof.
  rewrite EQUALS3_eq. unfold nl, lit.
  cbn [app greedy strip_prefix N.eqb Pos.eqb].
  change (non_space 61%N) with true. change (non_space 10%N) with false.
  reflexivity.
Qed.

Lemma greedy_name (k : str -> str -> option R) name : forall acc y r,
  forallb non_space name = true ->
  k (acc ++ name) (nl :: y) = Some r ->
  greedy non_space (name ++ EQUALS3 ++ nl :: y) acc
    (fun filename s2 => lit EQUALS3 s2 (k filename))
  = Some r.
Proof.
  induction name as [|c name IH]; intros acc y r Hname Hk.
  - rewrite app_nil_r in Hk. cbn [app]. by rewrite greedy_equals.
  - cbn in Hname. apply andb_true_iff in Hname as [Hc Hname].
    cbn [app greedy]. rewrite Hc.
    rewrite (IH (acc ++ [c]) y r); [done | done |].
    by rewrite <- app_assoc.
Qed.

Lemma lit_newline_mismatch (k : str -> option R) c s :
  c <> nl -> lit [nl] (c :: s) k = None.
Proof.
  intros Hc. unfold lit. cbn [strip_prefix].
  by destruct (N.eqb_spec nl c) as [<- | _].
Qed.

(** White space without a newline, followed by a character that is not
    white space, cannot be followed by the newline the pattern asks for. *)
Lemma greedy_spaces_fail (k : str -> option R) run c rest : forall acc,
  nl ∉ run -> is_space c = false ->
  greedy is_space (run ++ c :: rest) acc (fun _ s4 => lit [nl] s4 k) = None.
Proof.
  induction run as [|x run IH]; intros acc Hnl Hc.
  - cbn [app greedy]. rewrite Hc. apply lit_newline_mismatch. by intros ->.
  - cbn [app greedy]. rewrite IH; [|set_solver|done].
    rewrite lit_newline_mismatch; [by destruct (is_space x) | set_solver].
Qed.

(** [\s*\n]: of the white space that follows the marker, everything up to
    the last newline is consumed, provided the rest of the pattern matches
    after each newline. *)
Lemma greedy_spaces (k : str -> option R) run c rest : forall acc,
  forallb is_space run = true -> is_space c = false -> nl ∈ run ->
  (forall l1 l2, run = l1 ++ nl :: l2 -> is_Some (k (l2 ++ c :: rest))) ->
  exists l1 l2,
    run = l1 ++ nl :: l2
    /\ greedy is_space (run ++ c :: rest) acc (fun _ s4 => lit [nl] s4 k)
       = k (l2 ++ c :: rest).
Proof.
  induction run as [|x run IH]; intros acc Hrun Hc Hnl Hk.
  - by apply elem_of_nil in Hnl.
  - cbn in Hrun. apply andb_true_iff in Hrun as [Hx Hrun].
    cbn [app greedy]. rewrite Hx.
    destruct (decide (nl ∈ run)) as [Hin | Hout].
    + destruct (IH (acc ++ [x]) Hrun Hc Hin) as (l1 & l2 & -> & E).
      { intros l1 l2 ->. by apply (Hk (x :: l1)). }
      exists (x :: l1), l2. split; [done|]. rewrite E.
      by destruct (Hk (x :: l1) l2 eq_refl) as [r ->].
    + rewrite greedy_spaces_fail by done.
      apply elem_of_cons in Hnl as [<- | Hin]; [|done].
      exists [], run. split; [done|]. apply (lit_app [nl]).
Qed.
End BlockFacts.

(** A block whose text holds no END marker.  The pattern pairs the BEGIN
    marker with the first END marker that follows: the body is all the
    text in between, less the white space that leads it up to a newline. *)
Lemma file_pattern_block name lead c text post :
  name <> [] ->
  forallb non_space name = true ->
  forallb is_space lead = true -> is_space c = false ->
  no_end_inside (lead ++ c :: text) (END_FILE ++ post) = true ->
  exists gap body,
    lead ++ c :: text = gap ++ body
    /\ forallb is_space gap = true
    /\ file_pattern (BEGIN_FILE ++ name ++ EQUALS3 ++ nl :: (lead ++ c :: text)
                       ++ END_FILE ++ post)
       = Some (name, body, post).
Proof.
  intros Hname Hns Hlead Hc Hno.
  destruct name as [|c0 name]; [done|]. clear Hname.
  cbn in Hns. apply andb_true_iff in Hns as [Hc0 Hns].
  set (k5 := fun (filename file_content s6 : str) =>
               lit END_FILE s6 (fun s7 => Some (filename, file_content, s7))).
  set (k4 := fun (filename s5 : str) => lazy any_char s5 [] (k5 filename)).
  assert (forall l2 gap, lead = gap ++ l2 ->
            k4 (c0 :: name) (l2 ++ c :: text ++ END_FILE ++ post)
            = Some (c0 :: name, l2 ++ c :: text, post)) as Hbody.
  { intros l2 gap ->. unfold k4.
    change (l2 ++ c :: text ++ END_FILE ++ post)
      with (l2 ++ (c :: text) ++ END_FILE ++ post).
    rewrite (app_assoc l2), lazy_first.
    - unfold k5. by rewrite lit_app.
    - clear. by induction (l2 ++ c :: text).
    - intros x1 x2 Hsplit Hx2. unfold k5, lit. cbn [app].
      rewrite (no_end_inside_split _ _ (gap ++ x1) x2 Hno); [done | | done].
      rewrite <- !app_assoc. by rewrite <- Hsplit.
    - unfold k5. rewrite lit_app. by eexists. }
  destruct (greedy_spaces (k4 (c0 :: name)) (nl :: lead) c
              (text ++ END_FILE ++ post) [])
    as (l1 & l2 & Hsplit & Hgreedy); [done | done | set_solver | |].
  { intros l1 l2 Hsplit. destruct l1 as [|x l1]; cbn in Hsplit; simplify_eq.
    - rewrite (Hbody l2 []); [by eexists | done].
    - rewrite (Hbody l2 (l1 ++ [nl])); [by eexists | by rewrite <- app_assoc]. }
  assert (exists gap, lead = gap ++ l2 /\ forallb is_space gap = true)
    as (gap & Hgap & Hspaces).
  { destruct l1 as [|x l1]; cbn in Hsplit; simplify_eq.
    - by exists [].
    - exists (l1 ++ [nl]). split; [by rewrite <- app_assoc|].
      rewrite forallb_app in Hlead. apply andb_true_iff in Hlead as [Hl1 _].
      rewrite forallb_app, Hl1. done. }
  exists gap, (l2 ++ c :: text). split; [by rewrite Hgap, <- app_assoc|].
  split; [done|].
  unfold file_pattern. rewrite lit_app. cbn [app greedy1]. rewrite Hc0.
  apply (greedy_name
           (fun filename s3 =>
              greedy is_space s3 [] (fun _ s4 => lit [nl] s4 (k4 filename)))).
  { done. }
  cbn [app].
  change (nl :: (lead ++ c :: text) ++ END_FILE ++ post)
    with ((nl :: lead ++ c :: text) ++ END_FILE ++ post).
  rewrite <- (app_assoc (nl :: lead) (c :: text)). cbn [app] in Hgreedy |- *.
  rewrite Hgreedy. by apply (Hbody l2 gap).
Qed.

Lemma findall_block name lead c text post :
  name <> [] ->
  forallb non_space name = true ->
  forallb is_space lead = true -> is_space c = false ->
  no_end_inside (lead ++ c :: text) (END_FILE ++ post) = true ->
  exists gap body,
    lead ++ c :: text = gap ++ body
    /\ forallb is_space gap = true
    /\ findall (BEGIN_FILE ++ name ++ EQUALS3 ++ nl :: (lead ++ c :: text)
                  ++ END_FILE ++ post)
       = (name, body) :: findall post.
Proof.
  intros Hname Hns Hlead Hc Hno.
  destruct (file_pattern_block name lead c text post Hname Hns Hlead Hc Hno)
    as (gap & body & Hsplit & Hgap & Hmatch).
  exists gap, body. split; [done|]. split; [done|].
  unfold findall.
  remember (BEGIN_FILE ++ name ++ EQUALS3 ++ nl :: (lead ++ c :: text) ++ END_FILE)
    as block eqn:Hblock.
  assert (BEGIN_FILE ++ name ++ EQUALS3 ++ nl :: (lead ++ c :: text)
            ++ END_FILE ++ post = block ++ post) as Hcontent.
  { rewrite Hblock.
    repeat (rewrite <- app_assoc || rewrite <- app_comm_cons). done. }
  rewrite Hcontent in Hmatch |- *.
  destruct block as [|b block]; [done|].
  cbn [app findall_from]. cbn [app] in Hmatch. rewrite Hmatch.
  f_equal. rewrite <- (findall_skip block post). f_equal.
  cbn [length]. rewrite length_app. lia.
Qed.


(** ** What extraction does to the disk *)

Lemma only_files_written_refl f : only_files_written f f.
Proof. by repeat split. Qed.

Lemma only_files_written_trans f1 f2 f3 :
  only_files_written f1 f2 -> only_files_written f2 f3 -> only_files_written f1 f3.
Proof.
  intros (Hc1 & Hd1 & Hf1) (Hc2 & Hd2 & Hf2). repeat split; try congruence.
  intros p Hp. by apply Hf2, Hf1.
Qed.

Lemma put_file_only_files p body f : only_files_written f (put_file p body f).
Proof.
  repeat split. intros q Hq. cbn.
  destruct (decide (p = q)) as [->|Hne].
  - rewrite lookup_insert_eq. by eexists.
  - by rewrite lookup_insert_ne.
Qed.

Lemma write_text_only_files comps body f :
  only_files_written f (snd (write_text comps body f)).
Proof.
  unfold write_text.
  repeat match goal with
         | |- context [if ?b then _ else _] => destruct b
         | |- context [match ?x with _ => _ end] => destruct x
         end; cbn [snd];
    first [apply only_files_written_refl | apply put_file_only_files].
Qed.

Section ExtractionDisk.
Context {W : Type}.
Implicit Types (s : state W).

Lemma save_file_disk workspace_path block n s :
  exists n' s',
    save_file workspace_path block n s = (Ok n', s')
    /\ only_files_written (fs (outside s)) (fs (outside s'))
    /\ (n <= n' <= S n)%nat.
Proof.
  destruct (save_file_run workspace_path block n s) as (s1 & Hrun & Hfs & _).
  cbv zeta in Hrun, Hfs. eexists _, s1. split; [exact Hrun|]. split.
  - rewrite Hfs. apply write_text_only_files.
  - destruct (fst (write_text _ _ _)); lia.
Qed.

Lemma save_files_disk workspace_path matches : forall n s,
  exists n' s',
    save_files workspace_path matches n s = (Ok n', s')
    /\ only_files_written (fs (outside s)) (fs (outside s'))
    /\ (n <= n' <= n + length matches)%nat.
Proof.
  induction matches as [|block rest IH]; intros n s.
  - exists n, s. split; [done|]. split; [apply only_files_written_refl | cbn; lia].
  - destruct (save_file_disk workspace_path block n s) as (n1 & s1 & Hrun & Hdisk1 & Hcount1).
    destruct (IH n1 s1) as (n' & s' & Hrest & Hdisk & Hcount).
    exists n', s'. split; [|split].
    + cbn [save_files]. unfold bind at 1. by rewrite Hrun.
    + by eapply only_files_written_trans.
    + cbn [length]. lia.
Qed.

Lemma extract_files_disk workspace_path messages : forall n s,
  exists n' s',
    extract_files workspace_path messages n s = (Ok n', s')
    /\ only_files_written (fs (outside s)) (fs (outside s'))
    /\ (n <= n' <= n + length (mjoin ((fun m => findall (msg_content m)) <$> messages)))%nat.
Proof.
  induction messages as [|m rest IH]; intros n s.
  - exists n, s. split; [done|]. split; [apply only_files_written_refl | cbn; lia].
  - destruct (save_files_disk workspace_path (findall (msg_content m)) n s)
      as (n1 & s1 & Hrun & Hdisk1 & Hcount1).
    destruct (IH n1 s1) as (n' & s' & Hrest & Hdisk & Hcount).
    exists n', s'. split; [|split].
    + cbn [extract_files]. cbv zeta. unfold bind at 1. by rewrite Hrun.
    + by eapply only_files_written_trans.
    + assert (length (mjoin ((fun m => findall (msg_content m)) <$> m :: rest))
              = (length (findall (msg_content m))
                 + length (mjoin ((fun m => findall (msg_content m)) <$> rest)))%nat)
        as -> by (by rewrite <- length_app).
      lia.
Qed.
End ExtractionDisk.

(** ** Runs that returned a success record *)

Lemma returns_elim {W A} (c : M W A) (s : state W) Q a s' :
  returns c s Q -> c s = (Ok a, s') -> Q a s'.
Proof. intros (b & s1 & E & HQ) E'. rewrite E in E'. by injection E' as <- <-. Qed.

Lemma on_fs_Ok {W A} (op : filesystem -> py_result A * filesystem)
    (s : state W) a s' :
  on_fs op s = (Ok a, s') ->
  review_iteration_count s' = review_iteration_count s
  /\ trace s' = trace s /\ ext (outside s') = ext (outside s).
Proof.
  unfold on_fs. destruct (op (fs (outside s))) as [r f]. intros [= -> <-]. done.
Qed.

Lemma execute_tests_Ok {W} (run_tests : path -> external W test_report)
    workspace_path (s : state W) report s' :
  execute_tests run_tests workspace_path s = (Ok report, s') ->
  review_iteration_count s' = review_iteration_count s.
Proof.
  unfold execute_tests, try_except_Exception, bind, call, log, emit, ret.
  cbn [outside review_iteration_count trace].
  destruct (run_tests workspace_path (outside s)) as [[r|e] w]; cbn.
  - by intros [= _ <-].
  - destruct (is_Exception e); [by intros [= _ <-] | done].
Qed.

Lemma create_group_chat_Ok {W} (self : Orchestrator W) (s : state W) groupchat s' :
  create_group_chat self s = (Ok groupchat, s') ->
  max_round groupchat = 50%nat
  /\ review_iteration_count s' = review_iteration_count s
  /\ (forall key, key ∈ stage_keys -> is_Some (agents self !! key)).
Proof.
  unfold create_group_chat. intros H.
  repeat (apply bind_Ok in H as (? & ? & Hc & H);
          first [ apply getitem_Ok in Hc as (? & ->)
                | apply emit_Ok in Hc as (? & _ & _)
                | apply log_Ok in Hc as (? & _ & _) ]).
  apply ret_Ok in H as [<- <-]. split; [done|]. split; [congruence|].
  intros key Hin. unfold stage_keys in Hin.
  repeat (apply elem_of_cons in Hin as [-> | Hin]; [by eexists|]).
  by apply elem_of_nil in Hin.
Qed.

(** A success record comes from a chat that returned, started by the agent
    under ["admin_proxy"] in a group chat of 50 rounds; its counter is the
    one the chat left. *)
Lemma workflow_success_inv {W} (get_llm_config : external W unit)
    (run_tests : path -> external W test_report) (self : Orchestrator W)
    (user_request : str) (s : state W) n c k messages report s' :
  initiate_workflow get_llm_config run_tests self user_request s
  = (Ok (Success n c k messages report), s') ->
  exists admin groupchat s1 s2,
    agents self !! "admin_proxy" = Some admin
    /\ max_round groupchat = 50%nat
    /\ (forall key, key ∈ stage_keys -> is_Some (agents self !! key))
    /\ review_iteration_count s1 = review_iteration_count s
    /\ initiate_chat self admin groupchat user_request s1 = (Ok messages, s2)
    /\ c = review_iteration_count s2
    /\ n = length messages.
Proof.
  unfold initiate_workflow.
  destruct (workflow_body _ _ _ _ _) as [[r|e] s0] eqn:Hbody.
  - intros [= -> ->]. unfold workflow_body in Hbody.
    destruct (_ || _).
    { apply bind_Ok in Hbody as (? & ? & _ & Hr). by apply ret_Ok in Hr as [? _]. }
    apply bind_Ok in Hbody as (? & ? & (Hc0 & _ & _)%log_Ok & Hbody).
    apply bind_Ok in Hbody as (? & ? & (Hc1 & _ & _)%log_Ok & Hbody).
    apply bind_Ok in Hbody as (? & ? & (Hc1' & _ & _)%log_Ok & Hbody).
    apply bind_Ok in Hbody as (? & ? & (Hc2 & _ & _)%log_Ok & Hbody).
    apply bind_Ok in Hbody as (? & ? & (Hc3 & _ & _)%call_Ok & Hbody).
    apply bind_Ok in Hbody as (groupchat & ? & (Hcap & Hc4 & Hkeys)%create_group_chat_Ok & Hbody).
    apply bind_Ok in Hbody as (? & ? & Hm & Hbody).
    unfold create_manager in Hm.
    apply bind_Ok in Hm as (? & ? & (Hc5 & _ & _)%emit_Ok & (Hc6 & _ & _)%log_Ok).
    apply bind_Ok in Hbody as (? & ? & (Hc7 & _ & _)%log_Ok & Hbody).
    apply bind_Ok in Hbody as (admin & s1 & (Hadmin & ->)%getitem_Ok & Hbody).
    apply bind_Ok in Hbody as (msgs & s2 & Hchat & Hbody).
    apply bind_Ok in Hbody as (? & ? & (Hc8 & _ & _)%log_Ok & Hbody).
    apply bind_Ok in Hbody as (? & ? & (Hc8' & _ & _)%log_Ok & Hbody).
    apply bind_Ok in Hbody as (? & ? & (Hc8'' & _ & _)%log_Ok & Hbody).
    apply bind_Ok in Hbody as (ws & ? & Hws & Hbody).
    unfold abspath_workspace in Hws. injection Hws as <- <-.
    apply bind_Ok in Hbody as (? & ? & (Hc9 & _ & _)%on_fs_Ok & Hbody).
    apply bind_Ok in Hbody as (? & sx & Hex & Hbody).
    pose proof (returns_elim _ _ _ _ _ (extract_files_returns _ _ _ _) Hex) as [_ Hc10].
    apply bind_Ok in Hbody as (? & sl & (Hc11 & _ & _)%log_Ok & Hbody).
    apply bind_Ok in Hbody as (? & sz & Hzero & Hbody).
    assert (review_iteration_count sz = review_iteration_count sl) as Hc12.
    { destruct (bool_decide _).
      - apply bind_Ok in Hzero as (? & ? & (? & _ & _)%log_Ok & Hzero).
        apply bind_Ok in Hzero as (? & ? & (? & _ & _)%log_Ok & Hzero).
        apply bind_Ok in Hzero as (? & ? & (? & _ & _)%log_Ok & Hzero).
        pose proof (returns_elim _ _ _ _ _ (log_code_blocks_returns _ _) Hzero) as [_ ?].
        congruence.
      - by apply ret_Ok in Hzero as [_ <-]. }
    apply bind_Ok in Hbody as (? & ? & Hc13%execute_tests_Ok & Hbody).
    apply bind_Ok in Hbody as (? & ? & (-> & ->)%get_count_Ok & Hbody).
    apply ret_Ok in Hbody as [[= <- <- <- <- <-] <-].
    exists admin, groupchat, s1, s2. repeat split; try done; congruence.
  - destruct (workflow_handler e) as [h|] eqn:Hh; [|done].
    unfold workflow_handler in Hh.
    destruct (kind e); simplify_eq; unfold bind, log, emit, get_count, ret; discriminate.
Qed.

(** ** Notifications that raise *)

(** Whatever the callback raises at the notification of a transition
    leaves the selector. *)
Lemma selector_notifies {W} (self : Orchestrator W) callback
    (last_speaker : Agent W) (messages : list message) (s : state W) :
  progress_callback self = Some callback ->
  outcome (custom_speaker_selector self last_speaker messages) s
    (fun out s' =>
       forall events stage action iteration e,
         trace s' = trace s ++ events ->
         Notified stage action iteration ∈ events ->
         fst (callback stage action iteration (outside s)) = Raise e ->
         out = Raise e).
Proof.
  intros Hsome. unfold custom_speaker_selector.
  repeat (cbv beta iota;
          first [ eapply outcome_notify_call;
                  [eassumption | intros ? ? Hcall | intros ? ? Hcall]
                | outcome_step ]).
  all: cbv beta iota; cbn [trace outside review_iteration_count] in *.
  all: intros events stage' action' iteration' raised Hev Hin Hraise.
  all: rewrite <- ?app_assoc in Hev; apply app_inv_head in Hev; subst events.
  all: apply list_elem_of_In in Hin; cbn in Hin.
  all: repeat (destruct Hin as [Hin|Hin]; [try discriminate Hin|]); try done.
  all: injection Hin as <- <- <-; rewrite Hcall in Hraise; cbn in Hraise.
  all: first [discriminate Hraise | by injection Hraise as <-].
Qed.

Section StepFacts.
Context {W : Type}.
Implicit Types (s : state W).

Lemma bind_returns {A B} (c : M W A) (k : A -> M W B) s a s1 :
  c s = (Ok a, s1) -> bind c k s = k a s1.
Proof. intros E. unfold bind. by rewrite E. Qed.

Lemma bind_raises {A B} (c : M W A) (k : A -> M W B) s e s1 :
  c s = (Raise e, s1) -> bind c k s = (Raise e, s1).
Proof. intros E. unfold bind. by rewrite E. Qed.

Lemma call_returns {A} ev (c : external W A) s a w' :
  c (outside s) = (Ok a, w') ->
  call ev c s = (Ok a, {| review_iteration_count := review_iteration_count s;
                          trace := trace s ++ [ev];
                          outside := w' |}).
Proof. intros E. unfold call. by rewrite E. Qed.

Lemma create_group_chat_run (self : Orchestrator W) s :
  (forall key, key ∈ stage_keys -> is_Some (agents self !! key)) ->
  exists groupchat,
    create_group_chat self s
    = (Ok groupchat,
       {| review_iteration_count := review_iteration_count s;
          trace := trace s ++ [GroupChatCreated; Logged INFO "GroupChat created"];
          outside := outside s |})
    /\ max_round groupchat = 50%nat.
Proof.
  intros Hkeys. unfold create_group_chat.
  repeat match goal with
         | |- context [getitem (agents self) ?k] =>
             let a := fresh "a" in
             let Ha := fresh "Ha" in
             destruct (Hkeys k) as [a Ha]; [apply list_elem_of_In; cbn; tauto|];
             unfold getitem at 1; rewrite Ha
         end.
  eexists. split.
  - unfold bind, ret, log, emit. cbn [trace outside review_iteration_count].
    rewrite <- app_assoc. reflexivity.
  - reflexivity.
Qed.

(** The start transition with a callback that raises [e]. *)
Lemma selector_start_raises (self : Orchestrator W) callback admin pm messages s e :
  name admin = "Admin_Proxy" ->
  ux_designer_has_spoken messages = false ->
  agents self !! "product_manager" = Some pm ->
  progress_callback self = Some callback ->
  fst (callback "product_manager" "analyzing" None (outside s)) = Raise e ->
  exists s',
    custom_speaker_selector self admin messages s = (Raise e, s')
    /\ review_iteration_count s' = review_iteration_count s.
Proof.
  intros Hname Hux Hpm Hcb Hraise.
  unfold custom_speaker_selector. cbv zeta. rewrite Hname, Hux.
  cbn [String.eqb Ascii.eqb Bool.eqb andb negb].
  unfold bind, log, emit, getitem, notify, call, ret. rewrite Hpm, Hcb.
  unfold bind. cbn [outside review_iteration_count trace].
  destruct (callback "product_manager" "analyzing" None (outside s)) as [r w'].
  cbn in Hraise. subst r. by eexists.
Qed.

(** A run whose callback raises at the first notification: the exception
    leaves the chat and the main block, with the counter as it was. *)
Lemma body_ends_at_first_notification (get_llm_config : external W unit)
    (run_tests : path -> external W test_report)
    (self : Orchestrator W) callback admin (user_request : str) s e w1 :
  strip user_request <> [] ->
  is_termination_msg user_request = false ->
  get_llm_config (outside s) = (Ok tt, w1) ->
  (forall key, key ∈ stage_keys -> is_Some (agents self !! key)) ->
  agents self !! "admin_proxy" = Some admin ->
  name admin = "Admin_Proxy" ->
  progress_callback self = Some callback ->
  fst (callback "product_manager" "analyzing" None w1) = Raise e ->
  exists s',
    workflow_body get_llm_config run_tests self user_request s = (Raise e, s')
    /\ review_iteration_count s' = review_iteration_count s.
Proof.
  intros Hreq Hterm Hcfg Hkeys Hadmin Hname Hcb Hraise.
  unfold workflow_body. rewrite (blank_request _ Hreq).
  do 4 (erewrite bind_returns; [|reflexivity]).
  erewrite bind_returns; [|apply call_returns; cbn [outside]; exact Hcfg].
  match goal with
  | |- context [bind (create_group_chat self) _ ?s1] =>
      destruct (create_group_chat_run self s1 Hkeys) as (groupchat & Hgc & Hcap)
  end.
  erewrite bind_returns; [|exact Hgc].
  erewrite bind_returns; [|reflexivity].
  erewrite bind_returns; [|reflexivity].
  erewrite bind_returns; [|unfold getitem; rewrite Hadmin; reflexivity].
  unfold initiate_chat. rewrite Hcap. change 50%nat with (S 49).
  destruct (Hkeys "product_manager") as [pm Hpm]; [apply list_elem_of_In; cbn; tauto|].
  match goal with
  | |- context [bind (run_chat self _ admin user_request []) _ ?s1] =>
      destruct (selector_start_raises self callback admin pm
                  ([] ++ [{| msg_name := Some (name admin);
                             msg_content := user_request |}])
                  s1 e Hname) as (s' & Hsel & Hcount);
        [cbn; rewrite Hname; reflexivity | exact Hpm | exact Hcb
        | cbn [outside]; exact Hraise |]
  end.
  exists s'. split; [|exact Hcount].
  apply bind_raises. rewrite run_chat_S. cbv zeta. rewrite Hterm.
  rewrite bool_decide_eq_false_2 by done. cbn [orb].
  by apply bind_raises.
Qed.
End StepFacts.

(** ** Writing on a path whose directories exist *)


(** ** The test stage of a run that returned *)

Lemma makedirs_cwd todo : forall f done f',
  makedirs f done todo = Ok f' -> cwd f' = cwd f.
Proof.
  induction todo as [|c rest IH]; intros f done f'; cbn [makedirs].
  - by intros [= <-].
  - destruct (is_file f (done ++ [c])); [done|].
    destruct (is_dir f (done ++ [c])); intros H%IH; [done|].
    by rewrite H.
Qed.

Section TestStage.
Context {W : Type}.
Implicit Types (s : state W).

Lemma on_fs_inv {A} (op : filesystem -> py_result A * filesystem) s a s' :
  on_fs op s = (Ok a, s') ->
  op (fs (outside s)) = (Ok a, fs (outside s')).
Proof.
  unfold on_fs. destruct (op (fs (outside s))) as [r f]. by intros [= -> <-].
Qed.

(** The report of the test stage is what the runner returned, or the
    report of the [Exception] it raised. *)
Lemma execute_tests_inv (run_tests : path -> external W test_report)
    workspace_path s report s' :
  execute_tests run_tests workspace_path s = (Ok report, s') ->
  run_tests workspace_path (outside s) = (Ok report, outside s')
  \/ exists e,
       run_tests workspace_path (outside s) = (Raise e, outside s')
       /\ is_Exception e = true /\ report = failed_report e.
Proof.
  unfold execute_tests, try_except_Exception, bind, call, log, emit, ret.
  cbn [outside review_iteration_count trace].
  destruct (run_tests workspace_path (outside s)) as [[r|e] w]; cbn.
  - intros [= <- <-]. by left.
  - destruct (is_Exception e) eqn:He; [|done].
    intros [= <- <-]. right. by exists e.
Qed.

(** The test stage of a run that returned a success record was run on
    the workspace directory, in the last state but one. *)
Lemma workflow_success_tests (get_llm_config : external W unit)
    (run_tests : path -> external W test_report) (self : Orchestrator W)
    (user_request : str) s n c k messages report s' :
  initiate_workflow get_llm_config run_tests self user_request s
  = (Ok (Success n c k messages report), s') ->
  exists s4,
    execute_tests run_tests (cwd (fs (outside s4)) ++ [py "workspace"]) s4
    = (Ok report, s').
Proof.
  unfold initiate_workflow.
  destruct (workflow_body _ _ _ _ _) as [[r|e] s0] eqn:Hbody.
  - intros [= -> ->]. unfold workflow_body in Hbody.
    destruct (_ || _).
    { apply bind_Ok in Hbody as (? & ? & _ & Hr). by apply ret_Ok in Hr as [? _]. }
    repeat match type of Hbody with
           | bind ?c _ _ = _ =>
               lazymatch c with
               | abspath_workspace => fail
               | _ => apply bind_Ok in Hbody as (? & ? & _ & Hbody)
               end
           end.
    apply bind_Ok in Hbody as (ws & sa & Hws & Hbody).
    assert (ws = cwd (fs (outside sa)) ++ [py "workspace"]) as ->.
    { unfold abspath_workspace in Hws. by injection Hws as <- <-. }
    apply bind_Ok in Hbody as (? & sb & Hmk%on_fs_inv & Hbody).
    assert (cwd (fs (outside sb)) = cwd (fs (outside sa))) as Hcb.
    { destruct (makedirs _ _ _) as [f'|] eqn:Em; [|done].
      simplify_eq. by apply makedirs_cwd in Em. }
    apply bind_Ok in Hbody as (? & sx & Hex & Hbody).
    assert (cwd (fs (outside sx)) = cwd (fs (outside sb))) as Hcx.
    { match type of Hex with
      | extract_files ?ws ?ms ?n0 _ = _ =>
          destruct (extract_files_disk ws ms n0 sb) as (n' & sx' & Hex' & (Hcx & _) & _)
      end.
      rewrite Hex in Hex'. by injection Hex' as _ <-. }
    apply bind_Ok in Hbody as (? & sl & (_ & Hol & _)%log_Ok & Hbody).
    apply bind_Ok in Hbody as (? & sz & Hzero & Hbody).
    assert (outside sz = outside sl) as Hoz.
    { destruct (bool_decide _).
      - apply bind_Ok in Hzero as (? & ? & (_ & ? & _)%log_Ok & Hzero).
        apply bind_Ok in Hzero as (? & ? & (_ & ? & _)%log_Ok & Hzero).
        apply bind_Ok in Hzero as (? & ? & (_ & ? & _)%log_Ok & Hzero).
        pose proof (returns_elim _ _ _ _ _ (log_code_blocks_returns _ _) Hzero) as [? _].
        congruence.
      - by apply ret_Ok in Hzero as [_ <-]. }
    apply bind_Ok in Hbody as (rep & st & Htests & Hbody).
    apply bind_Ok in Hbody as (? & ? & (-> & ->)%get_count_Ok & Hbody).
    apply ret_Ok in Hbody as [[= <- <- <- <- <-] <-].
    exists sz. rewrite Hoz, Hol, Hcx, Hcb. exact Htests.
  - destruct (workflow_handler e) as [h|] eqn:Hh; [|done].
    unfold workflow_handler, log_error_with_context in Hh.
    destruct (kind e); simplify_eq; unfold bind, log, emit, get_count, ret; discriminate.
Qed.
End TestStage.

(** * The properties *)

(** C1. The review loop with ceiling [N] ([max_review_iterations]): when
    every reviewer output contains the rework token, the selector, called
    for [N] reviews in a row from a counter at zero, routes back to the
    agent under ["python_engineer"] exactly [N - 1] times and advances to
    the agent under ["tech_writer"] on the [N]th, leaving the counter at
    [N].  And [run_workflow], whose ceiling is 5, run with a standard team
    whose reviewer always asks for rework and whose collaborators do not
    fail, returns a success record with [review_iterations] equal to 5. *)
Theorem review_loop_bounded :
  (forall W (self : Orchestrator W) (reviewer pe tw : Agent W)
          (transcripts : list (list message)) (s : state W),
     1 <= max_review_iterations self ->
     Z.of_nat (length transcripts) = max_review_iterations self ->
     review_iteration_count s = 0 ->
     name reviewer = "Code_Reviewer" ->
     Forall (fun t => contains FIX_REQUIRED (last_content t) = true) transcripts ->
     agents self !! "python_engineer" = Some pe ->
     agents self !! "tech_writer" = Some tw ->
     quiet_callback self ->
     exists s',
       review_rounds self reviewer transcripts s
       = (Ok (replicate (length transcripts - 1) (Some pe) ++ [Some tw]), s')
       /\ review_iteration_count s' = max_review_iterations self)
  /\ (forall W (Inv : world W -> Prop) get_llm_config run_tests
             (agents : gmap string (Agent W)) callback user_request (w : world W),
        standard_team agents ->
        agents_speak Inv agents
          (reviewer_says (fun c => contains FIX_REQUIRED c = true)) ->
        callback_keeps Inv (WorkflowOrchestrator agents 5 callback) ->
        keeps Inv get_llm_config ->
        (forall w', Inv w' -> workspace_ready (fs w')) ->
        runner_contained run_tests ->
        strip user_request <> [] ->
        is_termination_msg user_request = false ->
        Inv w ->
        exists r s',
          run_workflow get_llm_config run_tests user_request agents callback w
          = (Ok r, s')
          /\ result_status r = "success"
          /\ result_review_iterations r = 5).
Proof.
  split.
  - intros W self reviewer pe tw transcripts s HN Hlen Hs Hname Hall Hpe Htw Hq.
    apply review_rounds_rework; try done; lia.
  - intros W Inv get_llm_config run_tests agents callback user_request w
      Hteam Hspeak Hcb Hcfg Hws Hrun Hreq Hterm Hw.
    unfold run_workflow. cbv zeta.
    set (self := WorkflowOrchestrator agents 5 callback) in *.
    destruct (initiate_workflow_returns get_llm_config run_tests self user_request
                (new_orchestrator w)
                (fun r s' =>
                   exists files_extracted messages report,
                     r = Success (length messages) (review_iteration_count s')
                           files_extracted messages report
                     /\ review_iteration_count s' = 5
                     /\ report_of run_tests report))
      as (r & s' & E & n & messages & report & -> & Hfive & _).
    { apply (workflow_body_returns Inv) with (C := fun c => c = 5); try done.
      - by apply (team_keys self).
      - intros admin groupchat s1 Hadmin Hcap HI1 _.
        unfold initiate_chat. rewrite Hcap.
        apply (rework_chat Inv self (fun c => contains FIX_REQUIRED c = true));
          try done.
        apply (team_name self Hteam "admin_proxy"); [set_solver | exact Hadmin]. }
    exists (Success (length messages) (review_iteration_count s') n messages report), s'.
    split; [exact E|]. split; [reflexivity|]. exact Hfive.
Qed.

Lemma review_loop_bounded_witness :
  let rework := py "FIX_REQUIRED: handle division by zero" in
  let self := WorkflowOrchestrator (team main_py rework) 3 (Some callback_silent) in
  let reviewer := scripted "Code_Reviewer" rework in
  let review := [{| msg_name := Some "Code_Reviewer"; msg_content := rework |}] in
  (exists s',
     review_rounds self reviewer [review; review; review] (new_orchestrator start)
     = (Ok [Some (scripted "Python_Engineer" main_py);
            Some (scripted "Python_Engineer" main_py);
            Some (scripted "Tech_Writer" (py "documentation"))], s')
     /\ review_iteration_count s' = 3)
  /\ (exists r s',
        run_workflow config_found runner_idle (py "build a calculator")
          (team main_py rework) (Some callback_silent) start = (Ok r, s')
        /\ result_status r = "success"
        /\ result_review_iterations r = 5).
Proof.
  cbv zeta. split.
  - apply (proj1 review_loop_bounded unit
             (WorkflowOrchestrator (team main_py (py "FIX_REQUIRED: handle division by zero"))
                3 (Some callback_silent))
             (scripted "Code_Reviewer" (py "FIX_REQUIRED: handle division by zero"))
             (scripted "Python_Engineer" main_py)
             (scripted "Tech_Writer" (py "documentation"))
             (replicate 3 [{| msg_name := Some "Code_Reviewer";
                              msg_content := py "FIX_REQUIRED: handle division by zero" |}])
             (new_orchestrator start)).
    + cbn. lia.
    + reflexivity.
    + reflexivity.
    + reflexivity.
    + repeat constructor.
    + reflexivity.
    + reflexivity.
    + apply callback_silent_quiet.
  - apply (proj2 review_loop_bounded unit untouched).
    + apply team_is_standard.
    + apply team_speaks; reflexivity.
    + apply callback_silent_keeps.
    + intros w ->. by exists tt, start.
    + apply start_ready.
    + intros workspace_path w. exact I.
    + vm_compute. discriminate.
    + reflexivity.
    + reflexivity.
Defined.

(** C2. Start and terminal handling of [custom_speaker_selector]: with the
    start stage [Admin_Proxy] as last speaker, the selector returns the
    agent held under ["product_manager"] when no entry of the transcript
    bears the name [UX_Designer], and [None] (the end of the conversation)
    when some entry does; with [UX_Designer] as last speaker it returns
    [None].  The two transitions that notify the progress callback are taken
    for a callback that returns. *)
Theorem selector_start_and_terminal {W} (self : Orchestrator W)
    (last_speaker : Agent W) (messages : list message) (s : state W) :
  (name last_speaker = "Admin_Proxy" ->
   (forall m, m ∈ messages -> msg_name m <> Some "UX_Designer") ->
   quiet_callback self ->
   forall product_manager,
     agents self !! "product_manager" = Some product_manager ->
     fst (custom_speaker_selector self last_speaker messages s)
     = Ok (Some product_manager))
  /\ (name last_speaker = "Admin_Proxy" ->
      (exists m, m ∈ messages /\ msg_name m = Some "UX_Designer") ->
      fst (custom_speaker_selector self last_speaker messages s) = Ok None)
  /\ (name last_speaker = "UX_Designer" ->
      quiet_callback self ->
      fst (custom_speaker_selector self last_speaker messages s) = Ok None).
Proof.
  split; [|split].
  - intros Hname Hux%has_spoken_false Hq pm Hpm.
    destruct (selector_next self last_speaker messages s "product_manager"
                (review_iteration_count s) pm Hq) as (s' & -> & _); [|done|done].
    unfold selectNext. by rewrite Hname, Hux.
  - intros Hname Hux%has_spoken_true.
    by rewrite selector_admin_end.
  - intros Hname Hq.
    destruct (selector_terminal self last_speaker messages s
                (review_iteration_count s) Hq) as (s' & -> & _); [|done].
    unfold selectNext. by rewrite Hname.
Qed.

Lemma selector_start_and_terminal_witness :
  let self := WorkflowOrchestrator (team main_py (py "APPROVED")) 5 (Some callback_silent) in
  let request := {| msg_name := Some "Admin_Proxy"; msg_content := py "build it" |} in
  let closing := {| msg_name := Some "UX_Designer"; msg_content := py "interface" |} in
  fst (custom_speaker_selector self (scripted "Admin_Proxy" (py "ok")) [request]
         (new_orchestrator start))
  = Ok (Some (scripted "Product_Manager" (py "requirements")))
  /\ fst (custom_speaker_selector self (scripted "Admin_Proxy" (py "ok"))
            [request; closing] (new_orchestrator start)) = Ok None
  /\ fst (custom_speaker_selector self (scripted "UX_Designer" (py "interface"))
            [request; closing] (new_orchestrator start)) = Ok None.
Proof.
  cbv zeta. split; [|split].
  - apply (proj1 (selector_start_and_terminal _ _ _ _)).
    + reflexivity.
    + intros m ->%list_elem_of_singleton. discriminate.
    + apply callback_silent_quiet.
    + reflexivity.
  - apply (proj1 (proj2 (selector_start_and_terminal _ _ _ _))).
    + reflexivity.
    + exists {| msg_name := Some "UX_Designer"; msg_content := py "interface" |}.
      split; [set_solver | reflexivity].
  - apply (proj2 (proj2 (selector_start_and_terminal _ _ _ _))).
    + reflexivity.
    + apply callback_silent_quiet.
Defined.

(** C3. A reviewer output with neither [FIX_REQUIRED] nor [APPROVED] is
    treated as an approval: the selector returns the agent under
    ["tech_writer"], leaves the counter as it was, calls no collaborator
    (it only logs, the second line being the warning), and a run of a
    standard team whose reviewer answers so and whose collaborators do not
    fail returns a success record, with [review_iterations] 0. *)
Theorem ambiguous_review_is_approved :
  (forall W (self : Orchestrator W) (last_speaker tw : Agent W)
          (messages : list message) (s : state W),
     name last_speaker = "Code_Reviewer" ->
     contains FIX_REQUIRED (last_content messages) = false ->
     contains APPROVED (last_content messages) = false ->
     agents self !! "tech_writer" = Some tw ->
     custom_speaker_selector self last_speaker messages s
     = (Ok (Some tw),
        {| review_iteration_count := review_iteration_count s;
           trace := trace s ++
             [Logged DEBUG "Speaker selection: Last speaker";
              Logged WARNING "Code_Reviewer response missing required keywords (FIX_REQUIRED/APPROVED). Defaulting to approval."];
           outside := outside s |}))
  /\ (forall W (Inv : world W -> Prop) get_llm_config run_tests
             (self : Orchestrator W) user_request (s : state W),
        standard_team (agents self) ->
        agents_speak Inv (agents self)
          (reviewer_says (fun c => contains FIX_REQUIRED c = false
                                   /\ contains APPROVED c = false)) ->
        callback_keeps Inv self ->
        keeps Inv get_llm_config ->
        (forall w, Inv w -> workspace_ready (fs w)) ->
        runner_contained run_tests ->
        strip user_request <> [] ->
        is_termination_msg user_request = false ->
        Inv (outside s) ->
        exists r s',
          initiate_workflow get_llm_config run_tests self user_request s = (Ok r, s')
          /\ result_status r = "success"
          /\ result_review_iterations r = 0).
Proof.
  split.
  - intros W self last_speaker tw messages s. apply selector_ambiguous.
  - intros W Inv get_llm_config run_tests self user_request s
      Hteam Hspeak Hcb Hcfg Hws Hrun Hreq Hterm HI.
    destruct (initiate_workflow_returns get_llm_config run_tests self user_request s
                (fun r s' =>
                   exists files_extracted messages report,
                     r = Success (length messages) (review_iteration_count s')
                           files_extracted messages report
                     /\ review_iteration_count s' = 0
                     /\ report_of run_tests report))
      as (r & s' & E & n & messages & report & -> & Hzero & _).
    { apply (workflow_body_returns Inv) with (C := fun c => c = 0); try done.
      - by apply (team_keys self).
      - intros admin groupchat s1 Hadmin Hcap HI1 _.
        unfold initiate_chat. rewrite Hcap.
        apply (ambiguous_chat Inv self
                 (fun c => contains FIX_REQUIRED c = false
                           /\ contains APPROVED c = false)); try done.
        + by intros c [Hfix _].
        + apply (team_name self Hteam "admin_proxy"); [set_solver | exact Hadmin]. }
    exists (Success (length messages) (review_iteration_count s') n messages report), s'.
    split; [exact E|]. split; [reflexivity|]. exact Hzero.
Qed.

Lemma ambiguous_review_is_approved_witness :
  let verdict := py "Looks good to me." in
  let self := WorkflowOrchestrator (team main_py verdict) 5 (Some callback_silent) in
  fst (custom_speaker_selector self (scripted "Code_Reviewer" verdict)
         [{| msg_name := Some "Code_Reviewer"; msg_content := verdict |}]
         (new_orchestrator start))
  = Ok (Some (scripted "Tech_Writer" (py "documentation")))
  /\ (exists r s',
        initiate_workflow config_found runner_idle self (py "build a calculator")
          (new_orchestrator start) = (Ok r, s')
        /\ result_status r = "success"
        /\ result_review_iterations r = 0).
Proof.
  cbv zeta. split.
  - rewrite (proj1 ambiguous_review_is_approved unit
               (WorkflowOrchestrator (team main_py (py "Looks good to me.")) 5
                  (Some callback_silent))
               (scripted "Code_Reviewer" (py "Looks good to me."))
               (scripted "Tech_Writer" (py "documentation"))
               [{| msg_name := Some "Code_Reviewer";
                   msg_content := py "Looks good to me." |}]
               (new_orchestrator start) eq_refl eq_refl eq_refl eq_refl).
    reflexivity.
  - apply (proj2 ambiguous_review_is_approved unit untouched).
    + apply team_is_standard.
    + apply team_speaks; [reflexivity | reflexivity | split; reflexivity].
    + apply callback_silent_keeps.
    + intros w ->. by exists tt, start.
    + apply start_ready.
    + intros workspace_path w. exact I.
    + vm_compute. discriminate.
    + reflexivity.
    + reflexivity.
Defined.







(** C6. A failure of the test run does not abort the workflow.  When the
    test capability raises an exception (an instance of [Exception]), the
    test stage catches it and yields the report with status ["error"], all
    four counts at zero, no per-file entry, and the message
    ["Failed to execute tests: "] followed by the text of the exception;
    and a run whose other collaborators do not fail returns a success
    record that carries this report for the exception the capability
    raised when the run called it on the workspace directory. *)
Theorem test_failure_is_contained :
  (forall W run_tests workspace_path (s : state W) e w',
     run_tests workspace_path (outside s) = (Raise e, w') ->
     is_Exception e = true ->
     exists s',
       execute_tests run_tests workspace_path s = (Ok (failed_report e), s')
       /\ review_iteration_count s' = review_iteration_count s)
  /\ (forall e,
        report_status (failed_report e) = "error"
        /\ total_tests (failed_report e) = 0
        /\ total_passed (failed_report e) = 0
        /\ total_failed (failed_report e) = 0
        /\ total_errors (failed_report e) = 0
        /\ file_results (failed_report e) = []
        /\ report_message (failed_report e)
           = Some (py "Failed to execute tests: " ++ exn_text e))
  /\ (forall W (Inv : world W -> Prop) get_llm_config run_tests
             (self : Orchestrator W) user_request (s : state W),
        (forall key, key ∈ stage_keys -> is_Some (agents self !! key)) ->
        agents_answer Inv (agents self) ->
        callback_keeps Inv self ->
        keeps Inv get_llm_config ->
        (forall w, Inv w -> workspace_ready (fs w)) ->
        (forall workspace_path w,
           exists e w', run_tests workspace_path w = (Raise e, w')
                        /\ is_Exception e = true) ->
        strip user_request <> [] ->
        Inv (outside s) ->
        exists r s' e w,
          initiate_workflow get_llm_config run_tests self user_request s = (Ok r, s')
          /\ result_status r = "success"
          /\ run_tests (cwd (fs w) ++ [py "workspace"]) w = (Raise e, outside s')
          /\ result_tests r = Some (failed_report e)).
Proof.
  split; [|split].
  - intros W run_tests workspace_path s e w' E He.
    unfold execute_tests, try_except_Exception, bind, call, log, emit, ret.
    cbn [outside review_iteration_count trace]. rewrite E, He.
    eexists. split; reflexivity.
  - intros e. repeat split.
  - intros W Inv get_llm_config run_tests self user_request s
      Hkeys Hans Hcb Hcfg Hws Hfail Hreq HI.
    assert (runner_contained run_tests) as Hrun.
    { intros workspace_path w.
      destruct (Hfail workspace_path w) as (e & w' & -> & He). exact He. }
    destruct (initiate_workflow_returns get_llm_config run_tests self user_request s
                (fun r s' =>
                   exists files_extracted messages report,
                     r = Success (length messages) (review_iteration_count s')
                           files_extracted messages report
                     /\ True /\ report_of run_tests report))
      as (r & s' & E & n & messages & report & -> & _ & _).
    { apply (workflow_body_returns Inv) with (C := fun _ => True); try done.
      intros admin groupchat s1 _ _ HI1 _. unfold initiate_chat.
      eapply returns_weaken; [by apply (run_chat_returns Inv)|].
      cbv beta. intros _ s2 HI2. done. }
    destruct (workflow_success_tests _ _ _ _ _ _ _ _ _ _ _ E) as [s4 Htests].
    apply execute_tests_inv in Htests as [Hok | (e & Hraise & _ & ->)].
    + destruct (Hfail (cwd (fs (outside s4)) ++ [py "workspace"]) (outside s4))
        as (e & w'' & Hraise & _).
      congruence.
    + eexists _, s', e, (outside s4). split; [exact E|]. split; [reflexivity|].
      split; [exact Hraise | reflexivity].
Qed.

Lemma test_failure_is_contained_witness :
  (exists s',
     execute_tests runner_broken [py "app"; py "workspace"] (new_orchestrator start)
     = (Ok (failed_report pytest_missing), s')
     /\ review_iteration_count s' = 0)
  /\ (exists r s',
        initiate_workflow config_found runner_broken
          (WorkflowOrchestrator (team main_py (py "APPROVED")) 5 (Some callback_silent))
          (py "build a calculator") (new_orchestrator start) = (Ok r, s')
        /\ result_status r = "success"
        /\ result_tests r = Some (failed_report pytest_missing)).
Proof.
  split.
  - apply (proj1 test_failure_is_contained unit runner_broken
             [py "app"; py "workspace"] (new_orchestrator start) pytest_missing start).
    + reflexivity.
    + reflexivity.
  - destruct (proj2 (proj2 test_failure_is_contained) unit untouched
                config_found runner_broken
                (WorkflowOrchestrator (team main_py (py "APPROVED")) 5
                   (Some callback_silent))
                (py "build a calculator") (new_orchestrator start))
      as (r & s' & e & w & E & Hstatus & Hraise & Htests).
    + apply (team_keys (WorkflowOrchestrator (team main_py (py "APPROVED")) 5
                          (Some callback_silent))
               (team_is_standard main_py (py "APPROVED"))).
    + apply team_answers.
    + apply callback_silent_keeps.
    + intros w ->. by exists tt, start.
    + apply start_ready.
    + intros workspace_path w. exists pytest_missing, w. split; reflexivity.
    + vm_compute. discriminate.
    + reflexivity.
    + exists r, s'. split; [exact E|]. split; [exact Hstatus|].
      unfold runner_broken in Hraise. injection Hraise as <- _. exact Htests.
Defined.

(** C7. A request that is empty or made of white space only is rejected
    at once: [initiate_workflow] returns the error record with
    [review_iterations] 0, and the only thing it does is to log the
    rejection: no collaborator is called (no event other than the log line
    is recorded), the counter and the world outside are as they were. *)
Theorem blank_request_rejected {W} (get_llm_config : external W unit)
    (run_tests : path -> external W test_report) (self : Orchestrator W)
    (user_request : str) (s : state W) :
  forallb is_space user_request = true ->
  initiate_workflow get_llm_config run_tests self user_request s
  = (Ok (Error (py "User request cannot be empty") 0),
     {| review_iteration_count := review_iteration_count s;
        trace := trace s ++ [Logged ERROR "Empty user request received"];
        outside := outside s |}).
Proof.
  intros Hblank. unfold initiate_workflow, workflow_body.
  assert (bool_decide (strip user_request = []) = true) as ->
    by (by apply bool_decide_eq_true_2, strip_blank).
  rewrite orb_true_r. reflexivity.
Qed.

Lemma blank_request_rejected_witness :
  initiate_workflow config_found runner_idle
    (WorkflowOrchestrator (team main_py (py "APPROVED")) 5 (Some callback_silent))
    [32%N; 9%N; nl; 160%N] (new_orchestrator start)
  = (Ok (Error (py "User request cannot be empty") 0),
     {| review_iteration_count := 0;
        trace := trace (new_orchestrator start)
                   ++ [Logged ERROR "Empty user request received"];
        outside := start |}).
Proof.
  apply (blank_request_rejected config_found runner_idle
           (WorkflowOrchestrator (team main_py (py "APPROVED")) 5 (Some callback_silent))
           [32%N; 9%N; nl; 160%N] (new_orchestrator start)).
  reflexivity.
Defined.

(** C8, as the code has it.  The selector does not guard the progress
    callback: an exception raised inside it at a transition leaves the
    selector, which then returns no stage.  With the team below, the start
    transition raises the callback's error, and [run_workflow] reports it as
    an error result. *)
Lemma callback_error_escapes :
  let agents := team main_py (py "APPROVED") in
  let self := WorkflowOrchestrator agents 5 (Some callback_broken) in
  fst (custom_speaker_selector self (scripted "Admin_Proxy" (py "ok"))
         [{| msg_name := Some "Admin_Proxy"; msg_content := py "build it" |}]
         (new_orchestrator start))
  = Raise display_error
  /\ fst (run_workflow config_found runner_idle (py "build it") agents
            (Some callback_broken) start)
     = Ok (Error (py "RuntimeError: display closed") 0).
Proof. cbv zeta. split; vm_compute; reflexivity. Qed.

(** C8, amended.  An exception raised inside the progress callback is not
    swallowed: at every transition that notifies the callback, what the
    callback raises there leaves the selector.  When the selector returns,
    what the callback returned and what it did to the world have no part
    in the answer: the orchestrator without any callback returns the same
    agent (or [None]) and leaves the same counter, from any state with the
    same counter.  A run whose callback raises at its first notification
    ends there: [initiate_workflow] returns an error record with the
    counter as it was when the exception is an [Exception] or a
    [KeyboardInterrupt], and the exception leaves [initiate_workflow]
    otherwise. *)
Theorem callback_raises_or_is_ignored {W} (self : Orchestrator W)
    (last_speaker : Agent W) (messages : list message) (s : state W) :
  (forall callback,
     progress_callback self = Some callback ->
     forall events stage action iteration e,
       trace (snd (custom_speaker_selector self last_speaker messages s))
         = trace s ++ events ->
       Notified stage action iteration ∈ events ->
       fst (callback stage action iteration (outside s)) = Raise e ->
       fst (custom_speaker_selector self last_speaker messages s) = Raise e)
  /\ (forall r,
        fst (custom_speaker_selector self last_speaker messages s) = Ok r ->
        forall s0,
          review_iteration_count s0 = review_iteration_count s ->
          let bare := WorkflowOrchestrator (agents self) (max_review_iterations self) None in
          fst (custom_speaker_selector bare last_speaker messages s0) = Ok r
          /\ review_iteration_count
               (snd (custom_speaker_selector bare last_speaker messages s0))
             = review_iteration_count
                 (snd (custom_speaker_selector self last_speaker messages s)))
  /\ (forall get_llm_config run_tests callback admin user_request e w1,
        strip user_request <> [] ->
        is_termination_msg user_request = false ->
        get_llm_config (outside s) = (Ok tt, w1) ->
        (forall key, key ∈ stage_keys -> is_Some (agents self !! key)) ->
        agents self !! "admin_proxy" = Some admin ->
        name admin = "Admin_Proxy" ->
        progress_callback self = Some callback ->
        fst (callback "product_manager" "analyzing" None w1) = Raise e ->
        match kind e with
        | OtherBaseException =>
            fst (initiate_workflow get_llm_config run_tests self user_request s)
            = Raise e
        | _ =>
            exists text,
              fst (initiate_workflow get_llm_config run_tests self user_request s)
              = Ok (Error text (review_iteration_count s))
        end).
Proof.
  split; [|split].
  - intros callback Hsome events stage action iteration e.
    apply (outcome_elim _ _ _
             (selector_notifies self callback last_speaker messages s Hsome)).
  - intros r Hr s0 Hs0. cbv zeta.
    destruct (custom_speaker_selector self last_speaker messages s)
      as [o s'] eqn:E.
    cbn in Hr. subst o. cbn [snd].
    apply selector_refines in E as [Hn Hnext].
    set (bare := WorkflowOrchestrator (agents self) (max_review_iterations self) None).
    assert (quiet_callback bare) as Hq by (intros callback [=]).
    destruct (selectNext (max_review_iterations self) (name last_speaker) messages
                (review_iteration_count s)) as [[key|] n] eqn:Et; cbn in Hn, Hnext.
    + destruct Hnext as (a & Ha & ->).
      destruct (selector_next bare last_speaker messages s0 key n a Hq)
        as (s0' & -> & Hn0); [by rewrite Hs0 | done |].
      cbn. split; [done | congruence].
    + subst r.
      destruct (selector_terminal bare last_speaker messages s0 n Hq)
        as (s0' & -> & Hn0); [by rewrite Hs0 |].
      cbn. split; [done | congruence].
  - intros get_llm_config run_tests callback admin user_request e w1
      Hreq Hterm Hcfg Hkeys Hadmin Hname Hcb Hraise.
    destruct (body_ends_at_first_notification get_llm_config run_tests self callback
                admin user_request s e w1 Hreq Hterm Hcfg Hkeys Hadmin Hname Hcb Hraise)
      as (s' & Hbody & Hcount).
    unfold initiate_workflow. rewrite Hbody.
    unfold workflow_handler, log_error_with_context.
    destruct (kind e); unfold bind, log, emit, get_count, ret;
      cbn [fst review_iteration_count]; try reflexivity;
      rewrite Hcount; by eexists.
Qed.

Lemma callback_raises_or_is_ignored_witness :
  let agents := team main_py (py "APPROVED") in
  let admin := scripted "Admin_Proxy" (py "ok") in
  let transcript := [{| msg_name := Some "Admin_Proxy"; msg_content := py "build it" |}] in
  fst (custom_speaker_selector (WorkflowOrchestrator agents 5 (Some callback_broken))
         admin transcript (new_orchestrator start))
  = Raise display_error
  /\ fst (custom_speaker_selector (WorkflowOrchestrator agents 5 None)
            admin transcript elsewhere)
     = Ok (Some (scripted "Product_Manager" (py "requirements")))
  /\ exists text,
       fst (initiate_workflow config_found runner_idle
              (WorkflowOrchestrator agents 5 (Some callback_broken))
              (py "build it") (new_orchestrator start))
       = Ok (Error text 0).
Proof.
  cbv zeta. split; [|split].
  - apply (proj1 (callback_raises_or_is_ignored
                    (WorkflowOrchestrator (team main_py (py "APPROVED")) 5
                       (Some callback_broken))
                    (scripted "Admin_Proxy" (py "ok"))
                    [{| msg_name := Some "Admin_Proxy"; msg_content := py "build it" |}]
                    (new_orchestrator start))
             callback_broken eq_refl
             [Logged DEBUG "Speaker selection: Last speaker";
              Logged INFO "[Workflow] Transition | Admin -> Product_Manager (workflow start)";
              Notified "product_manager" "analyzing" None]
             "product_manager" "analyzing" None display_error).
    + vm_compute. reflexivity.
    + apply list_elem_of_In. cbn. tauto.
    + reflexivity.
  - apply (proj1 (proj2 (callback_raises_or_is_ignored
                    (WorkflowOrchestrator (team main_py (py "APPROVED")) 5
                       (Some callback_silent))
                    (scripted "Admin_Proxy" (py "ok"))
                    [{| msg_name := Some "Admin_Proxy"; msg_content := py "build it" |}]
                    (new_orchestrator start)))
             (Some (scripted "Product_Manager" (py "requirements")))).
    + vm_compute. reflexivity.
    + reflexivity.
  - apply (proj2 (proj2 (callback_raises_or_is_ignored
                    (WorkflowOrchestrator (team main_py (py "APPROVED")) 5
                       (Some callback_broken))
                    (scripted "Admin_Proxy" (py "ok")) [] (new_orchestrator start)))
             config_found runner_idle callback_broken
             (scripted "Admin_Proxy" (py "ok")) (py "build it") display_error start).
    + vm_compute. discriminate.
    + reflexivity.
    + reflexivity.
    + apply (team_keys (WorkflowOrchestrator (team main_py (py "APPROVED")) 5 None)
               (team_is_standard main_py (py "APPROVED"))).
    + reflexivity.
    + reflexivity.
    + reflexivity.
    + reflexivity.
Defined.

(** C9. The selector's answer is a function of the last speaker's name,
    the transcript and the counter, for a given configuration (agents
    dictionary and ceiling): two invocations that agree on these return the
    same agent (or [None]) and leave the same counter, whatever the events
    logged so far, the state of the world outside (clock, randomness, file
    system) and the progress callback are in each; and they do return when
    the callback of each does and the dictionary is complete. *)
Theorem selector_deterministic {W} (self1 self2 : Orchestrator W)
    (speaker1 speaker2 : Agent W) (messages : list message) (s1 s2 : state W) :
  agents self1 = agents self2 ->
  max_review_iterations self1 = max_review_iterations self2 ->
  name speaker1 = name speaker2 ->
  review_iteration_count s1 = review_iteration_count s2 ->
  (forall r1 r2,
     fst (custom_speaker_selector self1 speaker1 messages s1) = Ok r1 ->
     fst (custom_speaker_selector self2 speaker2 messages s2) = Ok r2 ->
     r1 = r2
     /\ review_iteration_count (snd (custom_speaker_selector self1 speaker1 messages s1))
        = review_iteration_count (snd (custom_speaker_selector self2 speaker2 messages s2)))
  /\ (quiet_callback self1 -> quiet_callback self2 ->
      (forall key, key ∈ stage_keys -> is_Some (agents self1 !! key)) ->
      exists r,
        fst (custom_speaker_selector self1 speaker1 messages s1) = Ok r
        /\ fst (custom_speaker_selector self2 speaker2 messages s2) = Ok r).
Proof.
  intros Hagents Hmax Hname Hcount.
  assert (forall r1 r2 s1' s2',
            custom_speaker_selector self1 speaker1 messages s1 = (Ok r1, s1') ->
            custom_speaker_selector self2 speaker2 messages s2 = (Ok r2, s2') ->
            r1 = r2 /\ review_iteration_count s1' = review_iteration_count s2')
    as Hsame.
  { intros r1 r2 s1' s2' [Hn1 Hr1]%selector_refines [Hn2 Hr2]%selector_refines.
    rewrite <- ?Hagents, <- ?Hmax, <- ?Hname, <- ?Hcount in Hn2, Hr2.
    split; [|congruence].
    destruct (fst (selectNext _ _ _ _)).
    - destruct Hr1 as (a1 & Ha1 & ->), Hr2 as (a2 & Ha2 & ->). congruence.
    - congruence. }
  split.
  - intros r1 r2.
    destruct (custom_speaker_selector self1 speaker1 messages s1) as [o1 s1'] eqn:E1.
    destruct (custom_speaker_selector self2 speaker2 messages s2) as [o2 s2'] eqn:E2.
    cbn. intros -> ->. by eapply Hsame.
  - intros Hq1 Hq2 Hkeys.
    destruct (selector_spec (fun _ => True) self1 speaker1 messages s1 Hq1 I)
      as (r1 & s1' & E1 & _).
    { destruct (fst (selectNext _ _ _ _)) eqn:E; [|done].
      eapply Hkeys, selectNext_key, E. }
    destruct (selector_spec (fun _ => True) self2 speaker2 messages s2 Hq2 I)
      as (r2 & s2' & E2 & _).
    { destruct (fst (selectNext _ _ _ _)) eqn:E; [|done].
      rewrite <- Hagents. eapply Hkeys, selectNext_key, E. }
    exists r1. rewrite E1, E2. cbn. split; [done|].
    f_equal. symmetry. by eapply Hsame.
Qed.

Lemma selector_deterministic_witness :
  let self1 := WorkflowOrchestrator (team main_py (py "APPROVED")) 5 (Some callback_silent) in
  let self2 := WorkflowOrchestrator (team main_py (py "APPROVED")) 5 None in
  let transcript := [{| msg_name := Some "Code_Reviewer";
                        msg_content := py "FIX_REQUIRED" |}] in
  exists r,
    fst (custom_speaker_selector self1 (scripted "Code_Reviewer" (py "APPROVED"))
           transcript (new_orchestrator start)) = Ok r
    /\ fst (custom_speaker_selector self2 (scripted "Code_Reviewer" (py "anything"))
              transcript elsewhere) = Ok r.
Proof.
  cbv zeta.
  apply (proj2 (selector_deterministic
                  (WorkflowOrchestrator (team main_py (py "APPROVED")) 5 (Some callback_silent))
                  (WorkflowOrchestrator (team main_py (py "APPROVED")) 5 None)
                  (scripted "Code_Reviewer" (py "APPROVED"))
                  (scripted "Code_Reviewer" (py "anything"))
                  [{| msg_name := Some "Code_Reviewer"; msg_content := py "FIX_REQUIRED" |}]
                  (new_orchestrator start) elsewhere
                  eq_refl eq_refl eq_refl eq_refl)).
  - apply callback_silent_quiet.
  - intros callback [=].
  - apply (team_keys (WorkflowOrchestrator (team main_py (py "APPROVED")) 5
                        (Some callback_silent))
             (team_is_standard main_py (py "APPROVED"))).
Defined.

(** C10. When a [Code_Reviewer] message contains both [FIX_REQUIRED] and
    [APPROVED], the rework branch wins: the counter is incremented, and the
    selector returns the agent under ["python_engineer"], or the one under
    ["tech_writer"] when the incremented counter has reached the ceiling. *)
Theorem rework_takes_precedence {W} (self : Orchestrator W)
    (last_speaker pe tw : Agent W) (messages : list message) (s : state W) :
  name last_speaker = "Code_Reviewer" ->
  contains FIX_REQUIRED (last_content messages) = true ->
  contains APPROVED (last_content messages) = true ->
  agents self !! "python_engineer" = Some pe ->
  agents self !! "tech_writer" = Some tw ->
  quiet_callback self ->
  exists s',
    custom_speaker_selector self last_speaker messages s
    = (Ok (Some (if review_iteration_count s + 1 >=? max_review_iterations self
                 then tw else pe)), s')
    /\ review_iteration_count s' = review_iteration_count s + 1.
Proof.
  intros Hname Hfix _ Hpe Htw Hq.
  destruct (review_iteration_count s + 1 >=? max_review_iterations self) eqn:E.
  - eapply selector_next; [done | | done].
    by rewrite Hname, selectNext_reviewer, Hfix, E.
  - eapply selector_next; [done | | done].
    by rewrite Hname, selectNext_reviewer, Hfix, E.
Qed.

Lemma rework_takes_precedence_witness :
  let verdict := py "APPROVED in principle, but FIX_REQUIRED: add tests" in
  let self := WorkflowOrchestrator (team main_py verdict) 5 (Some callback_silent) in
  exists s',
    custom_speaker_selector self (scripted "Code_Reviewer" verdict)
      [{| msg_name := Some "Code_Reviewer"; msg_content := verdict |}]
      (new_orchestrator start)
    = (Ok (Some (scripted "Python_Engineer" main_py)), s')
    /\ review_iteration_count s' = 1.
Proof.
  cbv zeta.
  apply (rework_takes_precedence
           (WorkflowOrchestrator (team main_py (py "APPROVED in principle, but FIX_REQUIRED: add tests"))
              5 (Some callback_silent))
           (scripted "Code_Reviewer" (py "APPROVED in principle, but FIX_REQUIRED: add tests"))
           (scripted "Python_Engineer" main_py)
           (scripted "Tech_Writer" (py "documentation"))).
  - reflexivity.
  - reflexivity.
  - reflexivity.
  - reflexivity.
  - reflexivity.
  - apply callback_silent_quiet.
Defined.

(** * Further properties of the code *)

(** ** The other edges of the selector *)

(** X1. The linear backbone of [custom_speaker_selector].  With
    [Product_Manager] as last speaker the selector returns the agent under
    ["python_engineer"] and resets the review counter to zero, whatever it
    was; with [Python_Engineer], [Tech_Writer], [QA_Engineer] and
    [DevOps_Engineer] it returns the agent under ["code_reviewer"],
    ["qa_engineer"], ["devops_engineer"] and ["ux_designer"] and leaves the
    counter as it was.  The transcript plays no part. *)
Theorem linear_backbone {W} (self : Orchestrator W) (last_speaker next : Agent W)
    (messages : list message) (s : state W) :
  quiet_callback self ->
  (name last_speaker = "Product_Manager" ->
   agents self !! "python_engineer" = Some next ->
   exists s',
     custom_speaker_selector self last_speaker messages s = (Ok (Some next), s')
     /\ review_iteration_count s' = 0)
  /\ (forall stage key,
        (stage, key) ∈ [("Python_Engineer", "code_reviewer");
                        ("Tech_Writer", "qa_engineer");
                        ("QA_Engineer", "devops_engineer");
                        ("DevOps_Engineer", "ux_designer")] ->
        name last_speaker = stage ->
        agents self !! key = Some next ->
        exists s',
          custom_speaker_selector self last_speaker messages s = (Ok (Some next), s')
          /\ review_iteration_count s' = review_iteration_count s).
Proof.
  intros Hq. split.
  - intros Hname Hnext. eapply selector_next; [done | | done].
    by rewrite Hname.
  - intros stage key Hin Hname Hnext.
    eapply selector_next; [done | | done]. rewrite Hname.
    repeat (apply elem_of_cons in Hin as [[= -> ->] | Hin]; [reflexivity|]).
    by apply elem_of_nil in Hin.
Qed.

Lemma linear_backbone_witness :
  let self := WorkflowOrchestrator (team main_py (py "APPROVED")) 5 (Some callback_silent) in
  let stale := {| review_iteration_count := 4; trace := []; outside := start |} in
  (exists s',
     custom_speaker_selector self (scripted "Product_Manager" (py "requirements"))
       [] stale
     = (Ok (Some (scripted "Python_Engineer" main_py)), s')
     /\ review_iteration_count s' = 0)
  /\ (exists s',
        custom_speaker_selector self (scripted "QA_Engineer" (py "test plan"))
          [] stale
        = (Ok (Some (scripted "DevOps_Engineer" (py "deployment"))), s')
        /\ review_iteration_count s' = 4).
Proof.
  cbv zeta. split.
  - apply (proj1 (linear_backbone
                    (WorkflowOrchestrator (team main_py (py "APPROVED")) 5
                       (Some callback_silent))
                    (scripted "Product_Manager" (py "requirements"))
                    (scripted "Python_Engineer" main_py) []
                    {| review_iteration_count := 4; trace := []; outside := start |}
                    (callback_silent_quiet _ _))).
    + reflexivity.
    + reflexivity.
  - apply (proj2 (linear_backbone
                    (WorkflowOrchestrator (team main_py (py "APPROVED")) 5
                       (Some callback_silent))
                    (scripted "QA_Engineer" (py "test plan"))
                    (scripted "DevOps_Engineer" (py "deployment")) []
                    {| review_iteration_count := 4; trace := []; outside := start |}
                    (callback_silent_quiet _ _))
             "QA_Engineer" "devops_engineer").
    + set_solver.
    + reflexivity.
    + reflexivity.
Defined.

(** X2. The approval edge.  A [Code_Reviewer] message with [APPROVED] and
    without [FIX_REQUIRED] sends the chat to the agent under
    ["tech_writer"]; the counter keeps the number of rework rounds made so
    far, and the callback, when there is one and it returns, is told
    [("tech_writer", "documenting")]. *)
Theorem approval_advances {W} (self : Orchestrator W) (last_speaker tw : Agent W)
    (messages : list message) (s : state W) callback v w' :
  name last_speaker = "Code_Reviewer" ->
  contains FIX_REQUIRED (last_content messages) = false ->
  contains APPROVED (last_content messages) = true ->
  agents self !! "tech_writer" = Some tw ->
  progress_callback self = Some callback ->
  callback "tech_writer" "documenting" None (outside s) = (Ok v, w') ->
  custom_speaker_selector self last_speaker messages s
  = (Ok (Some tw),
     {| review_iteration_count := review_iteration_count s;
        trace := trace s ++
          [Logged DEBUG "Speaker selection: Last speaker";
           Logged INFO "[Workflow] Transition | Code_Reviewer -> Tech_Writer (approved)";
           Notified "tech_writer" "documenting" None];
        outside := w' |}).
Proof.
  intros Hname Hfix Happ Htw Hcb Hcall. unfold custom_speaker_selector.
  rewrite Hname, Hfix, Happ. unfold getitem, notify. rewrite Htw, Hcb.
  unfold bind, call, log, emit, ret. cbn. rewrite Hcall.
  by rewrite <- !app_assoc.
Qed.

Lemma approval_advances_witness :
  let self := WorkflowOrchestrator (team main_py (py "APPROVED")) 5 (Some callback_silent) in
  let stale := {| review_iteration_count := 2; trace := []; outside := start |} in
  custom_speaker_selector self (scripted "Code_Reviewer" (py "APPROVED"))
    [{| msg_name := Some "Code_Reviewer"; msg_content := py "APPROVED, well done" |}]
    stale
  = (Ok (Some (scripted "Tech_Writer" (py "documentation"))),
     {| review_iteration_count := 2;
        trace := [Logged DEBUG "Speaker selection: Last speaker";
                  Logged INFO "[Workflow] Transition | Code_Reviewer -> Tech_Writer (approved)";
                  Notified "tech_writer" "documenting" None];
        outside := start |}).
Proof.
  cbv zeta.
  apply (approval_advances
           (WorkflowOrchestrator (team main_py (py "APPROVED")) 5 (Some callback_silent))
           (scripted "Code_Reviewer" (py "APPROVED"))
           (scripted "Tech_Writer" (py "documentation"))
           [{| msg_name := Some "Code_Reviewer";
               msg_content := py "APPROVED, well done" |}]
           {| review_iteration_count := 2; trace := []; outside := start |}
           callback_silent PyNone start);
    reflexivity.
Defined.

(** X3. A last speaker whose name the selector does not know ends the
    conversation: the selector returns [None], logs an error, and neither
    looks an agent up, nor touches the counter, nor calls the callback. *)
Theorem unknown_speaker_ends_chat {W} (self : Orchestrator W)
    (last_speaker : Agent W) (messages : list message) (s : state W) :
  name last_speaker ∉ stage_names ->
  custom_speaker_selector self last_speaker messages s
  = (Ok None,
     {| review_iteration_count := review_iteration_count s;
        trace := trace s ++
          [Logged DEBUG "Speaker selection: Last speaker";
           Logged ERROR "Unknown speaker in workflow"];
        outside := outside s |}).
Proof.
  intros Hname. unfold custom_speaker_selector.
  repeat match goal with
         | |- context [String.eqb (name last_speaker) ?lit] =>
             destruct (String.eqb_spec (name last_speaker) lit) as [E | _];
             [exfalso; apply Hname; rewrite E; unfold stage_names; set_solver|]
         end.
  cbn. by rewrite <- app_assoc.
Qed.

Lemma unknown_speaker_ends_chat_witness :
  fst (custom_speaker_selector
         (WorkflowOrchestrator (team main_py (py "APPROVED")) 5 (Some callback_broken))
         (scripted "chat_manager" (py "hello")) [] (new_orchestrator start))
  = Ok None.
Proof.
  rewrite (unknown_speaker_ends_chat
             (WorkflowOrchestrator (team main_py (py "APPROVED")) 5 (Some callback_broken))
             (scripted "chat_manager" (py "hello")) [] (new_orchestrator start)).
  - reflexivity.
  - intros Hin%list_elem_of_In. cbn in Hin. intuition discriminate.
Defined.

Section ChatInvariants.
Context {W : Type}.
Variable self : Orchestrator W.

(** A chat that returns has appended the opening message and at most one
    message for each round. *)
Lemma run_chat_transcript rounds : forall speaker content messages (s : state W) messages' s',
  run_chat self (S rounds) speaker content messages s = (Ok messages', s') ->
  (exists rest,
     messages' = messages ++ {| msg_name := Some (name speaker); msg_content := content |} :: rest)
  /\ (length messages' <= length messages + S rounds)%nat.
Proof.
  induction rounds as [|rounds IH]; intros speaker content messages s messages' s' H.
  - rewrite run_chat_S in H. cbn zeta in H.
    rewrite bool_decide_eq_true_2, orb_true_r in H by done.
    apply ret_Ok in H as [<- _]. split; [by exists []|].
    rewrite length_app. cbn. lia.
  - rewrite run_chat_S in H. cbn zeta in H.
    destruct (_ || _).
    { apply ret_Ok in H as [<- _]. split; [by exists []|].
      rewrite length_app. cbn. lia. }
    apply bind_Ok in H as ([next|] & s1 & _ & H).
    2:{ apply ret_Ok in H as [<- _]. split; [by exists []|].
        rewrite length_app. cbn. lia. }
    apply bind_Ok in H as ([content'|] & s2 & _ & H).
    2:{ apply ret_Ok in H as [<- _]. split; [by exists []|].
        rewrite length_app. cbn. lia. }
    apply IH in H as [[rest ->] Hlen]. split.
    + eexists. rewrite <- app_assoc. reflexivity.
    + rewrite !length_app in *. cbn in *. lia.
Qed.

Hypothesis Hteam : standard_team (agents self).

(** The table keeps the counter in its phase: the stage that speaks next
    is the one the roster puts under the designated key. *)
Lemma selectNext_phase stage transcript counter key counter' stage' :
  counter_in_phase (max_review_iterations self) stage counter ->
  selectNext (max_review_iterations self) stage transcript counter = (Next key, counter') ->
  (key, stage') ∈ roster ->
  counter_in_phase (max_review_iterations self) stage' counter'.
Proof.
  intros [Hrange Hloop]. unfold selectNext.
  repeat match goal with
         | |- context [String.eqb ?x ?y] =>
             destruct (String.eqb_spec x y) as [Hname|?]
         end;
    repeat match goal with
           | |- context [if ?b then _ else _] => destruct b eqn:?
           end;
    intros [= <- <-] Hin%list_elem_of_In; cbn in Hin;
    repeat (destruct Hin as [Hin'|Hin]; [simplify_eq|]); try done;
    unfold counter_in_phase; (split; [|intros [?|?]; try done]);
    try specialize (Hloop (or_introl eq_refl));
    try specialize (Hloop (or_intror eq_refl));
    try match goal with E : (_ >=? _) = _ |- _ => rewrite Z.geb_leb in E;
          first [apply Z.leb_le in E | apply Z.leb_gt in E] end;
    lia.
Qed.

Lemma selector_keeps_phase last_speaker messages (s : state W) next s' :
  counter_in_phase (max_review_iterations self) (name last_speaker) (review_iteration_count s) ->
  custom_speaker_selector self last_speaker messages s = (Ok (Some next), s') ->
  counter_in_phase (max_review_iterations self) (name next) (review_iteration_count s').
Proof.
  intros Hphase H. apply selector_refines in H as [-> Hnext].
  destruct (selectNext _ _ _ _) as [[key|] counter'] eqn:Htable; [|done].
  cbn [fst snd] in *. destruct Hnext as (a & Ha & [= <-]).
  assert (key ∈ stage_keys) as Hkey.
  { eapply selectNext_key. by rewrite Htable. }
  change stage_keys with (fst <$> roster) in Hkey.
  apply list_elem_of_fmap in Hkey as ([k stage'] & -> & Hin).
  rewrite (team_name self Hteam _ _ _ Hin Ha).
  by eapply selectNext_phase.
Qed.

(** Whatever the agents say, however long the chat, the counter stays in
    range. *)
Lemma run_chat_counter rounds : forall speaker content messages (s : state W) messages' s',
  counter_in_phase (max_review_iterations self) (name speaker) (review_iteration_count s) ->
  run_chat self rounds speaker content messages s = (Ok messages', s') ->
  0 <= review_iteration_count s' <= Z.max (max_review_iterations self) 1.
Proof.
  induction rounds as [|rounds IH]; intros speaker content messages s messages' s' Hphase H.
  { apply ret_Ok in H as [_ <-]. apply Hphase. }
  rewrite run_chat_S in H. cbn zeta in H.
  destruct (_ || _).
  { apply ret_Ok in H as [_ <-]. apply Hphase. }
  apply bind_Ok in H as ([next|] & s1 & Hsel & H).
  2:{ apply ret_Ok in H as [_ <-]. apply selector_refines in Hsel as [-> _].
      revert Hphase. intros [Hrange Hloop]. unfold selectNext.
      repeat match goal with
             | |- context [String.eqb ?x ?y] =>
                 destruct (String.eqb_spec x y) as [Hname|?]
             end;
        repeat match goal with
               | |- context [if ?b then _ else _] => destruct b eqn:?
               end; cbn [snd];
        try specialize (Hloop (or_intror Hname));
        try match goal with E : (_ >=? _) = _ |- _ => rewrite Z.geb_leb in E;
              first [apply Z.leb_le in E | apply Z.leb_gt in E] end;
        lia. }
  apply selector_keeps_phase in Hsel; [|done].
  apply bind_Ok in H as ([content'|] & s2 & (Hc & _ & _)%call_Ok & H).
  2:{ apply ret_Ok in H as [_ <-]. rewrite Hc. apply Hsel. }
  eapply IH; [|exact H]. by rewrite Hc.
Qed.
End ChatInvariants.

(** X4. The counter reported by a successful run lies between 0 and the
    ceiling (1 when the ceiling is lower), whatever the agents of a
    standard team said and however often the reviewer asked for rework;
    for [run_workflow], whose ceiling is 5, between 0 and 5. *)
Theorem review_iterations_in_range {W} (get_llm_config : external W unit)
    (run_tests : path -> external W test_report) (self : Orchestrator W)
    (user_request : str) (s : state W) n c k messages report :
  standard_team (agents self) ->
  review_iteration_count s = 0 ->
  fst (initiate_workflow get_llm_config run_tests self user_request s)
  = Ok (Success n c k messages report) ->
  0 <= c <= Z.max (max_review_iterations self) 1.
Proof.
  intros Hteam Hzero H.
  destruct (initiate_workflow _ _ _ _ _) as [r s'] eqn:E. cbn in H. subst r.
  apply workflow_success_inv in E
    as (admin & groupchat & s1 & s2 & _ & _ & _ & Hc & Hchat & -> & _).
  unfold initiate_chat in Hchat.
  apply (run_chat_counter self Hteam) in Hchat; [done|].
  rewrite Hc, Hzero. split; [lia|]. by right.
Qed.

Lemma review_iterations_in_range_witness :
  match fst (run_workflow config_found runner_idle (py "build a calculator")
               (team main_py (py "FIX_REQUIRED")) (Some callback_silent) start) with
  | Ok (Success _ c _ _ _) => c = 5 /\ 0 <= c <= 5
  | _ => False
  end.
Proof.
  destruct (fst (run_workflow config_found runner_idle (py "build a calculator")
                   (team main_py (py "FIX_REQUIRED")) (Some callback_silent) start))
    as [[n c k messages report|]|] eqn:E.
  - split.
    + vm_compute in E. by injection E as _ <- _ _ _.
    + apply (review_iterations_in_range config_found runner_idle
               (WorkflowOrchestrator (team main_py (py "FIX_REQUIRED")) 5
                  (Some callback_silent))
               (py "build a calculator") (new_orchestrator start) n c k messages report).
      * apply team_is_standard.
      * reflexivity.
      * exact E.
  - vm_compute in E. discriminate.
  - vm_compute in E. discriminate.
Defined.

(** X5. The transcript of a successful run opens with the user's request,
    under the name of the agent registered as ["admin_proxy"], and holds
    at most 50 messages; [total_messages] is its length. *)
Theorem transcript_of_success {W} (get_llm_config : external W unit)
    (run_tests : path -> external W test_report) (self : Orchestrator W)
    (user_request : str) (s : state W) n c k messages report :
  fst (initiate_workflow get_llm_config run_tests self user_request s)
  = Ok (Success n c k messages report) ->
  n = length messages
  /\ (1 <= n <= 50)%nat
  /\ exists admin rest,
       agents self !! "admin_proxy" = Some admin
       /\ messages = {| msg_name := Some (name admin); msg_content := user_request |} :: rest.
Proof.
  intros H.
  destruct (initiate_workflow _ _ _ _ _) as [r s'] eqn:E. cbn in H. subst r.
  apply workflow_success_inv in E
    as (admin & groupchat & s1 & s2 & Hadmin & Hcap & _ & _ & Hchat & _ & ->).
  unfold initiate_chat in Hchat. rewrite Hcap in Hchat.
  apply run_chat_transcript in Hchat as [[rest ->] Hlen].
  cbn in Hlen |- *. split; [done|]. split; [lia|]. by exists admin, rest.
Qed.

Lemma transcript_of_success_witness :
  match fst (run_workflow config_found runner_idle (py "build a calculator")
               (team main_py (py "APPROVED")) (Some callback_silent) start) with
  | Ok (Success n _ _ messages _) =>
      n = 8%nat /\ n = length messages
      /\ head messages = Some {| msg_name := Some "Admin_Proxy";
                                 msg_content := py "build a calculator" |}
  | _ => False
  end.
Proof.
  destruct (fst (run_workflow config_found runner_idle (py "build a calculator")
                   (team main_py (py "APPROVED")) (Some callback_silent) start))
    as [[n c k messages report|]|] eqn:E.
  - destruct (transcript_of_success config_found runner_idle
                (WorkflowOrchestrator (team main_py (py "APPROVED")) 5
                   (Some callback_silent))
                (py "build a calculator") (new_orchestrator start) n c k messages report E)
      as (Hn & _ & admin & rest & Hadmin & Hm).
    split; [|split; [exact Hn|]].
    + vm_compute in E. by injection E as <- _ _ _ _.
    + rewrite Hm. vm_compute in Hadmin. by injection Hadmin as <-.
  - vm_compute in E. discriminate.
  - vm_compute in E. discriminate.
Defined.

(** ** Failures before the chat *)

Lemma create_group_chat_missing {W} (self : Orchestrator W) (s : state W) key :
  key ∈ stage_keys -> agents self !! key = None ->
  exists missing,
    missing ∈ stage_keys /\ agents self !! missing = None
    /\ create_group_chat self s = (Raise (KeyError missing), s).
Proof.
  intros Hin Hnone. unfold create_group_chat.
  repeat match goal with
         | |- context [getitem (agents self) ?k] =>
             unfold getitem at 1;
             destruct (agents self !! k) eqn:?;
             [|eexists; split; [|split; [eassumption|reflexivity]];
               apply list_elem_of_In; cbn; tauto]
         end.
  exfalso. unfold stage_keys in Hin.
  repeat (apply elem_of_cons in Hin as [-> | Hin]; [congruence|]).
  by apply elem_of_nil in Hin.
Qed.

(** X6. [initiate_workflow] answers with a record whatever goes wrong
    inside it: the only exceptions that leave it are those that are
    neither an [Exception] nor a [KeyboardInterrupt] ([SystemExit],
    [GeneratorExit]). *)
Theorem only_exits_escape {W} (get_llm_config : external W unit)
    (run_tests : path -> external W test_report) (self : Orchestrator W)
    (user_request : str) (s : state W) e :
  fst (initiate_workflow get_llm_config run_tests self user_request s) = Raise e ->
  kind e = OtherBaseException.
Proof.
  unfold initiate_workflow.
  destruct (workflow_body _ _ _ _ _) as [[r|e'] s1]; [done|].
  destruct (workflow_handler e') as [h|] eqn:Hh.
  - unfold workflow_handler in Hh.
    destruct (kind e'); simplify_eq; unfold bind, log, emit, get_count, ret; discriminate.
  - intros [= ->]. unfold workflow_handler in Hh. by destruct (kind e).
Qed.

Lemma only_exits_escape_witness :
  fst (run_workflow config_exits runner_idle (py "build a calculator")
         (team main_py (py "APPROVED")) (Some callback_silent) start)
  = Raise system_exit
  /\ kind system_exit = OtherBaseException.
Proof.
  assert (fst (run_workflow config_exits runner_idle (py "build a calculator")
                 (team main_py (py "APPROVED")) (Some callback_silent) start)
          = Raise system_exit) as E by reflexivity.
  split; [exact E|].
  exact (only_exits_escape config_exits runner_idle
           (WorkflowOrchestrator (team main_py (py "APPROVED")) 5 (Some callback_silent))
           (py "build a calculator") (new_orchestrator start) system_exit E).
Defined.

(** X7. When the configuration cannot be loaded, the run ends there with
    an error record: no group chat is created, no agent is asked, the
    counter is as it was, and after the call only the handler's records
    are logged.  For a [ValueError] the record reads
    ["Configuration error: "] and the text of the exception, and the
    handler logs an ERROR record that begins with
    ["Invalid configuration"] and then a DEBUG record with the
    traceback. *)
Theorem configuration_failure_reported {W} (get_llm_config : external W unit)
    (run_tests : path -> external W test_report) (self : Orchestrator W)
    (user_request : str) (s : state W) e w' :
  strip user_request <> [] ->
  get_llm_config (outside s) = (Raise e, w') ->
  kind e <> OtherBaseException ->
  exists text handler_log,
    initiate_workflow get_llm_config run_tests self user_request s
    = (Ok (Error text (review_iteration_count s)),
       {| review_iteration_count := review_iteration_count s;
          trace := trace s ++ [Logged INFO separator;
                               Logged INFO "WORKFLOW INITIATED";
                               Logged INFO separator;
                               Logged INFO "[User] Request";
                               ConfigLoaded] ++ handler_log;
          outside := w' |})
    /\ Forall (fun ev => exists lvl line, ev = Logged lvl line) handler_log
    /\ (kind e = ValueError ->
        text = py "Configuration error: " ++ exn_text e
        /\ handler_log = [Logged ERROR "Invalid configuration";
                          Logged DEBUG "Traceback"]).
Proof.
  intros Hreq Hcfg Hkind.
  unfold initiate_workflow, workflow_body. rewrite (blank_request _ Hreq).
  unfold bind at 1 2 3 4 5, log, emit, call.
  cbn [outside review_iteration_count trace]. rewrite Hcfg.
  unfold workflow_handler, log_error_with_context.
  destruct (kind e) eqn:Hk; try done;
    unfold bind, log, emit, get_count, ret;
    cbn [outside review_iteration_count trace];
    repeat rewrite <- app_assoc; cbn [app];
    eexists _, _; (split; [reflexivity|]);
    (split; [repeat constructor; by eexists _, _ | try done]).
Qed.

Lemma configuration_failure_reported_witness :
  fst (run_workflow config_missing runner_idle (py "build a calculator")
         (team main_py (py "APPROVED")) (Some callback_silent) start)
  = Ok (Error (py "Configuration error: GOOGLE_API_KEY not set") 0).
Proof.
  destruct (configuration_failure_reported config_missing runner_idle
              (WorkflowOrchestrator (team main_py (py "APPROVED")) 5 (Some callback_silent))
              (py "build a calculator") (new_orchestrator start) key_not_set start)
    as (text & handler_log & E & _ & Htext).
  - vm_compute. discriminate.
  - reflexivity.
  - discriminate.
  - destruct (Htext eq_refl) as (-> & _).
    unfold run_workflow. rewrite E. reflexivity.
Defined.

(** X8. When one of the eight agents is missing from the dictionary, the
    run ends before the chat with the error record of a [KeyError] that
    names a missing key: no group chat is created and no agent is asked;
    after the configuration is loaded, only the handler logs, an ERROR
    record that begins with ["Workflow execution failed"] and a DEBUG
    record with the traceback. *)
Theorem missing_agent_reported {W} (get_llm_config : external W unit)
    (run_tests : path -> external W test_report) (self : Orchestrator W)
    (user_request : str) (s : state W) key w' :
  strip user_request <> [] ->
  get_llm_config (outside s) = (Ok tt, w') ->
  key ∈ stage_keys -> agents self !! key = None ->
  exists missing,
    missing ∈ stage_keys /\ agents self !! missing = None
    /\ initiate_workflow get_llm_config run_tests self user_request s
       = (Ok (Error (py "KeyError: " ++ py ("'" ++ missing ++ "'"))
                (review_iteration_count s)),
          {| review_iteration_count := review_iteration_count s;
             trace := trace s ++ [Logged INFO separator;
                                  Logged INFO "WORKFLOW INITIATED";
                                  Logged INFO separator;
                                  Logged INFO "[User] Request";
                                  ConfigLoaded;
                                  Logged ERROR "Workflow execution failed";
                                  Logged DEBUG "Traceback"];
             outside := w' |}).
Proof.
  intros Hreq Hcfg Hin Hnone.
  unfold initiate_workflow, workflow_body. rewrite (blank_request _ Hreq).
  unfold bind at 1 2 3 4 5 6, log, emit, call.
  cbn [outside review_iteration_count trace]. rewrite Hcfg.
  match goal with
  | |- context [create_group_chat self ?s1] =>
      destruct (create_group_chat_missing self s1 key Hin Hnone)
        as (missing & Hm & Hmiss & ->)
  end.
  exists missing. split; [done|]. split; [done|].
  unfold workflow_handler, log_error_with_context, KeyError.
  cbn [kind type_name exn_text].
  unfold bind, log, emit, get_count, ret.
  cbn [outside review_iteration_count trace].
  repeat rewrite <- app_assoc. reflexivity.
Qed.

Lemma missing_agent_reported_witness :
  fst (run_workflow config_found runner_idle (py "build a calculator")
         (delete "qa_engineer" (team main_py (py "APPROVED"))) (Some callback_silent) start)
  = Ok (Error (py "KeyError: 'qa_engineer'") 0).
Proof.
  destruct (missing_agent_reported config_found runner_idle
              (WorkflowOrchestrator (delete "qa_engineer" (team main_py (py "APPROVED"))) 5
                 (Some callback_silent))
              (py "build a calculator") (new_orchestrator start) "qa_engineer" start)
    as (missing & Hin & Hmiss & E).
  - vm_compute. discriminate.
  - reflexivity.
  - apply list_elem_of_In. cbn. tauto.
  - reflexivity.
  - unfold run_workflow. rewrite E. cbn [fst]. do 2 f_equal.
    apply list_elem_of_In in Hin. cbn in Hin.
    repeat (destruct Hin as [<-|Hin]; [first [reflexivity | by vm_compute in Hmiss]|]).
    done.
Defined.

(** ** What extraction does to the disk *)

(** X9. Extraction never fails and only writes regular files: whatever
    the transcript and the disk, it returns a count; the working directory
    and the set of directories are as before (no directory is created or
    removed), no file is removed, and the count grows by at most the number
    of blocks matched in the transcript. *)
Theorem extraction_only_writes_files {W} (workspace_path : path)
    (messages : list message) (n : nat) (s : state W) :
  exists n' s',
    extract_files workspace_path messages n s = (Ok n', s')
    /\ cwd (fs (outside s')) = cwd (fs (outside s))
    /\ dirs (fs (outside s')) = dirs (fs (outside s))
    /\ (forall p, is_Some (files (fs (outside s)) !! p) ->
                  is_Some (files (fs (outside s')) !! p))
    /\ (n <= n' <= n + length (mjoin ((fun m => findall (msg_content m)) <$> messages)))%nat.
Proof.
  destruct (extract_files_disk workspace_path messages n s)
    as (n' & s' & Hrun & (Hcwd & Hdirs & Hfiles) & Hcount).
  by exists n', s'.
Qed.






(** ** The shape of what is extracted *)

Section MatchShape.
Context {R : Type}.

Lemma greedy_class cls s : forall acc (k : str -> str -> option R) r,
  greedy cls s acc k = Some r ->
  exists x y, s = x ++ y /\ forallb cls x = true /\ k (acc ++ x) y = Some r.
Proof.
  induction s as [|c s IH]; intros acc k r; cbn.
  - intros H. exists [], []. split; [done|]. split; [done | by rewrite app_nil_r].
  - destruct (cls c) eqn:Hc.
    + destruct (greedy cls s (acc ++ [c]) k) as [r'|] eqn:E.
      * intros [= <-]. apply IH in E as (x & y & -> & Hx & E).
        exists (c :: x), y. split; [done|]. split; [by cbn; rewrite Hc|].
        by rewrite <- app_assoc in E.
      * intros H. exists [], (c :: s). split; [done|].
        split; [done | by rewrite app_nil_r].
    + intros H. exists [], (c :: s). split; [done|].
      split; [done | by rewrite app_nil_r].
Qed.

Lemma greedy1_class cls s (k : str -> str -> option R) r :
  greedy1 cls s k = Some r ->
  exists x y, s = x ++ y /\ x <> [] /\ forallb cls x = true /\ k x y = Some r.
Proof.
  destruct s as [|c s]; cbn; [done|]. destruct (cls c) eqn:Hc; [|done].
  intros (x & y & -> & Hx & E)%greedy_class. exists (c :: x), y.
  split; [done|]. split; [done|]. split; [by cbn; rewrite Hc | done].
Qed.

(** The text a lazy quantifier takes is the shortest on which its
    continuation succeeds. *)
Lemma lazy_least cls s : forall acc (k : str -> str -> option R) r,
  lazy cls s acc k = Some r ->
  exists x y, s = x ++ y /\ k (acc ++ x) y = Some r
    /\ forall x1 x2, x = x1 ++ x2 -> x2 <> [] -> k (acc ++ x1) (x2 ++ y) = None.
Proof.
  induction s as [|c s IH]; intros acc k r; cbn.
  - destruct (k acc []) eqn:E; [|done]. intros [= <-].
    exists [], []. split; [done|]. split; [by rewrite app_nil_r|].
    intros x1 x2 Hx Hx2. symmetry in Hx. by apply app_eq_nil in Hx as [_ ->].
  - destruct (k acc (c :: s)) eqn:E.
    + intros [= <-]. exists [], (c :: s). split; [done|].
      split; [by rewrite app_nil_r|].
      intros x1 x2 Hx Hx2. symmetry in Hx. by apply app_eq_nil in Hx as [_ ->].
    + destruct (cls c); [|done].
      intros (x & y & -> & E' & Hleast)%IH. exists (c :: x), y.
      split; [done|]. split; [by rewrite <- app_assoc in E'|].
      intros [|c1 x1] x2 Hx Hx2.
      * cbn in Hx. subst x2. by rewrite app_nil_r.
      * injection Hx as <- ->. specialize (Hleast x1 x2 eq_refl Hx2).
        by rewrite <- app_assoc in Hleast.
Qed.
End MatchShape.

Lemma no_end_inside_intro text tail :
  (forall x1 x2, text = x1 ++ x2 -> x2 <> [] ->
                 strip_prefix END_FILE (x2 ++ tail) = None) ->
  no_end_inside text tail = true.
Proof.
  induction text as [|c text IH]; intros H; [done|].
  cbn [no_end_inside]. apply andb_true_iff. split.
  - unfold starts_with. by rewrite (H [] (c :: text)).
  - apply IH. intros x1 x2 -> Hx2. by apply (H (c :: x1)).
Qed.

Lemma starts_with_app p s tail :
  starts_with p s = true -> starts_with p (s ++ tail) = true.
Proof.
  unfold starts_with. destruct (strip_prefix p s) as [r|] eqn:E; [|done].
  apply strip_prefix_Some in E as ->. by rewrite <- app_assoc, strip_prefix_app.
Qed.

Lemma no_end_inside_contains text tail :
  no_end_inside text tail = true -> contains END_FILE text = false.
Proof.
  induction text as [|c text IH]; [done|].
  cbn [no_end_inside contains]. intros [Hhere Hrest]%andb_true_iff.
  apply orb_false_iff. split; [|by apply IH].
  destruct (starts_with END_FILE (c :: text)) eqn:E; [|done].
  apply (starts_with_app _ _ tail) in E. by rewrite E in Hhere.
Qed.

(** A match of the pattern is a BEGIN marker with its name, white space
    up to a line end, a body that meets no END marker, and the END
    marker. *)
Lemma file_pattern_shape s name body tail :
  file_pattern s = Some (name, body, tail) ->
  name <> [] /\ forallb non_space name = true
  /\ no_end_inside body (END_FILE ++ tail) = true
  /\ exists gap,
       forallb is_space gap = true
       /\ s = BEGIN_FILE ++ name ++ EQUALS3 ++ gap ++ nl :: body ++ END_FILE ++ tail.
Proof.
  unfold file_pattern.
  intros (s1 & -> & H)%lit_Some.
  apply greedy1_class in H as (name' & s2 & -> & Hne & Hname & H).
  apply lit_Some in H as (s3 & -> & H).
  apply greedy_class in H as (gap & s4 & -> & Hgap & H).
  apply lit_Some in H as (s5 & -> & H).
  apply lazy_least in H as (body' & s6 & -> & H & Hleast).
  apply lit_Some in H as (s7 & -> & [= <- <- <-]).
  split; [done|]. split; [done|]. split.
  - apply no_end_inside_intro. intros x1 x2 Hx Hx2.
    specialize (Hleast x1 x2 Hx Hx2). unfold lit in Hleast.
    by destruct (strip_prefix END_FILE _).
  - exists gap. split; [done|]. cbn [app].
    by repeat (rewrite <- app_assoc || rewrite <- app_comm_cons).
Qed.

Lemma findall_from_sound s : forall skip name body,
  (name, body) ∈ findall_from s skip ->
  exists pre rest tail, s = pre ++ rest /\ file_pattern rest = Some (name, body, tail).
Proof.
  induction s as [|c s IH]; intros skip name body; cbn [findall_from].
  - by intros ?%elem_of_nil.
  - assert (forall k, (name, body) ∈ findall_from s k ->
              exists pre rest tail,
                c :: s = pre ++ rest /\ file_pattern rest = Some (name, body, tail))
      as Hlater.
    { intros k (pre & rest & tail & -> & Hm)%IH. by exists (c :: pre), rest, tail. }
    destruct skip as [|skip]; [|apply Hlater].
    destruct (file_pattern (c :: s)) as [[[fname fbody] rest]|] eqn:E; [|apply Hlater].
    intros [[= -> ->]|Hin]%elem_of_cons; [|by eapply Hlater].
    by exists [], (c :: s), rest.
Qed.

Lemma lstrip_nonspace (s : str) : forallb non_space s = true -> lstrip s = s.
Proof.
  destruct s as [|c s]; [done|]. cbn. unfold non_space.
  intros [Hc _]%andb_true_iff. by destruct (is_space c).
Qed.

Lemma strip_nonspace (s : str) : forallb non_space s = true -> strip s = s.
Proof.
  intros H. unfold strip. rewrite (lstrip_nonspace s H).
  rewrite lstrip_nonspace; [apply rev_involutive|].
  apply forallb_forall. intros c Hc%in_rev.
  by apply (proj1 (forallb_forall _ _) H).
Qed.

Lemma lstrip_app_space (gap s : str) :
  forallb is_space gap = true -> lstrip (gap ++ s) = lstrip s.
Proof.
  induction gap as [|c gap IH]; [done|]. cbn.
  intros [-> Hgap]%andb_true_iff. auto.
Qed.

Lemma strip_app_space (gap s : str) :
  forallb is_space gap = true -> strip (gap ++ s) = strip s.
Proof. intros H. unfold strip. by rewrite lstrip_app_space. Qed.

Lemma findall_prose prose tail :
  no_begin_inside prose tail = true -> findall (prose ++ tail) = findall tail.
Proof.
  unfold findall. induction prose as [|c prose IH]; [done|].
  cbn [no_begin_inside]. intros [Hhere Hrest]%andb_true_iff.
  cbn [app findall_from].
  assert (file_pattern (c :: prose ++ tail) = None) as ->.
  { unfold file_pattern, lit. unfold starts_with in Hhere. cbn [app] in Hhere.
    by destruct (strip_prefix BEGIN_FILE (c :: prose ++ tail)). }
  by apply IH.
Qed.

(** X12. Whatever the transcript entry, every block extracted from it has
    a name that is not empty and holds no white space (so that stripping
    the name changes nothing), and a body in which no END line begins,
    that is, no line end followed by [===END_FILE===] ([END_FILE] is the
    marker with the line end before it, as the pattern has it); the block
    stands in the entry between its BEGIN marker line and an END line. *)
Theorem extracted_block_shape (content name body : str) :
  (name, body) ∈ findall content ->
  name <> [] /\ forallb non_space name = true /\ strip name = name
  /\ contains END_FILE body = false
  /\ exists before gap after,
       forallb is_space gap = true
       /\ content = before ++ BEGIN_FILE ++ name ++ EQUALS3 ++ gap ++ nl :: body
                      ++ END_FILE ++ after.
Proof.
  intros (pre & rest & tail & -> & Hm)%findall_from_sound.
  apply file_pattern_shape in Hm as (Hne & Hname & Hend & gap & Hgap & ->).
  split; [done|]. split; [done|]. split; [by apply strip_nonspace|].
  split; [by eapply no_end_inside_contains|].
  by exists pre, gap, tail.
Qed.

Lemma extracted_block_shape_witness :
  let content := lines ["Here is the code:"; "===BEGIN_FILE:main.py==="; "x = 1";
                        "===END_FILE==="; "Done."] in
  (py "main.py", py "x = 1") ∈ findall content
  /\ strip (py "main.py") = py "main.py"
  /\ contains END_FILE (py "x = 1") = false.
Proof.
  cbv zeta.
  assert ((py "main.py", py "x = 1")
          ∈ findall (lines ["Here is the code:"; "===BEGIN_FILE:main.py==="; "x = 1";
                            "===END_FILE==="; "Done."])) as Hin.
  { apply list_elem_of_In. vm_compute. by left. }
  split; [exact Hin|].
  destruct (extracted_block_shape _ _ _ Hin) as (_ & _ & Hstrip & Hbody & _).
  by split.
Defined.

(** X13. A block written out after some prose is read back: when no BEGIN
    marker begins in the prose and the body, which holds more than white
    space, meets no END marker, the entry yields the block's name and a
    body that, once stripped, is the stripped body written; the scan goes
    on after the END marker. *)
Theorem block_round_trip (prose name lead text post : str) (c : char) :
  let written := lead ++ c :: text in
  let block := BEGIN_FILE ++ name ++ EQUALS3 ++ nl :: written ++ END_FILE in
  no_begin_inside prose (block ++ post) = true ->
  name <> [] ->
  forallb non_space name = true ->
  forallb is_space lead = true -> is_space c = false ->
  no_end_inside written (END_FILE ++ post) = true ->
  exists body,
    findall (prose ++ block ++ post) = (name, body) :: findall post
    /\ strip body = strip written
    /\ strip name = name.
Proof.
  cbv zeta. intros Hprose Hne Hname Hlead Hc Hend.
  rewrite (findall_prose _ _ Hprose).
  destruct (findall_block name lead c text post Hne Hname Hlead Hc Hend)
    as (gap & body & Hsplit & Hgap & Hfind).
  exists body. split; [|split].
  - etransitivity; [|exact Hfind]. f_equal.
    by repeat (rewrite <- app_assoc || rewrite <- app_comm_cons).
  - rewrite Hsplit. symmetry. by apply strip_app_space.
  - by apply strip_nonspace.
Qed.

Lemma block_round_trip_witness :
  exists body,
    findall (lines ["Here is the code:"; "===BEGIN_FILE:main.py==="; "  x = 1";
                    "===END_FILE==="; "Done."])
    = (py "main.py", body) :: findall (nl :: py "Done.")
    /\ strip body = py "x = 1"
    /\ strip (py "main.py") = py "main.py".
Proof.
  apply (block_round_trip (py "Here is the code:" ++ [nl]) (py "main.py")
           (py "  ") (py " = 1") (nl :: py "Done.") 120%N).
  - vm_compute. reflexivity.
  - discriminate.
  - reflexivity.
  - reflexivity.
  - reflexivity.
  - vm_compute. reflexivity.
Defined.

(** ** The callback of the application *)

Section DisplayFacts.
Context {W : Type}.
Variable info : str -> external W pyvalue.
Variable format : str -> Z -> py_result str.

Lemma update_progress_returns agent_name action iteration (w : world W) :
  (forall message w e w', info message w = (Raise e, w') -> is_Exception e = true) ->
  (forall template i e, format template i = Raise e -> is_Exception e = true) ->
  exists w', update_progress info format agent_name action iteration w = (Ok PyNone, w').
Proof.
  intros Hinfo Hformat. unfold update_progress.
  destruct (agent_messages !! agent_name) as [actions|]; [|by eexists].
  destruct (actions !! action) as [message|]; [|by eexists].
  assert (forall m, exists w',
            match info m w with
            | (Raise e, w') => if is_Exception e then (Ok PyNone, w') else (Raise e, w')
            | (Ok _, w') => (Ok PyNone, w')
            end = (Ok PyNone, w')) as Hshow.
  { intros m. destruct (info m w) as [[v|e] w'] eqn:E; [by eexists|].
    rewrite (Hinfo _ _ _ _ E). by eexists. }
  destruct iteration as [i|]; [|apply Hshow].
  destruct (contains (py "{}") message); [|apply Hshow].
  destruct (format message i) as [m|e] eqn:E; [apply Hshow|].
  rewrite (Hformat _ _ _ E). by eexists.
Qed.
End DisplayFacts.

(** X14. The callback of the application keeps the failures of the
    display to itself: when the display and the formatting fail with
    instances of [Exception] only, [update_progress] returns [None]
    whatever it is called with, and the selector that notifies it returns
    on every transition, provided the eight agents are in the dictionary. *)
Theorem app_callback_contains_display_errors {W} (info : str -> external W pyvalue)
    (format : str -> Z -> py_result str) :
  (forall message w e w', info message w = (Raise e, w') -> is_Exception e = true) ->
  (forall template i e, format template i = Raise e -> is_Exception e = true) ->
  (forall agent_name action iteration w,
     exists w', update_progress info format agent_name action iteration w
                = (Ok PyNone, w'))
  /\ (forall agents ceiling last_speaker messages (s : state W),
        (forall key, key ∈ stage_keys -> is_Some (agents !! key)) ->
        exists next s',
          custom_speaker_selector
            (WorkflowOrchestrator agents ceiling (Some (update_progress info format)))
            last_speaker messages s
          = (Ok next, s')).
Proof.
  intros Hinfo Hformat. split.
  - intros. by apply update_progress_returns.
  - intros agents ceiling last_speaker messages s Hkeys.
    destruct (selector_returns (fun _ => True)
                (WorkflowOrchestrator agents ceiling (Some (update_progress info format)))
                last_speaker messages s) as (next & s' & E & _).
    + intros callback [= <-] stage action iteration w _.
      destruct (update_progress_returns info format stage action iteration w
                  Hinfo Hformat) as [w' E].
      by exists PyNone, w'.
    + done.
    + destruct (fst (selectNext _ _ _ _)) as [key|] eqn:Ekey; [|done].
      apply Hkeys. by eapply selectNext_key.
    + by exists next, s'.
Qed.

Lemma app_callback_contains_display_errors_witness :
  update_progress display_closed format_fails "python_engineer" "fixing" (Some 2) start
  = (Ok PyNone, start)
  /\ exists s',
       custom_speaker_selector
         (WorkflowOrchestrator (team main_py (py "APPROVED")) 5
            (Some (update_progress display_closed format_fails)))
         (scripted "Admin_Proxy" (py "ok"))
         [{| msg_name := Some "Admin_Proxy"; msg_content := py "build it" |}]
         (new_orchestrator start)
       = (Ok (Some (scripted "Product_Manager" (py "requirements"))), s').
Proof.
  assert (forall message w e w',
            display_closed message w = (Raise e, w') -> is_Exception e = true) as Hinfo.
  { by intros message w e w' [= <- _]. }
  assert (forall template i e,
            format_fails template i = Raise e -> is_Exception e = true) as Hformat.
  { by intros template i e [= <-]. }
  split.
  - destruct (proj1 (app_callback_contains_display_errors display_closed format_fails
                       Hinfo Hformat) "python_engineer" "fixing" (Some 2) start)
      as [w' E].
    transitivity (Ok PyNone, w'); [exact E|].
    vm_compute in E. by injection E as <-.
  - destruct (proj2 (app_callback_contains_display_errors display_closed format_fails
                       Hinfo Hformat)
                (team main_py (py "APPROVED")) 5 (scripted "Admin_Proxy" (py "ok"))
                [{| msg_name := Some "Admin_Proxy"; msg_content := py "build it" |}]
                (new_orchestrator start)) as (next & s' & E).
    + apply (team_keys (WorkflowOrchestrator (team main_py (py "APPROVED")) 5 None)
               (team_is_standard main_py (py "APPROVED"))).
    + exists s'. rewrite E. do 2 f_equal.
      apply (f_equal fst) in E. vm_compute in E. by injection E as <-.
Defined.

#[local] Transparent outcome.

(** A notification records its event, whatever the callback does; without
    a callback nothing happens. *)
Lemma outcome_notify {W} (self : Orchestrator W) stage action iteration (s : state W)
    (Q : py_result unit -> state W -> Prop) :
  Q (Ok tt) s ->
  (forall r w', Q r {| review_iteration_count := review_iteration_count s;
                       trace := trace s ++ [Notified stage action iteration];
                       outside := w' |}) ->
  outcome (notify self stage action iteration) s Q.
Proof.
  intros Hnone Hcall. unfold outcome, notify.
  destruct (progress_callback self) as [callback|]; [|exact Hnone].
  unfold bind, call, ret.
  destruct (callback stage action iteration (outside s)) as [[v|e] w']; apply Hcall.
Qed.

#[global] Opaque outcome.

Lemma displayable_plain stage action actions message :
  agent_messages !! stage = Some actions ->
  actions !! action = Some message ->
  contains (py "{}") message = false ->
  displayable (Notified stage action None).
Proof.
  intros Hs Ha Hc. exists actions, message. split; [done|]. split; [done|].
  rewrite Hc. split; [done | by intros [? [=]]].
Qed.

Lemma displayable_numbered stage action actions message n :
  agent_messages !! stage = Some actions ->
  actions !! action = Some message ->
  contains (py "{}") message = true ->
  displayable (Notified stage action (Some n)).
Proof.
  intros Hs Ha Hc. exists actions, message. split; [done|]. split; [done|].
  rewrite Hc. split; [by eexists | done].
Qed.

Lemma selector_events {W} (self : Orchestrator W) (last_speaker : Agent W)
    (messages : list message) (s : state W) :
  outcome (custom_speaker_selector self last_speaker messages) s
    (fun _ s' =>
       exists events,
         trace s' = trace s ++ events
         /\ Forall displayable events
         /\ (length (filter (fun ev => is_notification ev = true) events) <= 1)%nat).
Proof.
  unfold custom_speaker_selector.
  repeat (cbv beta iota;
          first [ apply outcome_notify; [|intros [?|?] ?] | outcome_step ]).
  all: cbv beta iota; cbn [trace]; rewrite <- ?app_assoc; cbn [app].
  all: eexists; split; [reflexivity|]; split; [|vm_compute; lia].
  all: repeat (apply Forall_cons; split; [|]); try apply Forall_nil; try exact I.
  all: first [ eapply displayable_plain; reflexivity
             | eapply displayable_numbered; reflexivity ].
Qed.

(** X15. Every notification the selector issues is one the application
    has a text for, with a place for the iteration exactly when an
    iteration is passed; and a transition notifies at most once. *)
Theorem notifications_are_displayable {W} (self : Orchestrator W)
    (last_speaker : Agent W) (messages : list message) (s : state W) events :
  trace (snd (custom_speaker_selector self last_speaker messages s))
  = trace s ++ events ->
  Forall displayable events
  /\ (length (filter (fun ev => is_notification ev = true) events) <= 1)%nat.
Proof.
  intros Hev.
  destruct (outcome_elim _ _ _ (selector_events self last_speaker messages s))
    as (events' & Hev' & Hknown & Hone).
  rewrite Hev in Hev'. apply app_inv_head in Hev'. by subst events'.
Qed.

Lemma notifications_are_displayable_witness :
  let events := [Logged DEBUG "Speaker selection: Last speaker";
                 Logged INFO "[Workflow] Review Loop | Code_Reviewer -> Python_Engineer (fixes required)";
                 Notified "python_engineer" "fixing" (Some 1)] in
  Forall displayable events
  /\ (length (filter (fun ev => is_notification ev = true) events) <= 1)%nat.
Proof.
  cbv zeta.
  apply (notifications_are_displayable
           (WorkflowOrchestrator (team main_py (py "FIX_REQUIRED")) 5 (Some callback_silent))
           (scripted "Code_Reviewer" (py "FIX_REQUIRED"))
           [{| msg_name := Some "Code_Reviewer"; msg_content := py "FIX_REQUIRED" |}]
           (new_orchestrator start)).
  vm_compute. reflexivity.
Defined.

(** ** The validation of the request *)

Lemma lstrip_head (s : str) c s' : lstrip s = c :: s' -> is_space c = false.
Proof.
  induction s as [|a s IH]; cbn; [done|].
  destruct (is_space a) eqn:Ea; [done|]. by intros [= <- _].
Qed.

Lemma lstrip_fixed (s : str) :
  (forall c s', s = c :: s' -> is_space c = false) -> lstrip s = s.
Proof.
  destruct s as [|c s]; [done|]. intros H. cbn. by rewrite (H c s eq_refl).
Qed.

Lemma lstrip_suffix (s : str) : exists p, s = p ++ lstrip s.
Proof.
  induction s as [|c s [p IH]]; cbn; [by exists []|].
  destruct (is_space c); [|by exists []].
  exists (c :: p). cbn. by f_equal.
Qed.

(** Stripping twice is stripping once. *)
Lemma strip_strip (s : str) : strip (strip s) = strip s.
Proof.
  unfold strip. set (t := lstrip s). set (u := lstrip (rev t)).
  assert (lstrip (rev u) = rev u) as ->.
  { apply lstrip_fixed. intros c r Hr.
    destruct (lstrip_suffix (rev t)) as [p Hp]. fold u in Hp.
    apply (f_equal (@rev char)) in Hp. rewrite rev_involutive, rev_app_distr, Hr in Hp.
    by apply (lstrip_head s c (r ++ rev p)). }
  rewrite rev_involutive. f_equal. apply lstrip_fixed.
  intros c r Hr. by apply (lstrip_head (rev t) c r).
Qed.

(** X16. The verdict on a request is the verdict on the request without
    the white space around it; and a request is accepted exactly when no
    message comes with the verdict. *)
Theorem validation_ignores_surrounding_space (lower : str -> str)
    (isalpha : char -> bool) (user_input : str) :
  validate_user_input lower isalpha (strip user_input)
  = validate_user_input lower isalpha user_input
  /\ (fst (validate_user_input lower isalpha user_input) = true
      <-> snd (validate_user_input lower isalpha user_input) = []).
Proof.
  split.
  - unfold validate_user_input. by rewrite strip_strip.
  - unfold validate_user_input, refusal.
    repeat match goal with
           | |- context [if ?b then _ else _] => destruct b
           end; cbn [fst snd]; split; done.
Qed.

Lemma workflow_body_result {W} (get_llm_config : external W unit)
    (run_tests : path -> external W test_report) (self : Orchestrator W)
    (user_request : str) (s : state W) r s' :
  strip user_request <> [] ->
  workflow_body get_llm_config run_tests self user_request s = (Ok r, s') ->
  result_status r = "success".
Proof.
  intros Hreq H. unfold workflow_body in H. rewrite (blank_request _ Hreq) in H.
  repeat (apply bind_Ok in H as (? & ? & _ & H)).
  by apply ret_Ok in H as [<- _].
Qed.

Lemma not_the_rejection (a b : str) :
  a ++ py ": " ++ b <> py "User request cannot be empty".
Proof.
  intros H. apply (f_equal (contains (py ": "))) in H.
  rewrite contains_app_r in H by apply contains_prefix.
  vm_compute in H. discriminate.
Qed.

(** X17. What the application lets through, the workflow does not turn
    down as empty: a request accepted by [validate_user_input] has between
    10 and 5000 characters once stripped, and [run_workflow] never answers
    it with ["User request cannot be empty"]. *)
Theorem accepted_request_is_not_blank {W} (lower : str -> str) (isalpha : char -> bool)
    (get_llm_config : external W unit) (run_tests : path -> external W test_report)
    (user_request : str) (agents : gmap string (Agent W))
    (progress_callback : option (string -> string -> option Z -> external W pyvalue))
    (w : world W) :
  fst (validate_user_input lower isalpha user_request) = true ->
  (10 <= length (strip user_request) <= 5000)%nat
  /\ forall text n,
       fst (run_workflow get_llm_config run_tests user_request agents progress_callback w)
       = Ok (Error text n) ->
       text <> py "User request cannot be empty".
Proof.
  intros Hvalid.
  assert ((10 <= length (strip user_request) <= 5000)%nat) as Hlen.
  { revert Hvalid. unfold validate_user_input, refusal.
    destruct (bool_decide _); [done|].
    destruct (Nat.ltb_spec (length (strip user_request)) 10); [done|].
    destruct (Nat.ltb_spec 5000 (length (strip user_request))); [done|].
    intros _. lia. }
  split; [exact Hlen|].
  assert (strip user_request <> []) as Hreq.
  { intros E. rewrite E in Hlen. cbn in Hlen. lia. }
  intros text n. unfold run_workflow, initiate_workflow.
  destruct (workflow_body _ _ _ _ _) as [[r|e] s1] eqn:Hbody.
  - intros [= ->]. by apply workflow_body_result in Hbody.
  - unfold workflow_handler.
    destruct (kind e); unfold bind, log, emit, get_count, ret; cbn [fst];
      try discriminate; intros [= <- _].
    + intros H. vm_compute in H. discriminate.
    + apply (not_the_rejection (py "Workflow timed out")).
    + apply (not_the_rejection (py "Configuration error")).
    + apply (not_the_rejection (py "Connection error")).
    + apply not_the_rejection.
Qed.

Lemma accepted_request_is_not_blank_witness :
  let request := py "  Create a calculator app with basic arithmetic operations " in
  validate_user_input ascii_lower ascii_isalpha request = (true, [])
  /\ (10 <= length (strip request) <= 5000)%nat
  /\ result_status
       (match fst (run_workflow config_found runner_idle request
                     (team main_py (py "APPROVED")) (Some callback_silent) start) with
        | Ok r => r
        | Raise _ => Error [] 0
        end) = "success".
Proof.
  cbv zeta.
  assert (validate_user_input ascii_lower ascii_isalpha
            (py "  Create a calculator app with basic arithmetic operations ")
          = (true, [])) as Hvalid by (vm_compute; reflexivity).
  split; [exact Hvalid|].
  split.
  - apply (accepted_request_is_not_blank ascii_lower ascii_isalpha config_found
             runner_idle _ (team main_py (py "APPROVED")) (Some callback_silent) start).
    by rewrite Hvalid.
  - vm_compute. reflexivity.
Defined.

(** ** The order of the speakers *)

Lemma selectNext_edge ceiling stage transcript counter key counter' stage' :
  selectNext ceiling stage transcript counter = (Next key, counter') ->
  (key, stage') ∈ roster ->
  (stage, stage') ∈ workflow_edges.
Proof.
  unfold selectNext.
  repeat match goal with
         | |- context [String.eqb ?x ?y] =>
             destruct (String.eqb_spec x y) as [Hname|?]
         end;
    repeat match goal with
           | |- context [if ?b then _ else _] => destruct b eqn:?
           end;
    intros [= <- <-] Hin%list_elem_of_In; cbn in Hin;
    repeat (destruct Hin as [Hin'|Hin]; [simplify_eq|]); try done;
    apply list_elem_of_In; cbn; tauto.
Qed.

Section SpeakerOrder.
Context {W : Type}.
Variable self : Orchestrator W.
Hypothesis Hteam : standard_team (agents self).

Lemma selector_follows_edge last_speaker messages (s : state W) next s' :
  custom_speaker_selector self last_speaker messages s = (Ok (Some next), s') ->
  (name last_speaker, name next) ∈ workflow_edges.
Proof.
  intros H. apply selector_refines in H as [_ Hnext].
  destruct (selectNext _ _ _ _) as [[key|] counter'] eqn:Htable; [|done].
  cbn [fst] in Hnext. destruct Hnext as (a & Ha & [= <-]).
  assert (key ∈ stage_keys) as Hkey.
  { eapply selectNext_key. by rewrite Htable. }
  change stage_keys with (fst <$> roster) in Hkey.
  apply list_elem_of_fmap in Hkey as ([k stage'] & -> & Hin).
  rewrite (team_name self Hteam _ _ _ Hin Ha).
  by eapply selectNext_edge.
Qed.

Lemma run_chat_path rounds : forall speaker content messages (s : state W) messages' s',
  run_chat self (S rounds) speaker content messages s = (Ok messages', s') ->
  exists rest,
    messages' = messages ++ {| msg_name := Some (name speaker); msg_content := content |} :: rest
    /\ follows_edges (name speaker) rest = true.
Proof.
  induction rounds as [|rounds IH]; intros speaker content messages s messages' s' H.
  - rewrite run_chat_S in H. cbn zeta in H.
    rewrite bool_decide_eq_true_2, orb_true_r in H by done.
    apply ret_Ok in H as [<- _]. by exists [].
  - rewrite run_chat_S in H. cbn zeta in H.
    destruct (_ || _).
    { apply ret_Ok in H as [<- _]. by exists []. }
    apply bind_Ok in H as ([next|] & s1 & Hsel & H).
    2:{ apply ret_Ok in H as [<- _]. by exists []. }
    apply selector_follows_edge in Hsel.
    apply bind_Ok in H as ([content'|] & s2 & _ & H).
    2:{ apply ret_Ok in H as [<- _]. by exists []. }
    apply IH in H as (rest & -> & Hrest). eexists. split.
    + rewrite <- app_assoc. reflexivity.
    + cbn [follows_edges msg_name]. by rewrite bool_decide_eq_true_2, Hrest.
Qed.
End SpeakerOrder.

(** X18. The transcript of a successful run of a standard team is a walk
    through the workflow: it opens with the request under [Admin_Proxy],
    and each entry after it is by a stage that the workflow puts right
    after the stage of the entry before (so that nothing follows an entry
    of [UX_Designer]). *)
Theorem transcript_follows_workflow {W} (get_llm_config : external W unit)
    (run_tests : path -> external W test_report) (self : Orchestrator W)
    (user_request : str) (s : state W) n c k messages report :
  standard_team (agents self) ->
  fst (initiate_workflow get_llm_config run_tests self user_request s)
  = Ok (Success n c k messages report) ->
  exists rest,
    messages = {| msg_name := Some "Admin_Proxy"; msg_content := user_request |} :: rest
    /\ follows_edges "Admin_Proxy" rest = true.
Proof.
  intros Hteam H.
  destruct (initiate_workflow _ _ _ _ _) as [r s'] eqn:E. cbn in H. subst r.
  apply workflow_success_inv in E
    as (admin & groupchat & s1 & s2 & Hadmin & Hcap & _ & _ & Hchat & _ & _).
  unfold initiate_chat in Hchat. rewrite Hcap in Hchat.
  apply (run_chat_path self Hteam) in Hchat as (rest & -> & Hrest).
  assert (name admin = "Admin_Proxy") as Hname.
  { apply (team_name self Hteam "admin_proxy"); [|done].
    apply list_elem_of_In. cbn. tauto. }
  rewrite Hname in Hrest |- *. by exists rest.
Qed.

Lemma transcript_follows_workflow_witness :
  match fst (run_workflow config_found runner_idle (py "build a calculator")
               (team main_py (py "FIX_REQUIRED")) (Some callback_silent) start) with
  | Ok (Success n _ _ messages _) =>
      n = 16%nat
      /\ exists rest,
           messages = {| msg_name := Some "Admin_Proxy";
                         msg_content := py "build a calculator" |} :: rest
           /\ follows_edges "Admin_Proxy" rest = true
  | _ => False
  end.
Proof.
  destruct (fst (run_workflow config_found runner_idle (py "build a calculator")
                   (team main_py (py "FIX_REQUIRED")) (Some callback_silent) start))
    as [[n c k messages report|]|] eqn:E.
  - split.
    + vm_compute in E. by injection E as <- _ _ _ _.
    + apply (transcript_follows_workflow config_found runner_idle
               (WorkflowOrchestrator (team main_py (py "FIX_REQUIRED")) 5
                  (Some callback_silent))
               (py "build a calculator") (new_orchestrator start) n c k messages report).
      * apply team_is_standard.
      * exact E.
  - vm_compute in E. discriminate.
  - vm_compute in E. discriminate.
Defined.

(** ** The counter in the record *)

Lemma workflow_body_counter {W} (get_llm_config : external W unit)
    (run_tests : path -> external W test_report) (self : Orchestrator W)
    (user_request : str) (s : state W) r s' :
  strip user_request <> [] ->
  workflow_body get_llm_config run_tests self user_request s = (Ok r, s') ->
  result_review_iterations r = review_iteration_count s'.
Proof.
  intros Hreq H. unfold workflow_body in H. rewrite (blank_request _ Hreq) in H.
  repeat match type of H with
         | bind ?c _ _ = _ =>
             lazymatch c with
             | get_count => fail
             | _ => apply bind_Ok in H as (? & ? & _ & H)
             end
         end.
  apply bind_Ok in H as (count & s1 & (-> & ->)%get_count_Ok & H).
  by apply ret_Ok in H as [<- <-].
Qed.

(** X19. Whatever record a run returns for a request that is not blank,
    success or error, its [review_iterations] is the counter of the
    orchestrator as the run leaves it. *)
Theorem record_reports_counter {W} (get_llm_config : external W unit)
    (run_tests : path -> external W test_report) (self : Orchestrator W)
    (user_request : str) (s : state W) r s' :
  strip user_request <> [] ->
  initiate_workflow get_llm_config run_tests self user_request s = (Ok r, s') ->
  result_review_iterations r = review_iteration_count s'.
Proof.
  intros Hreq. unfold initiate_workflow.
  destruct (workflow_body _ _ _ _ _) as [[r0|e] s1] eqn:Hbody.
  - intros [= <- <-]. by eapply workflow_body_counter.
  - unfold workflow_handler.
    destruct (kind e); unfold bind, log, emit, get_count, ret;
      try discriminate; by intros [= <- <-].
Qed.

Lemma record_reports_counter_witness :
  match run_workflow config_found runner_idle (py "build a calculator")
          (team main_py (py "FIX_REQUIRED")) (Some callback_silent) start with
  | (Ok r, s') =>
      result_review_iterations r = review_iteration_count s'
      /\ review_iteration_count s' = 5
  | _ => False
  end.
Proof.
  destruct (run_workflow config_found runner_idle (py "build a calculator")
              (team main_py (py "FIX_REQUIRED")) (Some callback_silent) start)
    as [[r|e] s'] eqn:E.
  - split.
    + apply (record_reports_counter config_found runner_idle
               (WorkflowOrchestrator (team main_py (py "FIX_REQUIRED")) 5
                  (Some callback_silent))
               (py "build a calculator") (new_orchestrator start) r s').
      * vm_compute. discriminate.
      * exact E.
    + vm_compute in E. by injection E as _ <-.
  - vm_compute in E. discriminate.
Defined.
